(** * News aggregation bot: cache refresh, per-user list views, favorites,
      subscriptions and the daily digest.

    Shallow embedding of [bot.py], [full_webhook_bot.py],
    [simple_sync_webhook_bot.py] and [scheduler.py].

    Conventions of the embedding.
    - A Python dict used as a keyed store is a [gmap]; user ids are [Z]
      ([str(user_id)] is injective, so the JSON key and the integer are
      identified).
    - A moment of the wall clock ([datetime.now()]) is a [Z] (microseconds);
      an operation reads the clock once.  A stored [isoformat()] string is
      identified with the moment it denotes.
    - The news provider (the HTTP endpoint behind [requests.get]) is a
      function from the request to its outcome; every request issued is
      recorded in a log, so that "no provider call" can be stated.
    - JSON files are modelled by their decoded content as the loaders
      return it; writes succeed.
    - Chat messages are modelled by a reply value naming the message sent. *)

From stdpp Require Import gmap strings list pretty.
From Stdlib Require Import ZArith Lia.

Open Scope string_scope.
Open Scope list_scope.
Open Scope Z_scope.

(** ** Data model *)

(** The value of a ['published_at'] or ['timestamp'] field: either the string
    the provider supplied or the [isoformat()] of a clock reading. *)
Inductive Stamp :=
| ProviderStamp (s : string)
| ClockStamp (t : Z).

(** A stored news entry (the dict built by the fetch loops).  ['saved_at'] is
    only set by [SimpleNewsBot.handle_save_command]. *)
Record Item := {
  title : string;
  description : string;
  url : string;
  source : string;
  category : string;
  published_at : Stamp;
  timestamp : Stamp;
  saved_at : option Z }.

(** An element of the provider's ['articles'] array.  A field read with
    [article.get(...)] may be missing or null ([None]); [source.name] and
    [publishedAt] are part of the provider's schema. *)
Record Article := {
  a_title : option string;
  a_description : option string;
  a_url : option string;
  a_source_name : string;
  a_publishedAt : string }.

(** The decoded body of a provider response. *)
Record Data := {
  status : string;
  articles : list Article }.

(** Outcome of [requests.get] + [raise_for_status] + [json()]. *)
Inductive Response :=
| RequestException
| Json (data : Data).

Record Request := {
  rq_category : option string;
  rq_country : string;
  rq_pageSize : nat;
  rq_page : option nat }.

Definition Provider := Request -> Response.

(** Python truthiness of [dict.get(key)] for a string-valued key. *)
Definition truthy (v : option string) : bool :=
  match v with
  | Some s => negb (String.eqb s "")
  | None => false
  end.

(** [x or y] on a string-valued [x]. *)
Definition or_default (v : option string) (d : string) : string :=
  match v with
  | Some s => if String.eqb s "" then d else s
  | None => d
  end.

(** [data.get('status') == 'ok' and data.get('articles')] *)
Definition data_ok (d : Data) : bool :=
  String.eqb (status d) "ok" && negb (bool_decide (articles d = [])).

(** [self.categories] *)
Definition categories : list (string * string) :=
  [ ("technology", "технологии"); ("science", "наука"); ("business", "бизнес");
    ("health", "здоровье"); ("sports", "спорт");
    ("entertainment", "развлечения"); ("general", "общие") ].

(** [self.categories.get(category, category)] *)
Definition categories_get (c : string) : string :=
  match list_find (fun kv => fst kv = c) categories with
  | Some (_, kv) => snd kv
  | None => c
  end.

(** The validity test guarding every [news_list.append] of the fetch loops. *)
Definition valid_article (a : Article) : bool :=
  truthy (a_title a) && truthy (a_description a) && truthy (a_url a)
  && negb (bool_decide (a_url a = Some "https://removed.com")).

(** The dict appended for a valid article. *)
Definition make_item (cat : string) (now : Z) (a : Article) : Item :=
  {| title := default "" (a_title a);
     description := or_default (a_description a) "Описание недоступно";
     url := default "" (a_url a);
     source := a_source_name a;
     category := cat;
     published_at := ProviderStamp (a_publishedAt a);
     timestamp := ClockStamp now;
     saved_at := None |}.

(** [any(existing['title'] == t for existing in news_list)] *)
Definition any_title (t : string) (news_list : list Item) : bool :=
  existsb (fun existing => String.eqb (title existing) t) news_list.

(** The first [n] code points of a UTF-8 encoded string: Python's [s[:n]]. *)
Definition is_continuation (c : Ascii.ascii) : bool :=
  let b := Ascii.nat_of_ascii c in ((128 <=? b) && (b <? 192))%nat.

Fixpoint slice_to (n : nat) (s : string) : string :=
  match s with
  | EmptyString => EmptyString
  | String c s' =>
      if is_continuation c then String c (slice_to n s')
      else match n with
           | O => EmptyString
           | S n' => String c (slice_to n' s')
           end
  end.

(** ** [NewsBot] of [bot.py] and [full_webhook_bot.py]

    The two classes differ only in [_get_test_news]; the shared methods are
    written once over it. *)

(** Content of [data/news.json] as [_load_data] returns it; an unreadable
    file gives [{}], that is both keys absent. *)
Record NewsData := {
  last_update : option Z;
  news : option (list Item) }.

(** Content of [data/users.json]. *)
Record UsersData := {
  subscribers : list Z;
  favorites : gmap Z (list Item) }.

Record BotState := {
  news_file : NewsData;
  users_file : UsersData }.

(** [_init_data_files] *)
Definition initial_news_data : NewsData :=
  {| last_update := None; news := Some [] |}.

Definition initial_users_data : UsersData :=
  {| subscribers := []; favorites := ∅ |}.

Definition initial_state : BotState :=
  {| news_file := initial_news_data; users_file := initial_users_data |}.

(** [timedelta(minutes=30)] *)
Definition TTL : Z := 30 * 60 * 1000000.

Definition category_request (c : string) : Request :=
  {| rq_category := Some c; rq_country := "us"; rq_pageSize := 3; rq_page := None |}.

Definition general_request : Request :=
  {| rq_category := None; rq_country := "us"; rq_pageSize := 10; rq_page := None |}.

(** The [for article in data.get('articles', [])] loop of a category query. *)
Definition collect (cat : string) (now : Z) (arts : list Article)
    (news_list : list Item) : list Item :=
  news_list ++ map (make_item cat now) (filter (fun a => valid_article a = true) arts).

(** The [for category in ...] loop, over the request built for a category;
    [None] when a request raised. *)
Fixpoint fetch_categories (request_for : string -> Request)
    (provider : Provider) (now : Z) (cats : list string)
    (news_list : list Item) : option (list Item) * list Request :=
  match cats with
  | [] => (Some news_list, [])
  | c :: cats' =>
      let rq := request_for c in
      match provider rq with
      | RequestException => (None, [rq])
      | Json data =>
          let news_list' :=
            if data_ok data
            then collect (categories_get c) now (articles data) news_list
            else news_list in
          let '(r, log) :=
            fetch_categories request_for provider now cats' news_list' in
          (r, rq :: log)
      end
  end.

(** The loop over the aggregate query's articles, with its [break]. *)
Fixpoint merge_general (cap : nat) (now : Z) (arts : list Article)
    (news_list : list Item) : list Item :=
  match arts with
  | [] => news_list
  | a :: arts' =>
      if valid_article a then
        if any_title (default "" (a_title a)) news_list
        then merge_general cap now arts' news_list
        else
          let news_list' := news_list ++ [make_item "общие" now a] in
          if (cap <=? length news_list')%nat then news_list'
          else merge_general cap now arts' news_list'
      else merge_general cap now arts' news_list
  end.

Module NewsBot.
Section Methods.

(** [_get_test_news], given the clock reading of its [datetime.now()]. *)
Variable _get_test_news : Z -> list Item.

(** [os.getenv('NEWS_API_KEY')] *)
Variable news_api_key : option string.

(** [_fetch_news]: the batch and the provider requests issued. *)
Definition _fetch_news (provider : Provider) (now : Z)
    : list Item * list Request :=
  if negb (truthy news_api_key) then (_get_test_news now, [])
  else
    match fetch_categories category_request provider now
            ["technology"; "science"; "business"; "health"; "sports"] [] with
    | (None, log) => (_get_test_news now, log)
    | (Some news_list, log) =>
        let '(news_list', log') :=
          if (length news_list <? 5)%nat then
            match provider general_request with
            | RequestException => (news_list, [general_request])
            | Json data =>
                (if data_ok data
                 then merge_general 15 now (articles data) news_list
                 else news_list,
                 [general_request])
            end
          else (news_list, []) in
        (match news_list' with
         | [] => _get_test_news now
         | _ => news_list'
         end, log ++ log')
    end.

(** The staleness test of [_update_news]. *)
Definition needs_update (news_data : NewsData) (current_time : Z) : bool :=
  match last_update news_data with
  | None => true
  | Some t => bool_decide (t < current_time - TTL)
  end.

(** [_update_news]: the returned batch, the content of the news file
    afterwards and the provider requests issued.  Reading a missing
    ['news'] key raises, and the handler returns [[]]. *)
Definition _update_news (provider : Provider) (current_time : Z)
    (news_data : NewsData) : list Item * NewsData * list Request :=
  if needs_update news_data current_time then
    let '(new_news, log) := _fetch_news provider current_time in
    (new_news,
     {| last_update := Some current_time; news := Some new_news |},
     log)
  else (default [] (news news_data), news_data, []).

End Methods.
End NewsBot.

(** ** [bot.py] *)

Module bot.

Definition _get_test_news (now : Z) : list Item :=
  [ {| title := "Новые технологии в области искусственного интеллекта";
       description := "Исследователи представили новую модель ИИ, способную решать сложные задачи машинного обучения.";
       url := "https://example.com/ai-news";
       source := "TechNews";
       category := "технологии";
       published_at := ClockStamp now;
       timestamp := ClockStamp now;
       saved_at := None |};
    {| title := "Открытие в области квантовой физики";
       description := "Ученые сделали важное открытие в области квантовых вычислений, которое может революционизировать криптографию.";
       url := "https://example.com/quantum-news";
       source := "ScienceDaily";
       category := "наука";
       published_at := ClockStamp now;
       timestamp := ClockStamp now;
       saved_at := None |};
    {| title := "Рост рынка криптовалют";
       description := "Аналитики прогнозируют значительный рост криптовалютного рынка в ближайшие месяцы.";
       url := "https://example.com/crypto-news";
       source := "BusinessToday";
       category := "бизнес";
       published_at := ClockStamp now;
       timestamp := ClockStamp now;
       saved_at := None |};
    {| title := "Разработка нового процессора";
       description := "Компания представила новый процессор с улучшенной производительностью и энергоэффективностью.";
       url := "https://example.com/processor-news";
       source := "TechWorld";
       category := "технологии";
       published_at := ClockStamp now;
       timestamp := ClockStamp now;
       saved_at := None |};
    {| title := "Прорыв в медицине";
       description := "Ученые разработали новый метод лечения, который показывает обнадеживающие результаты в клинических испытаниях.";
       url := "https://example.com/medical-news";
       source := "MedicalNews";
       category := "наука";
       published_at := ClockStamp now;
       timestamp := ClockStamp now;
       saved_at := None |};
    {| title := "Инвестиции в стартапы";
       description := "Венчурные фонды увеличивают инвестиции в технологические стартапы, особенно в области финтеха.";
       url := "https://example.com/startup-news";
       source := "VentureBeat";
       category := "бизнес";
       published_at := ClockStamp now;
       timestamp := ClockStamp now;
       saved_at := None |} ].

Definition _fetch_news := NewsBot._fetch_news _get_test_news.
Definition _update_news := NewsBot._update_news _get_test_news.

(** The message [save_command] answers with; [SaveFailed] is the answer of
    its [except Exception] handler. *)
Inductive SaveReply :=
| NoSuchNews (news_number : Z)
| AlreadySaved
| Saved (title_prefix : string)
| SaveFailed.

(** [save_command], from the parsed number on. *)
Definition save_command (user_id news_number : Z) (st : BotState)
    : SaveReply * BotState :=
  let news_list := default [] (news (news_file st)) in
  if bool_decide (news_number < 1)
     || bool_decide (news_number > Z.of_nat (length news_list))
  then (NoSuchNews news_number, st)
  else
    let users_data := users_file st in
    let user_favorites := default [] (favorites users_data !! user_id) in
    match news_list !! Z.to_nat (news_number - 1) with
    | None => (SaveFailed, st)
    | Some news_to_save =>
        if any_title (title news_to_save) user_favorites
        then (AlreadySaved, st)
        else
          (Saved (slice_to 50 (title news_to_save)),
           {| news_file := news_file st;
              users_file :=
                {| subscribers := subscribers users_data;
                   favorites :=
                     <[user_id := user_favorites ++ [news_to_save]]>
                       (favorites users_data) |} |})
    end.

(** [favorites_command]: the list rendered for the user. *)
Definition favorites_command (user_id : Z) (st : BotState) : list Item :=
  default [] (favorites (users_file st) !! user_id).

(** [list.remove(x)] on a list that contains [x]: drops the first
    occurrence. *)
Fixpoint list_remove (x : Z) (l : list Z) : list Z :=
  match l with
  | [] => []
  | y :: l' => if bool_decide (y = x) then l' else y :: list_remove x l'
  end.

Inductive DailyReply :=
| Unsubscribed
| Subscribed.

(** [daily_command] *)
Definition daily_command (user_id : Z) (st : BotState)
    : DailyReply * BotState :=
  let users_data := users_file st in
  let subs := subscribers users_data in
  if bool_decide (user_id ∈ subs) then
    (Unsubscribed,
     {| news_file := news_file st;
        users_file := {| subscribers := list_remove user_id subs;
                         favorites := favorites users_data |} |})
  else
    (Subscribed,
     {| news_file := news_file st;
        users_file := {| subscribers := subs ++ [user_id];
                         favorites := favorites users_data |} |}).

End bot.

(** ** [full_webhook_bot.py] *)

Module full_webhook_bot.

Definition _get_test_news (now : Z) : list Item :=
  [ {| title := "Новые технологии в области искусственного интеллекта";
       description := "Исследователи представили новую модель ИИ, способную решать сложные задачи машинного обучения.";
       url := "https://example.com/ai-news";
       source := "TechNews";
       category := "технологии";
       published_at := ClockStamp now;
       timestamp := ClockStamp now;
       saved_at := None |};
    {| title := "Открытие в области квантовой физики";
       description := "Ученые сделали важное открытие в области квантовых вычислений, которое может революционизировать криптографию.";
       url := "https://example.com/quantum-news";
       source := "ScienceDaily";
       category := "наука";
       published_at := ClockStamp now;
       timestamp := ClockStamp now;
       saved_at := None |} ].

Definition _fetch_news := NewsBot._fetch_news _get_test_news.
Definition _update_news := NewsBot._update_news _get_test_news.

End full_webhook_bot.

(** ** [scheduler.py] *)

Module scheduler.

Definition nl : string := "
".

(** The body of the [for i, news in enumerate(news_list[:5], 1)] loop,
    from index [i] on. *)
Fixpoint digest_entries (i : nat) (news_list : list Item) : string :=
  match news_list with
  | [] => ""
  | news :: rest =>
      "**" +:+ pretty i +:+ ". " +:+ title news +:+ "**" +:+ nl
      +:+ "📝 " +:+ slice_to 100 (description news) +:+ "..." +:+ nl
      +:+ "🏷️ " +:+ category news +:+ " | 📰 " +:+ source news +:+ nl
      +:+ "🔗 [Читать далее](" +:+ url news +:+ ")" +:+ nl +:+ nl
      +:+ digest_entries (S i) rest
  end.

(** The text [send_daily_digest] builds from a non-empty [news_list]. *)
Definition digest_text (news_list : list Item) : string :=
  nl +:+ "🌅 **Доброе утро! Ежедневный дайджест новостей**" +:+ nl +:+ nl
  +:+ "📰 Сегодня у нас " +:+ pretty (length news_list)
  +:+ " свежих новостей:" +:+ nl +:+ nl
  +:+ digest_entries 1 (take 5 news_list)
  +:+ "Используйте /news для просмотра всех новостей или /favorites для избранного!".

(** What a run of [send_daily_digest] does: one of the two early returns
    (each only writes a log line), or a [send_message] per subscriber. *)
Inductive DigestRun :=
| NoSubscribers
| NoNews
| Broadcast (messages : list (Z * string)).

(** [send_daily_digest], over the content of [users.json] and
    [news.json]. *)
Definition send_daily_digest (st : BotState) : DigestRun :=
  let subs := subscribers (users_file st) in
  match subs with
  | [] => NoSubscribers
  | _ =>
      let news_list := default [] (news (news_file st)) in
      match news_list with
      | [] => NoNews
      | _ =>
          let text := digest_text news_list in
          Broadcast (map (fun user_id => (user_id, text)) subs)
      end
  end.

(** The messages a run hands to [send_message]. *)
Definition sent (r : DigestRun) : list (Z * string) :=
  match r with
  | Broadcast messages => messages
  | _ => []
  end.

End scheduler.

(** ** [bot.py]: [send_daily_digest] *)

Module bot_digest.

(** What a run of [NewsBot.send_daily_digest] does: one of its two early
    returns (each only writes a log line), or the digest text it builds and
    the subscribers its sending loop goes through.  The loop calls
    [context.bot.send_message] for each of them inside a [try]; [context] is
    a parameter of the command handlers, not of this method. *)
Inductive DigestRun :=
| NoSubscribers
| NoNews
| Composed (text : string) (recipients : list Z).

(** [send_daily_digest]: the batch comes from [_update_news], which may
    refresh the news file; the text is built as in [scheduler.py]. *)
Definition send_daily_digest (news_api_key : option string)
    (provider : Provider) (now : Z) (st : BotState)
    : DigestRun * BotState * list Request :=
  match subscribers (users_file st) with
  | [] => (NoSubscribers, st, [])
  | _ =>
      let '(news_list, news_data, log) :=
        bot._update_news news_api_key provider now (news_file st) in
      let st' := {| news_file := news_data; users_file := users_file st |} in
      match news_list with
      | [] => (NoNews, st', log)
      | _ =>
          (Composed (scheduler.digest_text news_list)
             (subscribers (users_file st)),
           st', log)
      end
  end.

End bot_digest.

(** ** [simple_sync_webhook_bot.py] *)

Module simple_sync_webhook_bot.

(** An entry of [data/subscriptions.json]. *)
Record Subscription := {
  subscribed : bool;
  subscribed_at : option Z;
  last_sent : option Z;
  unsubscribed_at : option Z }.

(** [self.last_news_cache] and the JSON files of [SimpleNewsBot]. *)
Record State := {
  last_news_cache : gmap Z (list Item);
  favorites_file : gmap Z (list Item);
  subscriptions_file : gmap Z Subscription }.

(** The draws of the [random] module during one [get_news]. *)
Record Random := {
  shuffle_categories : list string -> list string;
  randint_page : string -> nat;
  choice_country : list string -> string;
  randint_general_page : nat;
  shuffle_news : list Item -> list Item }.

(** What a handler reads from outside the bot's own state. *)
Record Env := {
  news_api_key : option string;
  provider : Provider;
  now : Z;
  random : Random }.

(** [__init__] followed by [_init_data_files] on a fresh data directory. *)
Definition initial_state : State :=
  {| last_news_cache := ∅; favorites_file := ∅; subscriptions_file := ∅ |}.

Definition get_test_news (now : Z) : list Item :=
  [ {| title := "Новые технологии в области искусственного интеллекта";
       description := "Исследователи представили новую модель ИИ, способную решать сложные задачи машинного обучения.";
       url := "https://example.com/ai-news";
       source := "TechNews";
       category := "технологии";
       published_at := ClockStamp now;
       timestamp := ClockStamp now;
       saved_at := None |};
    {| title := "Открытие в области квантовой физики";
       description := "Ученые сделали важное открытие в области квантовых вычислений.";
       url := "https://example.com/quantum-news";
       source := "ScienceDaily";
       category := "наука";
       published_at := ClockStamp now;
       timestamp := ClockStamp now;
       saved_at := None |} ].

Definition category_request (rnd : Random) (c : string) : Request :=
  {| rq_category := Some c; rq_country := "us"; rq_pageSize := 2;
     rq_page := Some (randint_page rnd c) |}.

Definition general_request (rnd : Random) : Request :=
  {| rq_category := None;
     rq_country := choice_country rnd ["us"; "gb"; "ca"; "au"];
     rq_pageSize := 8;
     rq_page := Some (randint_general_page rnd) |}.

(** [get_news] *)
Definition get_news (env : Env) : list Item :=
  if negb (truthy (news_api_key env)) then get_test_news (now env)
  else
    let rnd := random env in
    let cats :=
      shuffle_categories rnd
        ["technology"; "science"; "business"; "health"; "sports";
         "entertainment"] in
    match fetch_categories (category_request rnd) (provider env) (now env)
            (take 3 cats) [] with
    | (None, _) => get_test_news (now env)
    | (Some news_list, _) =>
        let news_list' :=
          if (length news_list <? 5)%nat then
            match provider env (general_request rnd) with
            | RequestException => news_list
            | Json data =>
                if data_ok data
                then merge_general 10 (now env) (articles data) news_list
                else news_list
            end
          else news_list in
        take 8 (shuffle_news rnd news_list')
    end.

(** [_filter_saved_news], over the loaded favorites. *)
Definition _filter_saved_news (news_list : list Item) (user_id : Z)
    (favorites : gmap Z (list Item)) : list Item :=
  match favorites !! user_id with
  | None => news_list
  | Some user_favorites =>
      let saved_titles : gset string := list_to_set (title <$> user_favorites) in
      filter (fun news => title news ∉ saved_titles) news_list
  end.

(** The messages [handle_news_command] answers with. *)
Inductive NewsReply :=
| NewsUnavailable
| AllSaved
| NewsShown (shown : list Item).

(** [handle_news_command] *)
Definition handle_news_command (env : Env) (chat_id : Z) (st : State)
    : NewsReply * State :=
  let news_list := get_news env in
  match news_list with
  | [] => (NewsUnavailable, st)
  | _ =>
      let filtered_news :=
        _filter_saved_news news_list chat_id (favorites_file st) in
      match filtered_news with
      | [] => (AllSaved, st)
      | _ =>
          (NewsShown (take 5 filtered_news),
           {| last_news_cache :=
                <[chat_id := take 5 filtered_news]> (last_news_cache st);
              favorites_file := favorites_file st;
              subscriptions_file := subscriptions_file st |})
      end
  end.

(** Lines 484-490 of [handle_save_command]: the list an index is resolved
    against, and the list cache afterwards. *)
Definition lookup_news_list (env : Env) (chat_id : Z)
    (cache : gmap Z (list Item)) : list Item * gmap Z (list Item) :=
  match cache !! chat_id with
  | Some news_list => (news_list, cache)
  | None =>
      let news_list := get_news env in
      (news_list,
       match news_list with
       | [] => cache
       | _ => <[chat_id := take 5 news_list]> cache
       end)
  end.

(** Lines 492-496: the guard on the number and the indexing.  [None] is
    the "invalid number" answer. *)
Definition resolve (news_list : list Item) (news_number : Z) : option Item :=
  if bool_decide (news_list = []) || bool_decide (news_number < 1)
     || bool_decide (news_number > Z.of_nat (length news_list))
  then None
  else news_list !! Z.to_nat (news_number - 1).

(** [news['saved_at'] = t] *)
Definition set_saved_at (t : Z) (news : Item) : Item :=
  {| title := title news;
     description := description news;
     url := url news;
     source := source news;
     category := category news;
     published_at := published_at news;
     timestamp := timestamp news;
     saved_at := Some t |}.

(** The messages [handle_save_command] answers with; [Saved] carries the
    entry appended to the favorites. *)
Inductive SaveReply :=
| InvalidNumber (available : nat)
| AlreadySaved
| Saved (saved : Item).

(** [handle_save_command].  [news_to_save] is the very dict held in the
    user's cached list, so setting ['saved_at'] on it also changes that
    entry of the cache. *)
Definition handle_save_command (env : Env) (chat_id news_number : Z)
    (st : State) : SaveReply * State :=
  let '(news_list, cache) := lookup_news_list env chat_id (last_news_cache st) in
  match resolve news_list news_number with
  | None =>
      (InvalidNumber (length news_list),
       {| last_news_cache := cache;
          favorites_file := favorites_file st;
          subscriptions_file := subscriptions_file st |})
  | Some news_to_save =>
      let user_favorites := default [] (favorites_file st !! chat_id) in
      if any_title (title news_to_save) user_favorites then
        (AlreadySaved,
         {| last_news_cache := cache;
            favorites_file := favorites_file st;
            subscriptions_file := subscriptions_file st |})
      else
        let saved := set_saved_at (now env) news_to_save in
        (Saved saved,
         {| last_news_cache :=
              alter (fun l => <[Z.to_nat (news_number - 1) := saved]> l)
                chat_id cache;
            favorites_file :=
              <[chat_id := user_favorites ++ [saved]]> (favorites_file st);
            subscriptions_file := subscriptions_file st |})
  end.

(** [handle_favorites_command]: the list rendered for the user. *)
Definition handle_favorites_command (chat_id : Z) (st : State) : list Item :=
  default [] (favorites_file st !! chat_id).

(** The button [handle_daily_command] offers. *)
Inductive DailyOffer :=
| OfferUnsubscribe
| OfferSubscribe.

(** [handle_daily_command] *)
Definition handle_daily_command (chat_id : Z) (st : State) : DailyOffer :=
  match subscriptions_file st !! chat_id with
  | Some sub => if subscribed sub then OfferUnsubscribe else OfferSubscribe
  | None => OfferSubscribe
  end.

(** [_subscribe_to_daily] *)
Definition _subscribe_to_daily (env : Env) (chat_id : Z) (st : State) : State :=
  {| last_news_cache := last_news_cache st;
     favorites_file := favorites_file st;
     subscriptions_file :=
       <[chat_id := {| subscribed := true;
                       subscribed_at := Some (now env);
                       last_sent := None;
                       unsubscribed_at := None |}]> (subscriptions_file st) |}.

(** [_unsubscribe_from_daily] *)
Definition _unsubscribe_from_daily (env : Env) (chat_id : Z) (st : State) : State :=
  {| last_news_cache := last_news_cache st;
     favorites_file := favorites_file st;
     subscriptions_file :=
       alter (fun sub => {| subscribed := false;
                            subscribed_at := subscribed_at sub;
                            last_sent := last_sent sub;
                            unsubscribed_at := Some (now env) |})
         chat_id (subscriptions_file st) |}.

End simple_sync_webhook_bot.

(** ** [bot.py]: the statistics file, [/start], [/news] and the save buttons *)

(** [s.split(sep)] for a separator of one character. *)
Fixpoint split_on (sep : Ascii.ascii) (s : string) : list string :=
  match s with
  | EmptyString => [EmptyString]
  | String c s' =>
      if bool_decide (c = sep) then EmptyString :: split_on sep s'
      else match split_on sep s' with
           | part :: parts => String c part :: parts
           | [] => [String c EmptyString]
           end
  end.

(** The character '_'. *)
Definition underscore : Ascii.ascii := Ascii.ascii_of_nat 95.

(** [l[i]] for a Python list: a negative index counts from the end, and an
    index out of range raises ([None]). *)
Definition py_index {A} (l : list A) (i : Z) : option A :=
  if bool_decide (0 <= i) then l !! Z.to_nat i
  else if bool_decide (- Z.of_nat (length l) <= i)
       then l !! Z.to_nat (Z.of_nat (length l) + i)
       else None.

Module bot_handlers.

(** An entry of ['user_stats'] in [data/user_stats.json]. *)
Record UserStats := {
  commands_count : nat;
  last_command : option string;
  feedback_sent : bool;
  commands_used : gmap string nat }.

(** Content of [data/user_stats.json]. *)
Record StatsData := {
  user_stats : gmap Z UserStats;
  total_commands : nat;
  stats_last_update : option Z }.

(** The files of the bot: news and users as before, and the statistics. *)
Record State := {
  core : BotState;
  stats_file : StatsData }.

(** [_init_data_files] *)
Definition initial_stats : StatsData :=
  {| user_stats := ∅; total_commands := 0; stats_last_update := None |}.

Definition initial : State :=
  {| core := initial_state; stats_file := initial_stats |}.

(** What a handler reads from outside the files. *)
Record Env := {
  news_api_key : option string;
  provider : Provider;
  now : Z }.

(** The entry [_update_user_stats] creates for a user it has not seen. *)
Definition new_user_stats : UserStats :=
  {| commands_count := 0; last_command := None; feedback_sent := false;
     commands_used := ∅ |}.

(** [_update_user_stats]: whether the feedback form is due, and the
    statistics file afterwards. *)
Definition _update_user_stats (now : Z) (user_id : Z) (command : string)
    (stats_data : StatsData) : bool * StatsData :=
  let entry := default new_user_stats (user_stats stats_data !! user_id) in
  let entry' :=
    {| commands_count := S (commands_count entry);
       last_command := Some command;
       feedback_sent := feedback_sent entry;
       commands_used :=
         <[command := S (default 0%nat (commands_used entry !! command))]>
           (commands_used entry) |} in
  (bool_decide (10 <= commands_count entry')%nat && negb (feedback_sent entry'),
   {| user_stats := <[user_id := entry']> (user_stats stats_data);
      total_commands := S (total_commands stats_data);
      stats_last_update := Some now |}).

(** [_send_feedback_form], after the form is sent: the user's entry is
    marked. *)
Definition _send_feedback_form (user_id : Z) (stats_data : StatsData)
    : StatsData :=
  {| user_stats :=
       alter (fun entry =>
                {| commands_count := commands_count entry;
                   last_command := last_command entry;
                   feedback_sent := true;
                   commands_used := commands_used entry |})
         user_id (user_stats stats_data);
     total_commands := total_commands stats_data;
     stats_last_update := stats_last_update stats_data |}.

(** The messages the handlers send or edit. *)
Inductive Message :=
| Welcome (first_name : string)
| FeedbackForm
| Loading
| Unavailable
| NewsEntry (i : nat) (news : Item) (callback_data : string)
| NewsEnd
| SaveAnswer (r : bot.SaveReply)
| DailyAnswer (r : bot.DailyReply)
| ButtonSaved
| ButtonAlreadySaved
| ButtonUseSaveAfterSearch
| ButtonUseSaveAfterCategory
| ButtonError.

(** [start_command] *)
Definition start_command (env : Env) (user_id : Z) (first_name : string)
    (st : State) : list Message * State :=
  let '(should_send_feedback, stats) :=
    _update_user_stats (now env) user_id "start" (stats_file st) in
  if should_send_feedback then
    ([Welcome first_name; FeedbackForm],
     {| core := core st; stats_file := _send_feedback_form user_id stats |})
  else ([Welcome first_name], {| core := core st; stats_file := stats |}).

(** The messages of the [for i, news in enumerate(news_list[:10], 1)] loop
    of [news_command], each with the data of its save button. *)
Definition news_entries (news_list : list Item) : list Message :=
  imap (fun i news => NewsEntry (S i) news ("save_" +:+ pretty (S i)))
    (take 10 news_list).

(** [news_command] *)
Definition news_command (env : Env) (user_id : Z) (st : State)
    : list Message * State :=
  let '(should_send_feedback, stats) :=
    _update_user_stats (now env) user_id "news" (stats_file st) in
  let '(news_list, news_data, _) :=
    bot._update_news (news_api_key env) (provider env) (now env)
      (news_file (core st)) in
  let core' :=
    {| news_file := news_data; users_file := users_file (core st) |} in
  match news_list with
  | [] => ([Loading; Unavailable], {| core := core'; stats_file := stats |})
  | _ =>
      if should_send_feedback then
        ([Loading] ++ news_entries news_list ++ [NewsEnd; FeedbackForm],
         {| core := core'; stats_file := _send_feedback_form user_id stats |})
      else
        ([Loading] ++ news_entries news_list ++ [NewsEnd],
         {| core := core'; stats_file := stats |})
  end.

Section Buttons.

(** Python's [int] on a string; [None] when it raises [ValueError]. *)
Variable int : string -> option Z.

(** [button_callback], on the data of the pressed button. *)
Definition button_callback (user_id : Z) (data : string) (st : State)
    : list Message * State :=
  if String.prefix "save_" data then
    let parts := split_on underscore data in
    match parts !! 1%nat ≫= int with
    | None => ([ButtonError], st)
    | Some news_number =>
        if bool_decide (parts !! 2%nat = Some "filtered")
        then ([ButtonUseSaveAfterSearch], st)
        else if bool_decide (parts !! 2%nat = Some "category")
        then ([ButtonUseSaveAfterCategory], st)
        else
          let news_list := default [] (news (news_file (core st))) in
          if bool_decide (news_number <= Z.of_nat (length news_list)) then
            let users_data := users_file (core st) in
            let user_favorites :=
              default [] (favorites users_data !! user_id) in
            match py_index news_list (news_number - 1) with
            | None => ([ButtonError], st)
            | Some news_to_save =>
                if any_title (title news_to_save) user_favorites
                then ([ButtonAlreadySaved], st)
                else
                  ([ButtonSaved],
                   {| core :=
                        {| news_file := news_file (core st);
                           users_file :=
                             {| subscribers := subscribers users_data;
                                favorites :=
                                  <[user_id := user_favorites ++ [news_to_save]]>
                                    (favorites users_data) |} |};
                      stats_file := stats_file st |})
            end
          else ([], st)
    end
  else ([], st).

(** A command a user sends, after the transport has parsed it. *)
Inductive Command :=
| Start (first_name : string)
| News
| Save (news_number : Z)
| Daily
| Button (data : string).

(** The handler of a command; [/save] and [/daily] do not touch the
    statistics. *)
Definition handle (env : Env) (user_id : Z) (cmd : Command) (st : State)
    : list Message * State :=
  match cmd with
  | Start first_name => start_command env user_id first_name st
  | News => news_command env user_id st
  | Save news_number =>
      let '(r, core') := bot.save_command user_id news_number (core st) in
      ([SaveAnswer r], {| core := core'; stats_file := stats_file st |})
  | Daily =>
      let '(r, core') := bot.daily_command user_id (core st) in
      ([DailyAnswer r], {| core := core'; stats_file := stats_file st |})
  | Button data => button_callback user_id data st
  end.

(** The messages sent, each with its recipient, and the files after a
    sequence of commands. *)
Fixpoint run (steps : list (Env * Z * Command)) (st : State)
    : list (Z * Message) * State :=
  match steps with
  | [] => ([], st)
  | (env, user_id, cmd) :: steps' =>
      let '(msgs, st') := handle env user_id cmd st in
      let '(out, st'') := run steps' st' in
      (map (fun m => (user_id, m)) msgs ++ out, st'')
  end.

End Buttons.

End bot_handlers.

(** Reads an unsigned decimal numeral; stands for Python's [int] in sample
    inputs. *)
Fixpoint decimal (acc : option Z) (s : string) : option Z :=
  match s with
  | EmptyString => acc
  | String c s' =>
      let d := Z.of_nat (Ascii.nat_of_ascii c) - 48 in
      if bool_decide (0 <= d <= 9)
      then decimal (Some (10 * default 0 acc + d)) s'
      else None
  end.

(** ** [simple_sync_webhook_bot.py]: the statistics file, the handlers with
       their messages, and the buttons

    [handle_help_command] and [handle_filter_command] only send messages and
    are not part of the commands below. *)

Module simple_sync_handlers.

(** An entry of [data/user_stats.json]. *)
Record UserStats := {
  commands_count : nat;
  last_command : option Z }.

(** The state of [SimpleNewsBot] with the statistics file. *)
Record State := {
  core : simple_sync_webhook_bot.State;
  user_stats_file : gmap Z UserStats }.

Definition initial : State :=
  {| core := simple_sync_webhook_bot.initial_state; user_stats_file := ∅ |}.

(** The messages the handlers send. *)
Inductive Message :=
| FeedbackForm
| Welcome (user_name : string)
| Loading
| NewsAnswer (r : simple_sync_webhook_bot.NewsReply)
| NoFavorites
| Favorites (saved : list Item)
| SaveAnswer (r : simple_sync_webhook_bot.SaveReply)
| DailyAnswer (offer : simple_sync_webhook_bot.DailyOffer)
| Subscribed
| Unsubscribed
| SaveButtonError
| SaveFilteredButtonError
| UnknownButton.

(** [_update_user_stats], with the feedback form it sends at the tenth
    command. *)
Definition _update_user_stats (env : simple_sync_webhook_bot.Env)
    (user_id : Z) (stats : gmap Z UserStats)
    : list Message * gmap Z UserStats :=
  let entry :=
    default {| commands_count := 0; last_command := None |}
      (stats !! user_id) in
  let entry' :=
    {| commands_count := S (commands_count entry);
       last_command := Some (simple_sync_webhook_bot.now env) |} in
  (if bool_decide (commands_count entry' = 10%nat) then [FeedbackForm] else [],
   <[user_id := entry']> stats).

(** [handle_start_command] *)
Definition handle_start_command (env : simple_sync_webhook_bot.Env)
    (chat_id : Z) (user_name : string) (st : State) : list Message * State :=
  let '(form, stats) := _update_user_stats env chat_id (user_stats_file st) in
  (form ++ [Welcome user_name], {| core := core st; user_stats_file := stats |}).

(** [handle_news_command] *)
Definition handle_news_command (env : simple_sync_webhook_bot.Env)
    (chat_id : Z) (st : State) : list Message * State :=
  let '(form, stats) := _update_user_stats env chat_id (user_stats_file st) in
  let '(r, core') :=
    simple_sync_webhook_bot.handle_news_command env chat_id (core st) in
  (form ++ [Loading; NewsAnswer r],
   {| core := core'; user_stats_file := stats |}).

(** [handle_favorites_command] *)
Definition handle_favorites_command (env : simple_sync_webhook_bot.Env)
    (chat_id : Z) (st : State) : list Message * State :=
  let '(form, stats) := _update_user_stats env chat_id (user_stats_file st) in
  (form ++
   match simple_sync_webhook_bot.handle_favorites_command chat_id (core st) with
   | [] => [NoFavorites]
   | saved => [Favorites saved]
   end,
   {| core := core st; user_stats_file := stats |}).

(** [handle_save_command] *)
Definition handle_save_command (env : simple_sync_webhook_bot.Env)
    (chat_id news_number : Z) (st : State) : list Message * State :=
  let '(form, stats) := _update_user_stats env chat_id (user_stats_file st) in
  let '(r, core') :=
    simple_sync_webhook_bot.handle_save_command env chat_id news_number
      (core st) in
  (form ++ [SaveAnswer r], {| core := core'; user_stats_file := stats |}).

(** [handle_daily_command] *)
Definition handle_daily_command (env : simple_sync_webhook_bot.Env)
    (chat_id : Z) (st : State) : list Message * State :=
  let '(form, stats) := _update_user_stats env chat_id (user_stats_file st) in
  (form ++
   [DailyAnswer (simple_sync_webhook_bot.handle_daily_command chat_id (core st))],
   {| core := core st; user_stats_file := stats |}).

Section Buttons.

(** Python's [int] on a string; [None] when it raises [ValueError]. *)
Variable int : string -> option Z.

(** [handle_callback_query] *)
Definition handle_callback_query (env : simple_sync_webhook_bot.Env)
    (chat_id : Z) (callback_data : string) (st : State)
    : list Message * State :=
  if String.prefix "save_" callback_data then
    match split_on underscore callback_data !! 1%nat ≫= int with
    | Some news_number => handle_save_command env chat_id news_number st
    | None => ([SaveButtonError], st)
    end
  else if String.prefix "save_filtered_" callback_data then
    match split_on underscore callback_data !! 2%nat ≫= int with
    | Some news_number => handle_save_command env chat_id news_number st
    | None => ([SaveFilteredButtonError], st)
    end
  else if bool_decide (callback_data = "subscribe_daily") then
    ([Subscribed],
     {| core := simple_sync_webhook_bot._subscribe_to_daily env chat_id (core st);
        user_stats_file := user_stats_file st |})
  else if bool_decide (callback_data = "unsubscribe_daily") then
    ([Unsubscribed],
     {| core :=
          simple_sync_webhook_bot._unsubscribe_from_daily env chat_id (core st);
        user_stats_file := user_stats_file st |})
  else ([UnknownButton], st).

(** What [webhook] dispatches to a handler that can change the state. *)
Inductive Command :=
| Start (user_name : string)
| News
| Favorites_
| Daily
| Save (news_number : Z)
| Callback (callback_data : string).

Definition handle (env : simple_sync_webhook_bot.Env) (chat_id : Z)
    (cmd : Command) (st : State) : list Message * State :=
  match cmd with
  | Start user_name => handle_start_command env chat_id user_name st
  | News => handle_news_command env chat_id st
  | Favorites_ => handle_favorites_command env chat_id st
  | Daily => handle_daily_command env chat_id st
  | Save news_number => handle_save_command env chat_id news_number st
  | Callback callback_data => handle_callback_query env chat_id callback_data st
  end.

(** The messages sent, each with its recipient, and the state after a
    sequence of updates. *)
Fixpoint run (steps : list (simple_sync_webhook_bot.Env * Z * Command))
    (st : State) : list (Z * Message) * State :=
  match steps with
  | [] => ([], st)
  | (env, chat_id, cmd) :: steps' =>
      let '(msgs, st') := handle env chat_id cmd st in
      let '(out, st'') := run steps' st' in
      (map (fun m => (chat_id, m)) msgs ++ out, st'')
  end.

End Buttons.

End simple_sync_handlers.

(** * Vocabulary of the statements, and sample inputs *)

(** A provider every call to which fails. *)
Definition failing (provider : Provider) : Prop :=
  ∀ rq, provider rq = RequestException.

(** A provider every call to which fails or answers without articles. *)
Definition empty_or_failing (provider : Provider) : Prop :=
  ∀ rq, match provider rq with
        | RequestException => True
        | Json data => articles data = []
        end.

(** What [_load_data] can return for [data/news.json]: the file as
    initialised, [{}] for an unreadable file, or the file as a call of
    [_update_news] left it. *)
Inductive reachable (test_news : Z -> list Item) : NewsData -> Prop :=
| reachable_init : reachable test_news initial_news_data
| reachable_unreadable :
    reachable test_news {| last_update := None; news := None |}
| reachable_update key provider now news_data :
    reachable test_news news_data ->
    reachable test_news
      (NewsBot._update_news test_news key provider now news_data).1.2.

(** A batch with one entry, and a provider that fails on every call. *)
Definition stale_item : Item :=
  {| title := "Quantum breakthrough"; description := "d";
     url := "https://example.com/q"; source := "s"; category := "наука";
     published_at := ProviderStamp "2024-01-01T00:00:00Z";
     timestamp := ClockStamp 0; saved_at := None |}.

Definition always_failing : Provider := fun _ => RequestException.

Definition article (t : string) : Article :=
  {| a_title := Some t; a_description := Some "text";
     a_url := Some ("https://example.com/" +:+ t);
     a_source_name := "Example"; a_publishedAt := "2024-01-01T00:00:00Z" |}.

Definition no_articles : Response := Json {| status := "ok"; articles := [] |}.

(** Two categories carry the same story; the other queries return nothing. *)
Definition overlapping_categories : Provider :=
  fun rq =>
    match rq_category rq with
    | Some "technology" =>
        Json {| status := "ok";
                articles := [article "Quantum breakthrough"; article "AI model"] |}
    | Some "science" =>
        Json {| status := "ok"; articles := [article "Quantum breakthrough"] |}
    | _ => no_articles
    end.

(** Only the aggregate query returns articles. *)
Definition aggregate_only (arts : list Article) : Provider :=
  fun rq =>
    match rq_category rq with
    | Some _ => no_articles
    | None => Json {| status := "ok"; articles := arts |}
    end.

(** The replies to, and the state after, the [/daily] commands of the users
    [users], in that order. *)
Fixpoint daily_commands (users : list Z) (st : BotState)
    : list (Z * bot.DailyReply) * BotState :=
  match users with
  | [] => ([], st)
  | u :: users' =>
      let '(r, st') := bot.daily_command u st in
      let '(rs, st'') := daily_commands users' st' in
      ((u, r) :: rs, st'')
  end.

(** The latest reply to user [v] in a list of replies. *)
Fixpoint last_reply (v : Z) (replies : list (Z * bot.DailyReply))
    : option bot.DailyReply :=
  match replies with
  | [] => None
  | (u, r) :: rest =>
      match last_reply v rest with
      | Some r' => Some r'
      | None => if bool_decide (u = v) then Some r else None
      end
  end.

(** One subscriber and an empty batch. *)
Definition one_subscriber_no_news : BotState :=
  {| news_file := initial_news_data;
     users_file := {| subscribers := [7]; favorites := ∅ |} |}.

(** Draws of [random] that leave every order as it is. *)
Definition no_shuffle : simple_sync_webhook_bot.Random :=
  {| simple_sync_webhook_bot.shuffle_categories := fun l => l;
     simple_sync_webhook_bot.randint_page := fun _ => 1%nat;
     simple_sync_webhook_bot.choice_country := fun _ => "us";
     simple_sync_webhook_bot.randint_general_page := 1%nat;
     simple_sync_webhook_bot.shuffle_news := fun l => l |}.

(** An environment without API key: [get_news] gives the sample batch. *)
Definition offline (t : Z) : simple_sync_webhook_bot.Env :=
  {| simple_sync_webhook_bot.news_api_key := None;
     simple_sync_webhook_bot.provider := always_failing;
     simple_sync_webhook_bot.now := t;
     simple_sync_webhook_bot.random := no_shuffle |}.

(** An environment in which only the aggregate query returns articles. *)
Definition online (arts : list Article) (t : Z)
    : simple_sync_webhook_bot.Env :=
  {| simple_sync_webhook_bot.news_api_key := Some "key";
     simple_sync_webhook_bot.provider := aggregate_only arts;
     simple_sync_webhook_bot.now := t;
     simple_sync_webhook_bot.random := no_shuffle |}.

(** User 7 has saved the first entry of the sample batch. *)
Definition one_favorite : simple_sync_webhook_bot.State :=
  {| simple_sync_webhook_bot.last_news_cache := ∅;
     simple_sync_webhook_bot.favorites_file :=
       {[ 7 := [ {| title := "Новые технологии в области искусственного интеллекта";
                    description := "Исследователи представили новую модель ИИ, способную решать сложные задачи машинного обучения.";
                    url := "https://example.com/ai-news";
                    source := "TechNews";
                    category := "технологии";
                    published_at := ClockStamp 0;
                    timestamp := ClockStamp 0;
                    saved_at := Some 1 |} ] ]};
     simple_sync_webhook_bot.subscriptions_file := ∅ |}.

(** Pressing the button that [handle_daily_command] offers: the callback
    [handle_callback_query] then dispatches. *)
Definition press_offered (env : simple_sync_webhook_bot.Env) (chat_id : Z)
    (st : simple_sync_webhook_bot.State) : simple_sync_webhook_bot.State :=
  match simple_sync_webhook_bot.handle_daily_command chat_id st with
  | simple_sync_webhook_bot.OfferSubscribe =>
      simple_sync_webhook_bot._subscribe_to_daily env chat_id st
  | simple_sync_webhook_bot.OfferUnsubscribe =>
      simple_sync_webhook_bot._unsubscribe_from_daily env chat_id st
  end.

#[global] Instance Request_eq_dec : EqDecision Request.
Proof. solve_decision. Defined.

(** The requests a refresh of [_fetch_news] can issue, in their order. *)
Definition refresh_requests : list Request :=
  map category_request
    ["technology"; "science"; "business"; "health"; "sports"]
  ++ [general_request].

(** A provider that answers a request with at most [pageSize] articles. *)
Definition honours_page_size (provider : Provider) : Prop :=
  ∀ rq data, provider rq = Json data ->
    (length (articles data) <= rq_pageSize rq)%nat.

(** An entry with a title, a description and a link, the link not being the
    provider's mark of a removed article. *)
Definition well_formed (news : Item) : Prop :=
  title news ≠ "" ∧ description news ≠ "" ∧ url news ≠ ""
  ∧ url news ≠ "https://removed.com".

(** A provider that answers every request with the first [pageSize] of the
    articles [arts]. *)
Definition paged (arts : list Article) : Provider :=
  fun rq => Json {| status := "ok"; articles := take (rq_pageSize rq) arts |}.

(** Favorites in which no user has two entries with one title. *)
Definition distinct_titles (favs : gmap Z (list Item)) : Prop :=
  ∀ user_id saved, favs !! user_id = Some saved -> NoDup (title <$> saved).

(** What a handler can do to the favorites: nothing, or append to one
    user's list an entry whose title that list does not have. *)
Inductive favorites_step (favs : gmap Z (list Item))
    : gmap Z (list Item) -> Prop :=
| favorites_same : favorites_step favs favs
| favorites_append user_id entry :
    any_title (title entry) (default [] (favs !! user_id)) = false ->
    favorites_step favs
      (<[user_id := default [] (favs !! user_id) ++ [entry]]> favs).

(** The sum of the users' command counts, and of one user's counts per
    command. *)
Definition sum_counts (m : gmap Z bot_handlers.UserStats) : nat :=
  map_fold (fun _ entry acc => (bot_handlers.commands_count entry + acc)%nat)
    0%nat m.

Definition sum_used (m : gmap string nat) : nat :=
  map_fold (fun _ n acc => (n + acc)%nat) 0%nat m.

(** How many feedback forms a list of sent messages holds for a user. *)
Definition forms (user_id : Z) (out : list (Z * bot_handlers.Message)) : nat :=
  length
    (List.filter
       (fun m => match m with
                 | (u, bot_handlers.FeedbackForm) => bool_decide (u = user_id)
                 | _ => false
                 end) out).

(** Whether the statistics mark the feedback form as sent to a user, and
    the user's command count. *)
Definition form_marked (user_id : Z) (sd : bot_handlers.StatsData) : bool :=
  match bot_handlers.user_stats sd !! user_id with
  | Some entry => bot_handlers.feedback_sent entry
  | None => false
  end.

Definition count_of (user_id : Z) (sd : bot_handlers.StatsData) : nat :=
  match bot_handlers.user_stats sd !! user_id with
  | Some entry => bot_handlers.commands_count entry
  | None => 0%nat
  end.

(** The totals of the statistics agree with the counts they sum. *)
Definition stats_consistent (sd : bot_handlers.StatsData) : Prop :=
  bot_handlers.total_commands sd = sum_counts (bot_handlers.user_stats sd)
  ∧ ∀ u e, bot_handlers.user_stats sd !! u = Some e ->
      bot_handlers.commands_count e = sum_used (bot_handlers.commands_used e).

(** How many of the commands of a sequence are [/start] or [/news] of a
    user. *)
Definition counted (user_id : Z)
    (steps : list (bot_handlers.Env * Z * bot_handlers.Command)) : nat :=
  length
    (List.filter
       (fun step => match step with
                    | (_, u, bot_handlers.Start _) | (_, u, bot_handlers.News) =>
                        bool_decide (u = user_id)
                    | _ => false
                    end) steps).

(** Recorded lists as [SimpleNewsBot] leaves them: none empty, none longer
    than five entries. *)
Definition recorded_ok (cache : gmap Z (list Item)) : Prop :=
  ∀ user_id recorded, cache !! user_id = Some recorded ->
    recorded ≠ [] ∧ (length recorded <= 5)%nat.

(** Whether a command of [SimpleNewsBot] reaches [_update_user_stats]. *)
Definition counts (int : string -> option Z)
    (cmd : simple_sync_handlers.Command) : bool :=
  match cmd with
  | simple_sync_handlers.Callback callback_data =>
      if String.prefix "save_" callback_data
      then bool_decide
             (is_Some (split_on underscore callback_data !! 1%nat ≫= int))
      else false
  | _ => true
  end.

(** How many commands of a sequence are counted for a user. *)
Definition counted_simple (int : string -> option Z) (user_id : Z)
    (steps : list (simple_sync_webhook_bot.Env * Z
                   * simple_sync_handlers.Command)) : nat :=
  length
    (List.filter
       (fun step => match step with
                    | (_, u, cmd) => bool_decide (u = user_id) && counts int cmd
                    end) steps).

(** How many feedback forms a list of sent messages holds for a user. *)
Definition forms_simple (user_id : Z)
    (out : list (Z * simple_sync_handlers.Message)) : nat :=
  length
    (List.filter
       (fun m => match m with
                 | (u, simple_sync_handlers.FeedbackForm) =>
                     bool_decide (u = user_id)
                 | _ => false
                 end) out).

(** A user's command count in the statistics of [SimpleNewsBot]. *)
Definition count_simple (user_id : Z)
    (stats : gmap Z simple_sync_handlers.UserStats) : nat :=
  match stats !! user_id with
  | Some entry => simple_sync_handlers.commands_count entry
  | None => 0%nat
  end.




(** A text of white space only (space, tab, line feed, vertical tab, form
    feed, carriage return), the empty text included. *)
Fixpoint blank (s : string) : bool :=
  match s with
  | EmptyString => true
  | String c s' => Ascii.is_space c && blank s'
  end.

(** The files of [bot.py] with [batch] stored in the news file, no
    subscribers and no favorites. *)
Definition news_file_with (batch : list Item) : BotState :=
  {| news_file := {| last_update := Some 0; news := Some batch |};
     users_file := initial_users_data |}.

(** * Properties *)

(** ** Text slices *)

Example slice_to_code_points :
  slice_to 3 "Новые технологии" = "Нов" ∧ slice_to 50 "AI model" = "AI model".
Proof. split; reflexivity. Qed.

(** ** Refresh and cache ([_fetch_news], [_update_news]) *)

Lemma failing_empty_or_failing provider :
  failing provider -> empty_or_failing provider.
Proof. intros Hf rq. by rewrite Hf. Qed.

Lemma data_ok_no_articles data : articles data = [] -> data_ok data = false.
Proof.
  intros Hnil. unfold data_ok. rewrite Hnil.
  rewrite bool_decide_eq_true_2 by done. apply andb_false_r.
Qed.

Lemma fetch_categories_empty request_for provider now cats news_list :
  empty_or_failing provider ->
  (fetch_categories request_for provider now cats news_list).1 = None
  ∨ (fetch_categories request_for provider now cats news_list).1 = Some news_list.
Proof.
  intros Hp. induction cats as [|c cats IH]; simpl; [by right|].
  specialize (Hp (request_for c)).
  destruct (provider (request_for c)) as [|data]; [by left|].
  rewrite (data_ok_no_articles _ Hp).
  destruct (fetch_categories request_for provider now cats news_list) as [r log].
  exact IH.
Qed.

Lemma fetch_news_empty_or_failing test_news key provider now :
  empty_or_failing provider ->
  (NewsBot._fetch_news test_news key provider now).1 = test_news now.
Proof.
  intros Hp. unfold NewsBot._fetch_news.
  destruct (negb (truthy key)); [done|].
  pose proof (fetch_categories_empty category_request provider now
    ["technology"; "science"; "business"; "health"; "sports"] [] Hp) as Hc.
  destruct (fetch_categories _ _ _ _ _) as [[news_list|] log]; simpl in Hc;
    [|done].
  destruct Hc as [Hc|Hc]; [done|]. injection Hc as ->. simpl.
  specialize (Hp general_request).
  destruct (provider general_request) as [|data]; [done|].
  by rewrite (data_ok_no_articles _ Hp).
Qed.

Lemma fetch_news_nonempty test_news key provider now :
  (∀ t, test_news t ≠ []) ->
  (NewsBot._fetch_news test_news key provider now).1 ≠ [].
Proof.
  intros Hne. unfold NewsBot._fetch_news.
  destruct (negb (truthy key)); [apply Hne|].
  destruct (fetch_categories _ _ _ _ _) as [[news_list|] log]; [|apply Hne].
  destruct (if (length news_list <? 5)%nat then _ else _) as [[|x l] log'];
    simpl; [apply Hne|done].
Qed.

Lemma update_news_refresh test_news key provider now news_data :
  NewsBot.needs_update news_data now = true ->
  NewsBot._update_news test_news key provider now news_data =
    (let new_news := (NewsBot._fetch_news test_news key provider now).1 in
     (new_news, {| last_update := Some now; news := Some new_news |},
      (NewsBot._fetch_news test_news key provider now).2)).
Proof.
  intros Hs. unfold NewsBot._update_news. rewrite Hs.
  by destruct (NewsBot._fetch_news test_news key provider now).
Qed.

Lemma update_news_hit test_news key provider now news_data :
  NewsBot.needs_update news_data now = false ->
  NewsBot._update_news test_news key provider now news_data =
    (default [] (news news_data), news_data, []).
Proof. intros Hs. unfold NewsBot._update_news. by rewrite Hs. Qed.

Lemma needs_update_false news_data now t :
  last_update news_data = Some t -> now - t <= TTL ->
  NewsBot.needs_update news_data now = false.
Proof.
  intros Ht Hle. unfold NewsBot.needs_update. rewrite Ht.
  apply bool_decide_eq_false_2. lia.
Qed.

(** Once written by the bot, the news file holds a non-empty batch exactly
    when it holds a refresh time. *)
Lemma reachable_inv test_news news_data :
  (∀ t, test_news t ≠ []) ->
  reachable test_news news_data ->
  (last_update news_data = None ∧ default [] (news news_data) = [])
  ∨ (∃ t batch, last_update news_data = Some t
                ∧ news news_data = Some batch ∧ batch ≠ []).
Proof.
  intros Hne. induction 1 as [| |key provider now nd Hr IH]; [by left..|].
  destruct (NewsBot.needs_update nd now) eqn:Hs.
  - rewrite update_news_refresh by done. right. simpl.
    eexists _, _. split_and!; [done..|]. by apply fetch_news_nonempty.
  - rewrite update_news_hit by done. simpl. done.
Qed.

(** C1, as stated, fails: with a non-empty cached batch refreshed at time
    [0], a call after the TTL with a provider that fails on every call
    returns the sample batch, not the cached one, and overwrites the cache
    with it. *)
Lemma stale_batch_replaced_on_failure :
  let news_data := {| last_update := Some 0; news := Some [stale_item] |} in
  let r := bot._update_news (Some "key") always_failing (TTL + 1) news_data in
  failing always_failing
  ∧ news news_data = Some [stale_item]
  ∧ r.1.1 ≠ [stale_item]
  ∧ r.1.1 = bot._get_test_news (TTL + 1)
  ∧ news r.1.2 ≠ Some [stale_item].
Proof. vm_compute. split_and!; done. Qed.

(** C1 (amended): when every provider call fails, a call that attempts a
    refresh returns the built-in sample batch and stores it as the cached
    batch, whatever the cache held; the cached batch is returned, and the
    cache left as it is, only when no refresh is attempted, that is while
    the last refresh is at most the TTL old. *)
Theorem update_news_provider_failure test_news key provider now news_data :
  failing provider ->
  (NewsBot.needs_update news_data now = true ->
     (NewsBot._update_news test_news key provider now news_data).1 =
       (test_news now,
        {| last_update := Some now; news := Some (test_news now) |}))
  ∧ (NewsBot.needs_update news_data now = false ->
     (NewsBot._update_news test_news key provider now news_data).1 =
       (default [] (news news_data), news_data)).
Proof.
  intros Hf. split; intros Hs.
  - rewrite update_news_refresh by done. simpl.
    by rewrite fetch_news_empty_or_failing
      by by apply failing_empty_or_failing.
  - by rewrite update_news_hit.
Qed.

Lemma update_news_provider_failure_witness :
  (bot._update_news (Some "key") always_failing (TTL + 1)
     {| last_update := Some 0; news := Some [stale_item] |}).1 =
    (bot._get_test_news (TTL + 1),
     {| last_update := Some (TTL + 1);
        news := Some (bot._get_test_news (TTL + 1)) |}).
Proof.
  apply (update_news_provider_failure bot._get_test_news (Some "key")
           always_failing (TTL + 1)
           {| last_update := Some 0; news := Some [stale_item] |}).
  - intros rq. reflexivity.
  - vm_compute. reflexivity.
Defined.

Lemma full_webhook_test_news_nonempty t : full_webhook_bot._get_test_news t ≠ [].
Proof. discriminate. Qed.

Lemma bot_test_news_nonempty t : bot._get_test_news t ≠ [].
Proof. discriminate. Qed.

(** With no items in the news file and a provider that fails or answers
    without articles, [_update_news] returns the sample batch of its bot. *)
Lemma update_news_sample_batch test_news key provider now news_data :
  (∀ t, test_news t ≠ []) ->
  reachable test_news news_data ->
  default [] (news news_data) = [] ->
  empty_or_failing provider ->
  (NewsBot._update_news test_news key provider now news_data).1.1
  = test_news now.
Proof.
  intros Hne Hr Hnews Hp.
  assert (NewsBot.needs_update news_data now = true) as Hs.
  { destruct (reachable_inv _ _ Hne Hr)
      as [[Hlu _]|(t & batch & _ & Hb & Hnb)].
    - unfold NewsBot.needs_update. by rewrite Hlu.
    - rewrite Hb in Hnews. done. }
  rewrite update_news_refresh by done. cbv zeta. cbn [fst snd].
  by apply fetch_news_empty_or_failing.
Qed.

(** C3, as stated, fails: in [bot.py], with the news file as initialised and
    a provider that answers without articles, [_update_news] returns the
    sample batch of [bot.py], which has six entries and not two. *)
Lemma bot_sample_batch_not_two :
  let batch :=
    (bot._update_news (Some "key") (aggregate_only []) 0
       initial_news_data).1.1 in
  batch = bot._get_test_news 0
  ∧ length batch = 6%nat
  ∧ batch ≠ full_webhook_bot._get_test_news 0.
Proof. split_and!; [by vm_compute|by vm_compute|]. vm_compute. discriminate. Qed.

(** C3 (amended): when every provider call fails or answers without
    articles and the cache holds no items, [_update_news] returns exactly
    the built-in sample batch of its bot, which has two entries in
    [full_webhook_bot.py] and six in [bot.py]; in particular the result is
    not empty. *)
Theorem update_news_empty_cache key provider now :
  empty_or_failing provider ->
  (∀ news_data,
     reachable full_webhook_bot._get_test_news news_data ->
     default [] (news news_data) = [] ->
     let batch :=
       (full_webhook_bot._update_news key provider now news_data).1.1 in
     batch = full_webhook_bot._get_test_news now
     ∧ length batch = 2%nat
     ∧ batch ≠ [])
  ∧ (∀ news_data,
       reachable bot._get_test_news news_data ->
       default [] (news news_data) = [] ->
       let batch := (bot._update_news key provider now news_data).1.1 in
       batch = bot._get_test_news now
       ∧ length batch = 6%nat
       ∧ batch ≠ []).
Proof.
  intros Hp. split; intros news_data Hr Hnews; cbv zeta.
  - unfold full_webhook_bot._update_news.
    rewrite (update_news_sample_batch _ key provider now news_data
               full_webhook_test_news_nonempty Hr Hnews Hp).
    split_and!; [done|done|discriminate].
  - unfold bot._update_news.
    rewrite (update_news_sample_batch _ key provider now news_data
               bot_test_news_nonempty Hr Hnews Hp).
    split_and!; [done|done|discriminate].
Qed.

(** A provider that answers every request without articles, on the news
    file as initialised, in [bot.py]. *)
Lemma update_news_empty_cache_witness :
  (bot._update_news (Some "key") (aggregate_only []) 0
     initial_news_data).1.1 = bot._get_test_news 0
  ∧ length (bot._update_news (Some "key") (aggregate_only []) 0
              initial_news_data).1.1 = 6%nat
  ∧ (bot._update_news (Some "key") (aggregate_only []) 0
       initial_news_data).1.1 ≠ [].
Proof.
  apply (update_news_empty_cache (Some "key") (aggregate_only []) 0).
  - intros rq. unfold aggregate_only. destruct (rq_category rq); reflexivity.
  - apply reachable_init.
  - reflexivity.
Defined.

(** On every content the bot itself can have left in the news file,
    [_update_news] of [bot.py] and of [full_webhook_bot.py] returns a
    non-empty batch, whatever the provider does. *)
Lemma update_news_never_empty test_news key provider now news_data :
  (∀ t, test_news t ≠ []) ->
  reachable test_news news_data ->
  (NewsBot._update_news test_news key provider now news_data).1.1 ≠ [].
Proof.
  intros Hne Hr.
  pose proof (reachable_inv _ _ Hne (reachable_update _ key provider now _ Hr))
    as Hinv.
  destruct (NewsBot.needs_update news_data now) eqn:Hs.
  - rewrite update_news_refresh by done. simpl. by apply fetch_news_nonempty.
  - rewrite update_news_hit in * by done. simpl in *.
    destruct Hinv as [[Hlu _]|(t & batch & _ & -> & Hb)]; [|done].
    unfold NewsBot.needs_update in Hs. by rewrite Hlu in Hs.
Qed.

(** The same call in [bot.py] returns the sample batch of that file, which
    has six entries. *)
Lemma bot_update_news_empty_cache key provider now news_data :
  reachable bot._get_test_news news_data ->
  default [] (news news_data) = [] ->
  empty_or_failing provider ->
  (bot._update_news key provider now news_data).1.1 = bot._get_test_news now
  ∧ length (bot._update_news key provider now news_data).1.1 = 6%nat.
Proof.
  intros Hr Hnews Hp.
  assert (NewsBot.needs_update news_data now = true) as Hs.
  { destruct (reachable_inv _ _ bot_test_news_nonempty Hr)
      as [[Hlu _]|(t & batch & _ & Hb & Hne)].
    - unfold NewsBot.needs_update. by rewrite Hlu.
    - rewrite Hb in Hnews. done. }
  unfold bot._update_news.
  rewrite update_news_refresh by done. simpl.
  rewrite fetch_news_empty_or_failing by done. done.
Qed.

(** C6: when a call of [_update_news] at time [t1] refreshes, a second call
    at any time [t2] with [t2 - t1 <= TTL] issues no provider request,
    returns the batch of the first call, and leaves the cached batch and
    the refresh time as the first call wrote them. *)
Theorem update_news_twice_within_ttl test_news key provider1 provider2
    t1 t2 news_data :
  NewsBot.needs_update news_data t1 = true ->
  t2 - t1 <= TTL ->
  let r1 := NewsBot._update_news test_news key provider1 t1 news_data in
  last_update r1.1.2 = Some t1
  ∧ NewsBot._update_news test_news key provider2 t2 r1.1.2 =
      (r1.1.1, r1.1.2, []).
Proof.
  intros Hs Hle. simpl. rewrite update_news_refresh by done. simpl.
  split; [done|].
  rewrite update_news_hit; [done|].
  by apply needs_update_false with (t := t1).
Qed.

Lemma update_news_twice_within_ttl_witness :
  let r1 := NewsBot._update_news bot._get_test_news (Some "key")
              always_failing 5 initial_news_data in
  last_update r1.1.2 = Some 5
  ∧ NewsBot._update_news bot._get_test_news (Some "key") always_failing
      (5 + TTL) r1.1.2 = (r1.1.1, r1.1.2, []).
Proof.
  apply (update_news_twice_within_ttl bot._get_test_news (Some "key")
           always_failing always_failing 5 (5 + TTL) initial_news_data).
  - reflexivity.
  - vm_compute. discriminate.
Defined.

(** Any call made while the last refresh is at most the TTL old is a cache
    hit. *)
Lemma update_news_within_ttl test_news key provider now news_data t :
  last_update news_data = Some t ->
  now - t <= TTL ->
  NewsBot._update_news test_news key provider now news_data =
    (default [] (news news_data), news_data, []).
Proof. intros Ht Hle. apply update_news_hit. by eapply needs_update_false. Qed.

(** ** Deduplication inside a refresh *)

Lemma any_title_false t (news_list : list Item) :
  any_title t news_list = false <-> t ∉ title <$> news_list.
Proof.
  unfold any_title. induction news_list as [|x l IH]; simpl.
  - split; [intros _; apply not_elem_of_nil|done].
  - rewrite orb_false_iff, IH, not_elem_of_cons, String.eqb_neq.
    intuition congruence.
Qed.

Lemma any_title_true t (news_list : list Item) :
  any_title t news_list = true <-> t ∈ title <$> news_list.
Proof.
  destruct (any_title t news_list) eqn:E.
  - split; [intros _|done].
    destruct (decide (t ∈ title <$> news_list)) as [|Hn]; [done|].
    apply any_title_false in Hn. congruence.
  - apply any_title_false in E. split; [done|]. intros. by destruct E.
Qed.















(** ** What a refresh asks of the provider, and what it keeps *)

Lemma fetch_categories_log request_for provider now cats news_list :
  (fetch_categories request_for provider now cats news_list).2
    `prefix_of` map request_for cats
  ∧ (∀ i rq,
       (fetch_categories request_for provider now cats news_list).2 !! i
         = Some rq ->
       provider rq = RequestException ->
       S i = length (fetch_categories request_for provider now cats news_list).2)
  ∧ (is_Some (fetch_categories request_for provider now cats news_list).1 ->
       (fetch_categories request_for provider now cats news_list).2
         = map request_for cats
       ∧ ∀ rq, rq ∈ map request_for cats -> provider rq ≠ RequestException).
Proof.
  revert news_list.
  induction cats as [|c cats IH]; intros news_list; simpl.
  - split_and!; [done|by intros i rq ?|].
    intros _. split; [done|]. by intros rq ?%elem_of_nil.
  - destruct (provider (request_for c)) as [|data] eqn:Hp; simpl.
    + split_and!.
      * by apply prefix_cons, prefix_nil.
      * intros [|i] rq Hi _; [done|]. by destruct i.
      * by intros [x Hx].
    + set (nl := if data_ok data then _ else _).
      specialize (IH nl) as (IH1 & IH2 & IH3).
      destruct (fetch_categories request_for provider now cats nl)
        as [r log]; simpl in *.
      split_and!.
      * by apply prefix_cons.
      * intros [|i] rq Hi Hf; simpl in Hi.
        { injection Hi as <-. congruence. }
        f_equal. by eapply IH2.
      * intros Hr. destruct (IH3 Hr) as [-> Hok]. split; [done|].
        intros rq [->|Hin]%elem_of_cons; [congruence|by apply Hok].
Qed.

(** X2: a refresh issues its requests in a fixed order, each at most once
    and six at most; a request that fails is the last one issued. *)
Theorem fetch_news_requests test_news key provider now :
  let log := (NewsBot._fetch_news test_news key provider now).2 in
  log `prefix_of` refresh_requests
  ∧ NoDup log
  ∧ (length log <= 6)%nat
  ∧ ∀ i rq, log !! i = Some rq -> provider rq = RequestException ->
      S i = length log.
Proof.
  cbv zeta.
  assert (NoDup refresh_requests) as Hnd.
  { apply (bool_decide_unpack (NoDup refresh_requests)). by vm_compute. }
  assert ((NewsBot._fetch_news test_news key provider now).2
            `prefix_of` refresh_requests
          ∧ ∀ i rq,
              (NewsBot._fetch_news test_news key provider now).2 !! i = Some rq ->
              provider rq = RequestException ->
              S i = length (NewsBot._fetch_news test_news key provider now).2)
    as [Hpre Hlast].
  { unfold NewsBot._fetch_news, refresh_requests.
    set (cats := ["technology"; "science"; "business"; "health"; "sports"]).
    destruct (negb (truthy key)).
    { split; [apply prefix_nil|by intros i rq ?]. }
    destruct (fetch_categories_log category_request provider now cats [])
      as (H1 & H2 & H3).
    destruct (fetch_categories category_request provider now cats [])
      as [[news_list|] log]; cbn [fst snd] in *.
    - destruct (H3 (mk_is_Some _ _ eq_refl)) as [-> Hok].
      assert (∀ i rq, map category_request cats !! i = Some rq ->
                provider rq ≠ RequestException) as Hok'.
      { intros i rq Hi. apply list_elem_of_lookup_2 in Hi. by apply Hok. }
      destruct (length news_list <? 5)%nat.
      + assert ((let '(news_list', log') :=
                   match provider general_request with
                   | RequestException => (news_list, [general_request])
                   | Json data =>
                       (if data_ok data
                        then merge_general 15 now (articles data) news_list
                        else news_list, [general_request])
                   end in
                 (match news_list' with
                  | [] => test_news now
                  | _ => news_list'
                  end, map category_request cats ++ log')).2
                = map category_request cats ++ [general_request]) as ->.
        { by destruct (provider general_request). }
        split; [done|]. intros i rq Hi Hf.
        rewrite length_app, length_map. simpl.
        destruct (decide (i < 5)%nat) as [Hlt|Hge].
        * rewrite lookup_app_l in Hi by (rewrite length_map; simpl; lia).
          by apply Hok' in Hi.
        * apply lookup_lt_Some in Hi.
          rewrite length_app, length_map in Hi. simpl in Hi. lia.
      + cbn [fst snd]. rewrite app_nil_r. split.
        * by apply prefix_app_r.
        * intros i rq Hi Hf. by apply Hok' in Hi.
    - split; [|done]. etrans; [done|]. by apply prefix_app_r. }
  split_and!; [done| |  |done].
  - destruct Hpre as [k Hk]. rewrite Hk in Hnd.
    by apply NoDup_app in Hnd as [? _].
  - apply prefix_length in Hpre. simpl in Hpre. lia.
Qed.

Lemma truthy_Some v : truthy v = true -> ∃ s, v = Some s ∧ s ≠ "".
Proof.
  destruct v as [s|]; [|done]. simpl. intros H. exists s. split; [done|].
  intros ->. done.
Qed.

Lemma make_item_well_formed cat now a :
  valid_article a = true -> well_formed (make_item cat now a).
Proof.
  unfold valid_article. rewrite !andb_true_iff.
  intros [[[Ht Hd] Hu] Hr].
  apply truthy_Some in Ht as (t & Ht & Htne).
  apply truthy_Some in Hd as (d & Hd & Hdne).
  apply truthy_Some in Hu as (u & Hu & Hune).
  apply negb_true_iff, bool_decide_eq_false in Hr.
  unfold well_formed, make_item. simpl. rewrite Ht, Hd, Hu in *. simpl.
  split_and!; [done| |done|].
  - by destruct (String.eqb_spec d "").
  - intros ->. by apply Hr.
Qed.

Lemma collect_well_formed cat now arts news_list :
  Forall well_formed news_list ->
  Forall well_formed (collect cat now arts news_list).
Proof.
  intros Hwf. unfold collect. apply Forall_app. split; [done|].
  apply Forall_forall. intros news Hin.
  apply list_elem_of_In, in_map_iff in Hin as (a & <- & Ha).
  apply list_elem_of_In, list_elem_of_filter in Ha as [Hv _].
  by apply make_item_well_formed.
Qed.

Lemma fetch_categories_well_formed request_for provider now cats news_list r :
  Forall well_formed news_list ->
  (fetch_categories request_for provider now cats news_list).1 = Some r ->
  Forall well_formed r.
Proof.
  revert news_list. induction cats as [|c cats IH]; intros news_list Hwf; simpl.
  - by intros [= <-].
  - destruct (provider (request_for c)) as [|data]; [done|].
    set (nl := if data_ok data then _ else _).
    assert (Forall well_formed nl) as Hnl.
    { subst nl. destruct (data_ok data); [|done].
      by apply collect_well_formed. }
    specialize (IH nl Hnl).
    destruct (fetch_categories request_for provider now cats nl). exact IH.
Qed.

Lemma merge_general_well_formed cap now arts news_list :
  Forall well_formed news_list ->
  Forall well_formed (merge_general cap now arts news_list).
Proof.
  revert news_list. induction arts as [|a arts IH]; intros news_list Hwf; simpl.
  - done.
  - destruct (valid_article a) eqn:Hv; [|by apply IH].
    destruct (any_title _ news_list); [by apply IH|].
    assert (Forall well_formed (news_list ++ [make_item "общие" now a])) as H.
    { apply Forall_app. split; [done|]. apply Forall_singleton.
      by apply make_item_well_formed. }
    destruct (cap <=? _)%nat; [done|by apply IH].
Qed.

Lemma fetch_news_well_formed test_news key provider now :
  (∀ t, Forall well_formed (test_news t)) ->
  Forall well_formed (NewsBot._fetch_news test_news key provider now).1.
Proof.
  intros Htest. unfold NewsBot._fetch_news.
  destruct (negb (truthy key)); [apply Htest|].
  pose proof (fetch_categories_well_formed category_request provider now
    ["technology"; "science"; "business"; "health"; "sports"] []) as Hc.
  destruct (fetch_categories _ _ _ _ _) as [[news_list|] log]; [|apply Htest].
  specialize (Hc news_list (Forall_nil_2 _) eq_refl).
  assert (∀ l : list Item, Forall well_formed l ->
            Forall well_formed
              match l with [] => test_news now | _ => l end) as Hm.
  { intros [|x l] Hl; [apply Htest|done]. }
  destruct (length news_list <? 5)%nat; [|by apply Hm].
  destruct (provider general_request) as [|data]; [by apply Hm|].
  destruct (data_ok data); apply Hm; [|done].
  by apply merge_general_well_formed.
Qed.

Lemma bot_test_news_well_formed t : Forall well_formed (bot._get_test_news t).
Proof. repeat constructor; discriminate. Qed.

Lemma full_webhook_test_news_well_formed t :
  Forall well_formed (full_webhook_bot._get_test_news t).
Proof. repeat constructor; discriminate. Qed.

(** X4: every entry of a batch [_fetch_news] returns, in [bot.py] and in
    [full_webhook_bot.py], has a non-empty title, description and link, and
    its link is not the mark of a removed article. *)
Theorem fetch_news_entries_well_formed key provider now :
  Forall well_formed (bot._fetch_news key provider now).1
  ∧ Forall well_formed (full_webhook_bot._fetch_news key provider now).1.
Proof.
  split; apply fetch_news_well_formed.
  - apply bot_test_news_well_formed.
  - apply full_webhook_test_news_well_formed.
Qed.

Lemma merge_general_length cap now arts news_list :
  (length news_list < cap)%nat ->
  (length (merge_general cap now arts news_list) <= cap)%nat.
Proof.
  revert news_list. induction arts as [|a arts IH]; intros news_list Hlt; simpl.
  - lia.
  - destruct (valid_article a); [|by apply IH].
    destruct (any_title _ news_list); [by apply IH|].
    destruct (cap <=? length (news_list ++ [make_item "общие" now a]))%nat
      eqn:Hcap.
    + rewrite length_app. simpl. lia.
    + apply IH. apply Nat.leb_gt in Hcap. done.
Qed.

Lemma collect_length cat now arts news_list :
  (length (collect cat now arts news_list)
   <= length news_list + length arts)%nat.
Proof.
  unfold collect. rewrite length_app, length_map.
  pose proof (length_filter (fun a => valid_article a = true) arts). lia.
Qed.

Lemma fetch_categories_length provider now cats news_list r :
  honours_page_size provider ->
  (fetch_categories category_request provider now cats news_list).1 = Some r ->
  (length r <= length news_list + 3 * length cats)%nat.
Proof.
  intros Hp. revert news_list.
  induction cats as [|c cats IH]; intros news_list; simpl.
  - intros [= <-]. lia.
  - destruct (provider (category_request c)) as [|data] eqn:Hc; [done|].
    apply Hp in Hc. simpl in Hc.
    set (nl := if data_ok data then _ else _).
    assert (length nl <= length news_list + 3)%nat as Hnl.
    { subst nl. destruct (data_ok data); [|lia].
      pose proof (collect_length (categories_get c) now (articles data)
                    news_list). lia. }
    specialize (IH nl).
    destruct (fetch_categories category_request provider now cats nl).
    intros Hr. specialize (IH Hr). lia.
Qed.

(** X3: when the provider answers no request with more articles than the
    page size asked for, a batch of [_fetch_news] has at most 15 entries. *)
Theorem fetch_news_at_most_15 test_news key provider now :
  honours_page_size provider ->
  (∀ t, (length (test_news t) <= 15)%nat) ->
  (length (NewsBot._fetch_news test_news key provider now).1 <= 15)%nat.
Proof.
  intros Hp Htest. unfold NewsBot._fetch_news.
  destruct (negb (truthy key)); [apply Htest|].
  pose proof (fetch_categories_length provider now
    ["technology"; "science"; "business"; "health"; "sports"] []) as Hc.
  destruct (fetch_categories _ _ _ _ _) as [[news_list|] log]; [|apply Htest].
  specialize (Hc news_list Hp eq_refl). simpl in Hc.
  assert (∀ l : list Item, (length l <= 15)%nat ->
            (length match l with [] => test_news now | _ => l end <= 15)%nat)
    as Hm.
  { intros [|x l] Hl; [apply Htest|done]. }
  destruct (length news_list <? 5)%nat eqn:Hfew; [|by apply Hm].
  apply Nat.ltb_lt in Hfew.
  destruct (provider general_request) as [|data]; [apply Hm; lia|].
  destruct (data_ok data); apply Hm; [|lia].
  apply merge_general_length. lia.
Qed.

Lemma fetch_news_at_most_15_witness :
  (length (NewsBot._fetch_news bot._get_test_news (Some "key")
             (paged (article <$> ["a"; "b"; "c"; "d"; "e"])) 0).1 <= 15)%nat.
Proof.
  apply (fetch_news_at_most_15 bot._get_test_news (Some "key")
           (paged (article <$> ["a"; "b"; "c"; "d"; "e"])) 0).
  - intros rq data [= <-]. simpl. rewrite length_take. lia.
  - intros t. simpl. lia.
Defined.

(** X1: on every content of the news file the bot can meet, and whatever
    the provider does, [_update_news] returns a non-empty batch, and the
    news file afterwards holds that very batch and a refresh time. *)
Theorem update_news_result test_news key provider now news_data :
  (∀ t, test_news t ≠ []) ->
  reachable test_news news_data ->
  let r := NewsBot._update_news test_news key provider now news_data in
  r.1.1 ≠ []
  ∧ news r.1.2 = Some r.1.1
  ∧ is_Some (last_update r.1.2).
Proof.
  intros Hne Hr. cbv zeta.
  split; [by apply update_news_never_empty|].
  destruct (NewsBot.needs_update news_data now) eqn:Hs.
  - rewrite update_news_refresh by done. simpl. by split.
  - rewrite update_news_hit by done. simpl.
    destruct (reachable_inv _ _ Hne Hr)
      as [[Hlu _]|(t & batch & Hlu & Hb & _)].
    + unfold NewsBot.needs_update in Hs. by rewrite Hlu in Hs.
    + rewrite Hb, Hlu. by split.
Qed.

Lemma update_news_result_witness :
  let r := NewsBot._update_news bot._get_test_news (Some "key")
             overlapping_categories 0 initial_news_data in
  r.1.1 ≠ []
  ∧ news r.1.2 = Some r.1.1
  ∧ is_Some (last_update r.1.2).
Proof.
  apply (update_news_result bot._get_test_news (Some "key")
           overlapping_categories 0 initial_news_data).
  - intros t. discriminate.
  - apply reachable_init.
Defined.

Lemma fetch_categories_failure request_for provider now cats news_list c :
  c ∈ cats ->
  provider (request_for c) = RequestException ->
  (fetch_categories request_for provider now cats news_list).1 = None.
Proof.
  revert news_list. induction cats as [|c' cats IH]; intros news_list Hin Hf.
  - by apply elem_of_nil in Hin.
  - simpl. apply elem_of_cons in Hin as [->|Hin].
    + by rewrite Hf.
    + destruct (provider (request_for c')) as [|data]; [done|].
      specialize (IH (if data_ok data
                      then collect (categories_get c') now (articles data)
                             news_list
                      else news_list) Hin Hf).
      by destruct (fetch_categories request_for provider now cats _).
Qed.

(** X20: a refresh in which a category request fails returns the sample
    batch, whatever the categories before it returned; a failure of the
    aggregate request instead keeps what the categories returned. *)
Theorem fetch_news_partial_failure test_news key provider now :
  truthy key = true ->
  (∀ c, c ∈ ["technology"; "science"; "business"; "health"; "sports"] ->
        provider (category_request c) = RequestException ->
        (NewsBot._fetch_news test_news key provider now).1 = test_news now)
  ∧ (∀ collected,
       (fetch_categories category_request provider now
          ["technology"; "science"; "business"; "health"; "sports"] []).1
         = Some collected ->
       collected ≠ [] ->
       provider general_request = RequestException ->
       (NewsBot._fetch_news test_news key provider now).1 = collected).
Proof.
  intros Hkey. unfold NewsBot._fetch_news. rewrite Hkey. cbn [negb].
  split.
  - intros c Hin Hf.
    rewrite (surjective_pairing (fetch_categories _ _ _ _ _)).
    by rewrite (fetch_categories_failure _ _ _ _ _ c Hin Hf).
  - intros collected Hc Hne Hg.
    destruct (fetch_categories _ _ _ _ _) as [[nl|] log]; [|done].
    injection Hc as ->. rewrite Hg.
    destruct (length collected <? 5)%nat; by destruct collected.
Qed.

(** The first category answers, the second fails. *)
Lemma fetch_news_partial_failure_witness :
  (NewsBot._fetch_news bot._get_test_news (Some "key")
     (fun rq => match rq_category rq with
                | Some "technology" =>
                    Json {| status := "ok"; articles := [article "A"] |}
                | _ => RequestException
                end) 0).1 = bot._get_test_news 0.
Proof.
  apply (proj1 (fetch_news_partial_failure bot._get_test_news (Some "key")
                  (fun rq => match rq_category rq with
                             | Some "technology" =>
                                 Json {| status := "ok";
                                         articles := [article "A"] |}
                             | _ => RequestException
                             end) 0 eq_refl) "science").
  - vm_compute. apply list_elem_of_further, list_elem_of_here.
  - reflexivity.
Defined.

(** X21: a refresh that failed is not tried again before the TTL has
    passed: after a call of [_update_news] in which every provider call
    failed, any call within the TTL returns the sample batch of that call
    without asking the provider, even a provider that would now answer. *)
Theorem failed_refresh_not_retried test_news key provider1 provider2 t1 t2
    news_data :
  failing provider1 ->
  NewsBot.needs_update news_data t1 = true ->
  t2 - t1 <= TTL ->
  NewsBot._update_news test_news key provider2 t2
    (NewsBot._update_news test_news key provider1 t1 news_data).1.2
  = (test_news t1,
     {| last_update := Some t1; news := Some (test_news t1) |}, []).
Proof.
  intros Hf Hs Hle.
  rewrite (update_news_refresh test_news key provider1 t1 news_data Hs).
  cbv zeta. cbn [fst snd].
  rewrite (fetch_news_empty_or_failing test_news key provider1 t1
             (failing_empty_or_failing provider1 Hf)).
  rewrite update_news_hit; [done|].
  by apply needs_update_false with (t := t1).
Qed.

Lemma failed_refresh_not_retried_witness :
  NewsBot._update_news bot._get_test_news (Some "key")
    (paged [article "A"; article "B"]) (5 + TTL)
    (NewsBot._update_news bot._get_test_news (Some "key") always_failing 5
       initial_news_data).1.2
  = (bot._get_test_news 5,
     {| last_update := Some 5; news := Some (bot._get_test_news 5) |}, []).
Proof.
  apply (failed_refresh_not_retried bot._get_test_news (Some "key")
           always_failing (paged [article "A"; article "B"]) 5 (5 + TTL)
           initial_news_data).
  - intros rq. reflexivity.
  - reflexivity.
  - vm_compute. discriminate.
Defined.

(** ** Favorites in [bot.py] ([save_command]) *)

Lemma bot_save_out_of_range user_id news_number st :
  news_number < 1
  ∨ news_number > Z.of_nat (length (default [] (news (news_file st)))) ->
  bot.save_command user_id news_number st = (bot.NoSuchNews news_number, st).
Proof.
  intros Hr. unfold bot.save_command. destruct Hr.
  - by rewrite (bool_decide_eq_true_2 (news_number < 1)).
  - rewrite (bool_decide_eq_true_2 (news_number > _)) by done.
    by rewrite orb_true_r.
Qed.

(** Saving a number of the stored batch twice in [bot.py]: "saved", then
    "already saved" with nothing changed; the entry is in the favorites
    once. *)
Lemma bot_save_twice user_id news_number st entry :
  1 <= news_number ->
  default [] (news (news_file st)) !! Z.to_nat (news_number - 1) = Some entry ->
  any_title (title entry) (bot.favorites_command user_id st) = false ->
  let r1 := bot.save_command user_id news_number st in
  let r2 := bot.save_command user_id news_number r1.2 in
  r1.1 = bot.Saved (slice_to 50 (title entry))
  ∧ r2 = (bot.AlreadySaved, r1.2)
  ∧ bot.favorites_command user_id r2.2 =
      bot.favorites_command user_id st ++ [entry].
Proof.
  intros Hn Hl Hany. simpl.
  assert (bool_decide (news_number < 1)
          || bool_decide (news_number
                          > Z.of_nat (length (default [] (news (news_file st)))))
          = false) as Hguard.
  { apply lookup_lt_Some in Hl.
    rewrite (bool_decide_eq_false_2 (news_number < 1)) by lia.
    rewrite (bool_decide_eq_false_2 (news_number > _)) by lia. done. }
  unfold bot.favorites_command in *.
  assert (bot.save_command user_id news_number st =
            (bot.Saved (slice_to 50 (title entry)),
             {| news_file := news_file st;
                users_file :=
                  {| subscribers := subscribers (users_file st);
                     favorites :=
                       <[user_id := default [] (favorites (users_file st)
                                                 !! user_id) ++ [entry]]>
                         (favorites (users_file st)) |} |})) as ->.
  { unfold bot.save_command. by rewrite Hguard, Hl, Hany. }
  simpl. unfold bot.save_command. simpl.
  rewrite Hguard, Hl, lookup_insert_eq. simpl.
  assert (any_title (title entry)
            (default [] (favorites (users_file st) !! user_id) ++ [entry])
          = true) as ->.
  { apply any_title_true. rewrite fmap_app. apply elem_of_app. right.
    simpl. by apply list_elem_of_singleton. }
  simpl. by rewrite lookup_insert_eq.
Qed.

(** ** Subscriptions ([daily_command]) *)

Lemma list_remove_subseteq u (l : list Z) v :
  v ∈ bot.list_remove u l -> v ∈ l.
Proof.
  induction l as [|y l IH]; simpl; [done|].
  case_bool_decide; rewrite !elem_of_cons; [by right|].
  intros [->|Hin]; [by left|right; by apply IH].
Qed.

Lemma list_remove_elem u (l : list Z) v :
  NoDup l -> v ∈ bot.list_remove u l <-> v ∈ l ∧ v ≠ u.
Proof.
  induction 1 as [|y l Hy Hnd IH]; simpl.
  { split; [by intros ?%elem_of_nil|by intros [?%elem_of_nil _]]. }
  case_bool_decide as Hyu.
  - subst y. rewrite elem_of_cons. split.
    + intros Hv. split; [by right|]. by intros ->.
    + intros [[->|Hv] Hne]; done.
  - rewrite !elem_of_cons, IH. split.
    + intros [->|[Hv Hne]]; [split; [by left|done]|split; [by right|done]].
    + intros [[->|Hv] Hne]; [by left|by right].
Qed.

Lemma list_remove_NoDup u (l : list Z) :
  NoDup l -> NoDup (bot.list_remove u l).
Proof.
  induction 1 as [|y l Hy Hnd IH]; simpl; [constructor|].
  case_bool_decide; [done|].
  constructor; [|done]. intros Hin. by apply list_remove_subseteq in Hin.
Qed.

(** One [daily_command] flips the membership of its user and of nobody
    else. *)
Lemma daily_command_elem u v st :
  NoDup (subscribers (users_file st)) ->
  v ∈ subscribers (users_file (bot.daily_command u st).2)
  <-> (if decide (v = u) then v ∉ subscribers (users_file st)
       else v ∈ subscribers (users_file st)).
Proof.
  intros Hnd. unfold bot.daily_command. case_bool_decide as Hu; simpl.
  - rewrite list_remove_elem by done. destruct (decide (v = u)) as [->|Hne].
    + split; [by intros [_ ?]|done].
    + split; [by intros [? _]|done].
  - rewrite elem_of_app, list_elem_of_singleton.
    destruct (decide (v = u)) as [->|Hne].
    + split; [done|by right].
    + split; [by intros [?|?]|by left].
Qed.

Lemma daily_command_NoDup u st :
  NoDup (subscribers (users_file st)) ->
  NoDup (subscribers (users_file (bot.daily_command u st).2)).
Proof.
  intros Hnd. unfold bot.daily_command. case_bool_decide as Hu; simpl.
  - by apply list_remove_NoDup.
  - apply NoDup_app. split_and!; [done| |apply NoDup_singleton].
    intros x Hx Hxu. apply list_elem_of_singleton in Hxu. by subst.
Qed.

Lemma daily_command_reply u st :
  (bot.daily_command u st).1 = bot.Subscribed
  <-> u ∉ subscribers (users_file st).
Proof. unfold bot.daily_command. by case_bool_decide; simpl. Qed.

(** Toggling twice, on a subscriber list without repetitions. *)
Lemma daily_command_twice u st :
  NoDup (subscribers (users_file st)) ->
  let r1 := bot.daily_command u st in
  let r2 := bot.daily_command u r1.2 in
  (∀ v, v ∈ subscribers (users_file r2.2) <-> v ∈ subscribers (users_file st))
  ∧ r1.1 ≠ r2.1.
Proof.
  intros Hnd. simpl. split.
  - intros v.
    rewrite daily_command_elem by by apply daily_command_NoDup.
    destruct (decide (v = u)) as [->|Hne].
    + rewrite daily_command_elem by done. rewrite decide_True by done.
      destruct (decide (u ∈ subscribers (users_file st))); tauto.
    + rewrite daily_command_elem by done. by rewrite decide_False.
  - pose proof (daily_command_reply u st) as H1.
    pose proof (daily_command_reply u (bot.daily_command u st).2) as H2.
    pose proof (daily_command_elem u u st Hnd) as H3.
    rewrite decide_True in H3 by done.
    destruct (decide (u ∈ subscribers (users_file st)));
      destruct (bot.daily_command u st).1, (bot.daily_command u _).1;
      intuition congruence.
Qed.

Lemma daily_commands_history users st :
  NoDup (subscribers (users_file st)) ->
  NoDup (subscribers (users_file (daily_commands users st).2))
  ∧ ∀ v, v ∈ subscribers (users_file (daily_commands users st).2)
         <-> match last_reply v (daily_commands users st).1 with
             | Some r => r = bot.Subscribed
             | None => v ∈ subscribers (users_file st)
             end.
Proof.
  revert st. induction users as [|u users IH]; intros st Hnd; simpl; [done|].
  pose proof (daily_command_NoDup u st Hnd) as Hnd'.
  pose proof (daily_command_reply u st) as Hr.
  pose proof (λ v, daily_command_elem u v st Hnd) as He.
  destruct (bot.daily_command u st) as [r st']. simpl in *.
  specialize (IH st' Hnd') as [IHnd IHe].
  destruct (daily_commands users st') as [rs st'']. simpl in *.
  split; [done|]. intros v. rewrite IHe.
  destruct (last_reply v rs); [done|].
  rewrite He. case_bool_decide as Huv.
  - subst v. rewrite decide_True by done. symmetry. apply Hr.
  - by rewrite decide_False by congruence.
Qed.

(** The recipients of a digest are subscribers, and all of them when there
    is a batch to send. *)
Lemma digest_recipients st :
  (∀ v, v ∈ (scheduler.sent (scheduler.send_daily_digest st)).*1
        -> v ∈ subscribers (users_file st))
  ∧ (default [] (news (news_file st)) ≠ [] ->
     (scheduler.sent (scheduler.send_daily_digest st)).*1
       = subscribers (users_file st)).
Proof.
  assert (∀ l : list Z, ∀ text : string,
            (map (fun user_id => (user_id, text)) l).*1 = l) as Hfst.
  { intros l text. induction l as [|x l IH]; simpl; [done|]. by f_equal. }
  unfold scheduler.send_daily_digest.
  destruct (subscribers (users_file st)) as [|s subs].
  { split; [by intros v ?%elem_of_nil|done]. }
  destruct (default [] (news (news_file st))) as [|x l].
  { split; [by intros v ?%elem_of_nil|done]. }
  unfold scheduler.sent. rewrite Hfst. done.
Qed.

(** C8: on the subscriber list the bot keeps (started empty and changed only
    by [daily_command]), toggling a user twice leaves every user, that one
    included, subscribed exactly if they were before, the two replies being
    one "subscribed" and one "unsubscribed"; and the list read for the
    broadcast holds, without repetition, exactly the users whose latest
    toggle was answered "subscribed", which are also exactly the recipients
    of a digest. *)
Theorem daily_toggle st0 users u :
  subscribers (users_file st0) = [] ->
  let st := (daily_commands users st0).2 in
  let r1 := bot.daily_command u st in
  let r2 := bot.daily_command u r1.2 in
  (∀ v, v ∈ subscribers (users_file r2.2) <-> v ∈ subscribers (users_file st))
  ∧ r1.1 ≠ r2.1
  ∧ (r1.1 = bot.Subscribed <-> u ∉ subscribers (users_file st))
  ∧ NoDup (subscribers (users_file st))
  ∧ (∀ v, v ∈ subscribers (users_file st)
          <-> last_reply v (daily_commands users st0).1 = Some bot.Subscribed)
  ∧ (∀ v, v ∈ (scheduler.sent (scheduler.send_daily_digest st)).*1
          -> v ∈ subscribers (users_file st))
  ∧ (default [] (news (news_file st)) ≠ [] ->
     (scheduler.sent (scheduler.send_daily_digest st)).*1
       = subscribers (users_file st)).
Proof.
  intros H0. simpl.
  assert (NoDup (subscribers (users_file st0))) as Hnd0
    by (rewrite H0; constructor).
  destruct (daily_commands_history users st0 Hnd0) as [Hnd Hhist].
  destruct (daily_command_twice u _ Hnd) as [Htwice Hne].
  split_and!; [done|done|apply daily_command_reply|done| |
               apply digest_recipients..].
  intros v. rewrite Hhist, H0.
  destruct (last_reply v _) as [r|].
  - split; [by intros ->|by intros [= ->]].
  - split; [by intros ?%elem_of_nil|done].
Qed.

Lemma daily_toggle_witness :
  let st := (daily_commands [7; 8; 7; 9] initial_state).2 in
  let r1 := bot.daily_command 8 st in
  let r2 := bot.daily_command 8 r1.2 in
  (∀ v, v ∈ subscribers (users_file r2.2) <-> v ∈ subscribers (users_file st))
  ∧ r1.1 ≠ r2.1
  ∧ (r1.1 = bot.Subscribed <-> 8 ∉ subscribers (users_file st))
  ∧ NoDup (subscribers (users_file st))
  ∧ (∀ v, v ∈ subscribers (users_file st)
          <-> last_reply v (daily_commands [7; 8; 7; 9] initial_state).1
              = Some bot.Subscribed)
  ∧ (∀ v, v ∈ (scheduler.sent (scheduler.send_daily_digest st)).*1
          -> v ∈ subscribers (users_file st))
  ∧ (default [] (news (news_file st)) ≠ [] ->
     (scheduler.sent (scheduler.send_daily_digest st)).*1
       = subscribers (users_file st)).
Proof.
  apply (daily_toggle initial_state [7; 8; 7; 9] 8). reflexivity.
Defined.

(** ** The daily digest ([scheduler.py]) *)

(** C9, as stated, fails: with an empty batch no text at all is produced
    for the subscriber, not a "no news" one. *)
Lemma no_digest_without_news :
  scheduler.send_daily_digest one_subscriber_no_news = scheduler.NoNews
  ∧ ¬ ∃ text,
        (7, text) ∈ scheduler.sent
                      (scheduler.send_daily_digest one_subscriber_no_news).
Proof.
  split; [done|]. intros [text Hin]. vm_compute in Hin.
  by apply elem_of_nil in Hin.
Qed.

Lemma digest_text_not_blank news_list : scheduler.digest_text news_list ≠ "".
Proof. unfold scheduler.digest_text, scheduler.nl. simpl. discriminate. Qed.

Lemma string_app_assoc (s1 s2 s3 : string) :
  (s1 +:+ s2) +:+ s3 = s1 +:+ s2 +:+ s3.
Proof.
  induction s1 as [|c s1 IH]; [reflexivity|].
  change (String c ((s1 +:+ s2) +:+ s3) = String c (s1 +:+ s2 +:+ s3)).
  by rewrite IH.
Qed.

(** What every digest text carries: its header line, whatever the batch,
    and the numbered title of the first entry of the batch. *)
Lemma digest_text_content news_list :
  blank (scheduler.digest_text news_list) = false
  ∧ (∃ after,
       scheduler.digest_text news_list
       = scheduler.nl +:+ "🌅 **Доброе утро! Ежедневный дайджест новостей**"
         +:+ after)
  ∧ (∀ first rest, news_list = first :: rest ->
       ∃ before after,
         scheduler.digest_text news_list
         = before +:+ "**1. " +:+ title first +:+ "**" +:+ after).
Proof.
  split_and!.
  - reflexivity.
  - by eexists.
  - intros first rest ->. unfold scheduler.digest_text.
    change (take 5 (first :: rest)) with (first :: take 4 rest).
    cbn [scheduler.digest_entries].
    exists (scheduler.nl
            +:+ "🌅 **Доброе утро! Ежедневный дайджест новостей**"
            +:+ scheduler.nl +:+ scheduler.nl
            +:+ "📰 Сегодня у нас " +:+ pretty (length (first :: rest))
            +:+ " свежих новостей:" +:+ scheduler.nl +:+ scheduler.nl).
    eexists. rewrite !string_app_assoc. by do 8 f_equal.
Qed.

(** C9 (amended): a run of [send_daily_digest] does not fail on an empty
    batch: it then builds no text and sends nothing (it only logs that
    there is no news), in [scheduler.py] and in [bot.py].  Whatever
    [scheduler.py] sends is the digest text, a function of the batch alone,
    built from a non-empty batch and sent to subscribers only; and the
    digest text, in either file, is never blank: it starts with the header
    line of the digest and carries the numbered title of the first entry of
    the batch. *)
Theorem digest_never_blank st :
  (default [] (news (news_file st)) = [] ->
   scheduler.sent (scheduler.send_daily_digest st) = [])
  ∧ (∀ user_id text,
       (user_id, text) ∈ scheduler.sent (scheduler.send_daily_digest st) ->
       text = scheduler.digest_text (default [] (news (news_file st)))
       ∧ text ≠ ""
       ∧ blank text = false
       ∧ (∃ after,
            text = scheduler.nl
                   +:+ "🌅 **Доброе утро! Ежедневный дайджест новостей**"
                   +:+ after)
       ∧ (∃ first rest before after,
            default [] (news (news_file st)) = first :: rest
            ∧ text = before +:+ "**1. " +:+ title first +:+ "**" +:+ after)
       ∧ default [] (news (news_file st)) ≠ []
       ∧ user_id ∈ subscribers (users_file st))
  ∧ (∀ key provider now,
       let batch := (bot._update_news key provider now (news_file st)).1.1 in
       let run := (bot_digest.send_daily_digest key provider now st).1.1 in
       (batch = [] ->
        run = bot_digest.NoSubscribers ∨ run = bot_digest.NoNews)
       ∧ ∀ text recipients,
           run = bot_digest.Composed text recipients ->
           text = scheduler.digest_text batch
           ∧ blank text = false
           ∧ (∃ after,
                text = scheduler.nl
                       +:+ "🌅 **Доброе утро! Ежедневный дайджест новостей**"
                       +:+ after)
           ∧ (∃ first rest before after,
                batch = first :: rest
                ∧ text = before +:+ "**1. " +:+ title first +:+ "**"
                         +:+ after)
           ∧ recipients = subscribers (users_file st)).
Proof.
  split_and!.
  - unfold scheduler.send_daily_digest. intros ->.
    by destruct (subscribers _).
  - unfold scheduler.send_daily_digest. intros user_id text.
    destruct (subscribers (users_file st)) as [|s subs];
      [by intros ?%elem_of_nil|].
    destruct (default [] (news (news_file st))) as [|x l];
      [by intros ?%elem_of_nil|].
    simpl. intros Hin.
    apply (list_elem_of_fmap
             (fun user_id => (user_id, scheduler.digest_text (x :: l)))
             (s :: subs)) in Hin as (v & [= -> ->] & Hv).
    destruct (digest_text_content (x :: l)) as (Hb & Hh & Ht).
    destruct (Ht x l eq_refl) as (before & after & Htext).
    split_and!; [done|apply digest_text_not_blank|done|done| |done|done].
    by exists x, l, before, after.
  - intros key provider now. cbv zeta. unfold bot_digest.send_daily_digest.
    destruct (subscribers (users_file st)) as [|s subs] eqn:Hsubs.
    { split; [by left|]. by intros text recipients. }
    destruct (bot._update_news key provider now (news_file st))
      as [[batch news_data] log].
    cbn [fst snd]. split.
    + intros ->. by right.
    + intros text recipients. destruct batch as [|x l]; [done|].
      cbn [fst]. intros [= <- <-].
      destruct (digest_text_content (x :: l)) as (Hb & Hh & Ht).
      destruct (Ht x l eq_refl) as (before & after & Htext).
      split_and!; [done|done|done| |done].
      by exists x, l, before, after.
Qed.

(** The digest [scheduler.py] sends for the sample batch of [bot.py]. *)
Lemma digest_never_blank_witness :
  blank (scheduler.digest_text (bot._get_test_news 0)) = false
  ∧ ∃ before after,
      scheduler.digest_text (bot._get_test_news 0)
      = before
        +:+ "**1. "
        +:+ "Новые технологии в области искусственного интеллекта"
        +:+ "**" +:+ after.
Proof.
  destruct (proj1 (proj2
              (digest_never_blank
                 {| news_file := {| last_update := Some 0;
                                    news := Some (bot._get_test_news 0) |};
                    users_file := {| subscribers := [7];
                                     favorites := ∅ |} |}))
              7 (scheduler.digest_text (bot._get_test_news 0)))
    as (_ & _ & Hb & _ & (first & rest & before & after & Hbatch & Htext)
        & _).
  - apply list_elem_of_here.
  - split; [exact Hb|]. exists before, after.
    injection Hbatch as <- _. exact Htext.
Defined.

(** The digest for the sample batch of [bot.py]: five entries of the six. *)
Example digest_of_sample_batch :
  scheduler.sent
    (scheduler.send_daily_digest
       {| news_file := {| last_update := Some 0;
                          news := Some (bot._get_test_news 0) |};
          users_file := {| subscribers := [7; 8]; favorites := ∅ |} |})
  = [ (7, scheduler.digest_text (bot._get_test_news 0));
      (8, scheduler.digest_text (bot._get_test_news 0)) ].
Proof. reflexivity. Qed.

(** ** [bot.py]: the list of [/news] and its save buttons *)

Example split_on_button_data :
  split_on underscore "save_3" = ["save"; "3"]
  ∧ split_on underscore "save_filtered_3" = ["save"; "filtered"; "3"]
  ∧ split_on underscore "" = [""].
Proof. by vm_compute. Qed.

Lemma py_index_nonneg {A} (l : list A) i :
  0 <= i -> py_index l i = l !! Z.to_nat i.
Proof. intros Hi. unfold py_index. by rewrite bool_decide_eq_true_2. Qed.

Lemma py_index_from_end {A} (l : list A) i :
  - Z.of_nat (length l) <= i < 0 ->
  py_index l i = l !! Z.to_nat (Z.of_nat (length l) + i).
Proof.
  intros Hi. unfold py_index.
  rewrite bool_decide_eq_false_2 by lia. by rewrite bool_decide_eq_true_2 by lia.
Qed.

(** The data of a save button whose number part [s] has no underscore. *)
Lemma button_callback_number int user_id s st :
  split_on underscore s = [s] ->
  bot_handlers.button_callback int user_id ("save_" +:+ s) st =
    match int s with
    | None => ([bot_handlers.ButtonError], st)
    | Some news_number =>
        let news_list :=
          default [] (news (news_file (bot_handlers.core st))) in
        if bool_decide (news_number <= Z.of_nat (length news_list)) then
          let users_data := users_file (bot_handlers.core st) in
          let user_favorites := default [] (favorites users_data !! user_id) in
          match py_index news_list (news_number - 1) with
          | None => ([bot_handlers.ButtonError], st)
          | Some news_to_save =>
              if any_title (title news_to_save) user_favorites
              then ([bot_handlers.ButtonAlreadySaved], st)
              else
                ([bot_handlers.ButtonSaved],
                 {| bot_handlers.core :=
                      {| news_file := news_file (bot_handlers.core st);
                         users_file :=
                           {| subscribers := subscribers users_data;
                              favorites :=
                                <[user_id := user_favorites ++ [news_to_save]]>
                                  (favorites users_data) |} |};
                    bot_handlers.stats_file := bot_handlers.stats_file st |})
          end
        else ([], st)
    end.
Proof.
  intros Hs. unfold bot_handlers.button_callback.
  change (String.prefix "save_" ("save_" +:+ s)) with (String.prefix "" s).
  assert (String.prefix "" s = true) as -> by by destruct s.
  change (split_on underscore ("save_" +:+ s))
    with ("save" :: split_on underscore s).
  rewrite Hs. simpl. destruct (int s) as [n|]; [|done]. done.
Qed.

(** X6: a save button whose data carries a number from 1 on does to the
    favorites what [/save] with that number does, and answers alike; above
    the length of the stored batch it changes nothing and answers nothing.
    It never touches the statistics. *)
Theorem button_agrees_with_save int user_id s n st :
  split_on underscore s = [s] ->
  int s = Some n ->
  1 <= n ->
  let b := bot_handlers.button_callback int user_id ("save_" +:+ s) st in
  let c := bot.save_command user_id n (bot_handlers.core st) in
  bot_handlers.core b.2 = c.2
  ∧ bot_handlers.stats_file b.2 = bot_handlers.stats_file st
  ∧ b.1 = match c.1 with
          | bot.Saved _ => [bot_handlers.ButtonSaved]
          | bot.AlreadySaved => [bot_handlers.ButtonAlreadySaved]
          | bot.NoSuchNews _ => []
          | bot.SaveFailed => [bot_handlers.ButtonError]
          end.
Proof.
  intros Hs Hint Hn. cbv zeta.
  rewrite button_callback_number by done. rewrite Hint. cbv zeta.
  unfold bot.save_command.
  rewrite (bool_decide_eq_false_2 (n < 1)) by lia. simpl orb.
  rewrite py_index_nonneg by lia.
  destruct (decide (n <= Z.of_nat (length (default []
             (news (news_file (bot_handlers.core st))))))) as [Hle|Hgt].
  - rewrite (bool_decide_eq_true_2 (n <= _)) by done.
    rewrite (bool_decide_eq_false_2 (n > _)) by lia.
    destruct (_ !! Z.to_nat (n - 1)) as [news_to_save|]; [|done].
    destruct (any_title _ _); [done|]. simpl. by destruct st as [[] ?].
  - rewrite (bool_decide_eq_false_2 (n <= _)) by done.
    rewrite (bool_decide_eq_true_2 (n > _)) by lia. done.
Qed.

Lemma button_agrees_with_save_witness :
  let st := (bot_handlers.news_command
               {| bot_handlers.news_api_key := None;
                  bot_handlers.provider := always_failing;
                  bot_handlers.now := 0 |} 7 bot_handlers.initial).2 in
  let b := bot_handlers.button_callback (decimal None) 7 ("save_" +:+ "2") st in
  let c := bot.save_command 7 2 (bot_handlers.core st) in
  bot_handlers.core b.2 = c.2
  ∧ bot_handlers.stats_file b.2 = bot_handlers.stats_file st
  ∧ b.1 = match c.1 with
          | bot.Saved _ => [bot_handlers.ButtonSaved]
          | bot.AlreadySaved => [bot_handlers.ButtonAlreadySaved]
          | bot.NoSuchNews _ => []
          | bot.SaveFailed => [bot_handlers.ButtonError]
          end.
Proof.
  apply (button_agrees_with_save (decimal None) 7 "2" 2
           (bot_handlers.news_command
              {| bot_handlers.news_api_key := None;
                 bot_handlers.provider := always_failing;
                 bot_handlers.now := 0 |} 7 bot_handlers.initial).2);
    vm_compute; first [reflexivity | discriminate].
Defined.

(** X7: the save button has no lower bound on its number: with a number
    from [1 - length] to 0 it takes the entry counted from the end of the
    stored batch (number 0 the last one) and saves it unless its title is
    already saved, where [/save] answers that the number does not exist. *)
Theorem button_number_from_end int user_id s n st :
  split_on underscore s = [s] ->
  int s = Some n ->
  let news_list := default [] (news (news_file (bot_handlers.core st))) in
  1 - Z.of_nat (length news_list) <= n <= 0 ->
  (bot.save_command user_id n (bot_handlers.core st)).1 = bot.NoSuchNews n
  ∧ ∃ entry,
      news_list !! Z.to_nat (Z.of_nat (length news_list) + n - 1) = Some entry
      ∧ if any_title (title entry)
             (bot.favorites_command user_id (bot_handlers.core st))
        then bot_handlers.button_callback int user_id ("save_" +:+ s) st
             = ([bot_handlers.ButtonAlreadySaved], st)
        else (bot_handlers.button_callback int user_id ("save_" +:+ s) st).1
             = [bot_handlers.ButtonSaved]
             ∧ bot.favorites_command user_id
                 (bot_handlers.core
                    (bot_handlers.button_callback int user_id
                       ("save_" +:+ s) st).2)
               = bot.favorites_command user_id (bot_handlers.core st)
                 ++ [entry].
Proof.
  intros Hs Hint news_list Hn. split.
  - rewrite bot_save_out_of_range; [done|]. left. lia.
  - rewrite button_callback_number by done. rewrite Hint. cbv zeta.
    fold news_list.
    rewrite (bool_decide_eq_true_2 (n <= _)) by lia.
    rewrite py_index_from_end by lia.
    replace (Z.of_nat (length news_list) + (n - 1))
      with (Z.of_nat (length news_list) + n - 1) by lia.
    destruct (lookup_lt_is_Some_2 news_list
                (Z.to_nat (Z.of_nat (length news_list) + n - 1)))
      as [entry Hentry]; [lia|].
    exists entry. split; [done|]. rewrite Hentry.
    unfold bot.favorites_command.
    destruct (any_title _ _); [done|]. simpl. split; [done|].
    by rewrite lookup_insert_eq.
Qed.

Lemma button_number_from_end_witness :
  let st := (bot_handlers.news_command
               {| bot_handlers.news_api_key := None;
                  bot_handlers.provider := always_failing;
                  bot_handlers.now := 0 |} 7 bot_handlers.initial).2 in
  let news_list := default [] (news (news_file (bot_handlers.core st))) in
  (bot.save_command 7 0 (bot_handlers.core st)).1 = bot.NoSuchNews 0
  ∧ ∃ entry,
      news_list !! Z.to_nat (Z.of_nat (length news_list) + 0 - 1) = Some entry
      ∧ if any_title (title entry)
             (bot.favorites_command 7 (bot_handlers.core st))
        then bot_handlers.button_callback (decimal None) 7 ("save_" +:+ "0") st
             = ([bot_handlers.ButtonAlreadySaved], st)
        else (bot_handlers.button_callback (decimal None) 7
                ("save_" +:+ "0") st).1
             = [bot_handlers.ButtonSaved]
             ∧ bot.favorites_command 7
                 (bot_handlers.core
                    (bot_handlers.button_callback (decimal None) 7
                       ("save_" +:+ "0") st).2)
               = bot.favorites_command 7 (bot_handlers.core st) ++ [entry].
Proof.
  apply (button_number_from_end (decimal None) 7 "0" 0
           (bot_handlers.news_command
              {| bot_handlers.news_api_key := None;
                 bot_handlers.provider := always_failing;
                 bot_handlers.now := 0 |} 7 bot_handlers.initial).2);
    vm_compute; first [reflexivity | split; discriminate].
Defined.

Lemma update_news_stored test_news key provider now news_data :
  default []
    (news (NewsBot._update_news test_news key provider now news_data).1.2)
  = (NewsBot._update_news test_news key provider now news_data).1.1.
Proof.
  destruct (NewsBot.needs_update news_data now) eqn:Hs.
  - by rewrite update_news_refresh.
  - by rewrite update_news_hit.
Qed.

Lemma news_command_entries env user_id st :
  default []
    (news (news_file (bot_handlers.core
                        (bot_handlers.news_command env user_id st).2)))
  = (bot._update_news (bot_handlers.news_api_key env)
       (bot_handlers.provider env) (bot_handlers.now env)
       (news_file (bot_handlers.core st))).1.1
  ∧ ∀ m, m ∈ (bot_handlers.news_command env user_id st).1 ->
      m = bot_handlers.Loading ∨ m = bot_handlers.Unavailable
      ∨ m = bot_handlers.NewsEnd ∨ m = bot_handlers.FeedbackForm
      ∨ m ∈ bot_handlers.news_entries
              (bot._update_news (bot_handlers.news_api_key env)
                 (bot_handlers.provider env) (bot_handlers.now env)
                 (news_file (bot_handlers.core st))).1.1.
Proof.
  pose proof (update_news_stored bot._get_test_news
                (bot_handlers.news_api_key env) (bot_handlers.provider env)
                (bot_handlers.now env) (news_file (bot_handlers.core st)))
    as Hstored.
  unfold bot_handlers.news_command, bot._update_news in *.
  destruct (bot_handlers._update_user_stats _ _ _ _) as [should stats].
  destruct (NewsBot._update_news _ _ _ _ _) as [[news_list nd] log].
  simpl in Hstored.
  destruct news_list as [|x l].
  - simpl. split; [done|]. intros m. rewrite !elem_of_cons.
    intros [->|[->|?%elem_of_nil]]; tauto.
  - destruct should; cbn [fst snd bot_handlers.core news_file];
      (split; [done|]); intros m;
      rewrite !elem_of_app, !elem_of_cons;
      intros [[->|?%elem_of_nil]|[?|H]]; try tauto.
    + destruct H as [->|[->|?%elem_of_nil]]; tauto.
    + destruct H as [->|?%elem_of_nil]; tauto.
Qed.

(** X5: every entry [/news] shows carries a number from 1 to 10 and a
    button with the data [save_<number>]; right after, the stored batch has
    that entry at that number, so that [/save <number>] of any user
    answers "saved" for that entry or "already saved", and the user's
    favorites then hold its title. *)
Theorem news_entries_resolve env user_id st i entry data :
  bot_handlers.NewsEntry i entry data
    ∈ (bot_handlers.news_command env user_id st).1 ->
  let st' := (bot_handlers.news_command env user_id st).2 in
  (1 <= i <= 10)%nat
  ∧ data = "save_" +:+ pretty i
  ∧ default [] (news (news_file (bot_handlers.core st'))) !! (i - 1)%nat
    = Some entry
  ∧ ∀ other,
      let c := bot.save_command other (Z.of_nat i) (bot_handlers.core st') in
      (c.1 = bot.Saved (slice_to 50 (title entry)) ∨ c.1 = bot.AlreadySaved)
      ∧ title entry ∈ title <$> bot.favorites_command other c.2.
Proof.
  intros Hin. cbv zeta.
  destruct (news_command_entries env user_id st) as [Hstored Hmsgs].
  apply Hmsgs in Hin as [?|[?|[?|[?|Hin]]]]; try done.
  unfold bot_handlers.news_entries in Hin.
  apply elem_of_lookup_imap in Hin as (k & x & [= -> -> ->] & Hk).
  rewrite lookup_take in Hk. case_decide as Hlt; [|done].
  rewrite <- Hstored in Hk.
  set (st' := (bot_handlers.news_command env user_id st).2) in *.
  assert (default [] (news (news_file (bot_handlers.core st')))
            !! Z.to_nat (Z.of_nat (S k) - 1) = Some x) as Hk'.
  { by replace (Z.to_nat (Z.of_nat (S k) - 1)) with k by lia. }
  split_and!; [lia|lia|done| |].
  { by replace (S k - 1)%nat with k by lia. }
  intros other.
  pose proof (lookup_lt_Some _ _ _ Hk) as Hlen.
  unfold bot.save_command, bot.favorites_command.
  rewrite (bool_decide_eq_false_2 (Z.of_nat (S k) < 1)) by lia.
  rewrite (bool_decide_eq_false_2 (Z.of_nat (S k) > _)) by lia.
  simpl orb. cbv iota. rewrite Hk'.
  destruct (any_title _ _) eqn:Hany; simpl.
  - split; [by right|]. by apply any_title_true.
  - split; [by left|]. rewrite lookup_insert_eq. simpl.
    rewrite fmap_app, elem_of_app. right. simpl.
    by apply list_elem_of_singleton.
Qed.

Lemma news_entries_resolve_witness :
  let env := {| bot_handlers.news_api_key := None;
                bot_handlers.provider := always_failing;
                bot_handlers.now := 0 |} in
  let entry := hd stale_item (tail (bot._get_test_news 0)) in
  let st' := (bot_handlers.news_command env 7 bot_handlers.initial).2 in
  (1 <= 2 <= 10)%nat
  ∧ "save_2" = "save_" +:+ pretty 2%nat
  ∧ default [] (news (news_file (bot_handlers.core st'))) !! (2 - 1)%nat
    = Some entry
  ∧ ∀ other,
      let c := bot.save_command other (Z.of_nat 2) (bot_handlers.core st') in
      (c.1 = bot.Saved (slice_to 50 (title entry)) ∨ c.1 = bot.AlreadySaved)
      ∧ title entry ∈ title <$> bot.favorites_command other c.2.
Proof.
  apply (news_entries_resolve
           {| bot_handlers.news_api_key := None;
              bot_handlers.provider := always_failing;
              bot_handlers.now := 0 |} 7 bot_handlers.initial 2
           (hd stale_item (tail (bot._get_test_news 0))) "save_2").
  vm_compute. do 2 apply list_elem_of_further. apply list_elem_of_here.
Defined.

(** ** [bot.py]: what any sequence of commands keeps *)

Lemma favorites_step_distinct favs favs' :
  distinct_titles favs -> favorites_step favs favs' -> distinct_titles favs'.
Proof.
  intros Hd [|u entry Hany]; [done|].
  intros v saved. destruct (decide (u = v)) as [->|Hne].
  - rewrite lookup_insert_eq. intros [= <-].
    rewrite fmap_app. apply NoDup_app. split_and!.
    + destruct (favs !! v) as [l|] eqn:Hl; simpl; [by eapply Hd|constructor].
    + intros t Ht Hin. apply list_elem_of_singleton in Hin. subst t.
      by apply any_title_false in Hany.
    + apply NoDup_singleton.
  - rewrite lookup_insert_ne by done. apply Hd.
Qed.

Lemma favorites_step_prefix favs favs' user_id :
  favorites_step favs favs' ->
  default [] (favs !! user_id) `prefix_of` default [] (favs' !! user_id).
Proof.
  intros [|u entry Hany]; [done|].
  destruct (decide (u = user_id)) as [->|Hne].
  - rewrite lookup_insert_eq. simpl. by apply prefix_app_r.
  - by rewrite lookup_insert_ne.
Qed.

Lemma save_command_step user_id news_number st :
  favorites_step (favorites (users_file st))
    (favorites (users_file (bot.save_command user_id news_number st).2)).
Proof.
  unfold bot.save_command.
  destruct (_ || _); [constructor|].
  destruct (_ !! Z.to_nat (news_number - 1)) as [entry|]; [|constructor].
  destruct (any_title _ _) eqn:Hany; [constructor|]. simpl.
  by constructor.
Qed.

Lemma button_callback_step int user_id data st :
  favorites_step (favorites (users_file (bot_handlers.core st)))
    (favorites (users_file (bot_handlers.core
       (bot_handlers.button_callback int user_id data st).2)))
  ∧ bot_handlers.stats_file (bot_handlers.button_callback int user_id data st).2
    = bot_handlers.stats_file st.
Proof.
  unfold bot_handlers.button_callback.
  destruct (String.prefix _ _); [|split; [constructor|done]].
  destruct (_ ≫= int) as [n|]; [|split; [constructor|done]].
  do 2 (case_bool_decide; [split; [constructor|done]|]).
  case_bool_decide; [|split; [constructor|done]].
  destruct (py_index _ _) as [entry|]; [|split; [constructor|done]].
  destruct (any_title _ _) eqn:Hany; [split; [constructor|done]|].
  simpl. split; [by constructor|done].
Qed.

Lemma handle_step int env user_id cmd st :
  favorites_step (favorites (users_file (bot_handlers.core st)))
    (favorites (users_file (bot_handlers.core
       (bot_handlers.handle int env user_id cmd st).2))).
Proof.
  destruct cmd as [first_name| |n| |data]; simpl.
  - unfold bot_handlers.start_command.
    destruct (bot_handlers._update_user_stats _ _ _ _) as [[] stats];
      constructor.
  - unfold bot_handlers.news_command.
    destruct (bot_handlers._update_user_stats _ _ _ _) as [should stats].
    destruct (bot._update_news _ _ _ _) as [[[|x l] nd] log];
      [constructor|]. destruct should; constructor.
  - pose proof (save_command_step user_id n (bot_handlers.core st)) as H.
    by destruct (bot.save_command user_id n (bot_handlers.core st)).
  - unfold bot.daily_command. case_bool_decide; constructor.
  - apply button_callback_step.
Qed.

(** X8: whatever commands the users of [bot.py] send, nobody's favorites
    come to hold two entries with one title, and nobody's favorites lose
    or reorder an entry: the former list stays a prefix of the later. *)
Theorem favorites_kept int steps st :
  distinct_titles (favorites (users_file (bot_handlers.core st))) ->
  let st' := (bot_handlers.run int steps st).2 in
  distinct_titles (favorites (users_file (bot_handlers.core st')))
  ∧ ∀ user_id,
      bot.favorites_command user_id (bot_handlers.core st)
        `prefix_of` bot.favorites_command user_id (bot_handlers.core st').
Proof.
  cbv zeta. revert st.
  induction steps as [|[[env u] cmd] steps IH]; intros st Hd; simpl.
  - done.
  - pose proof (handle_step int env u cmd st) as Hstep.
    destruct (bot_handlers.handle int env u cmd st) as [msgs st1].
    simpl in Hstep.
    specialize (IH st1 (favorites_step_distinct _ _ Hd Hstep)) as [IH1 IH2].
    destruct (bot_handlers.run int steps st1) as [out st2]. simpl in *.
    split; [done|]. intros user_id. etrans; [|apply IH2].
    by apply favorites_step_prefix.
Qed.

Lemma favorites_kept_witness :
  let env := {| bot_handlers.news_api_key := None;
                bot_handlers.provider := always_failing;
                bot_handlers.now := 0 |} in
  let steps := [ (env, 7, bot_handlers.News); (env, 7, bot_handlers.Save 2);
                 (env, 7, bot_handlers.Button "save_2");
                 (env, 7, bot_handlers.Save 2); (env, 8, bot_handlers.Save 1) ] in
  let st' := (bot_handlers.run (decimal None) steps bot_handlers.initial).2 in
  distinct_titles (favorites (users_file (bot_handlers.core st')))
  ∧ ∀ user_id,
      bot.favorites_command user_id (bot_handlers.core bot_handlers.initial)
        `prefix_of` bot.favorites_command user_id (bot_handlers.core st').
Proof.
  apply (favorites_kept (decimal None)
           [ ({| bot_handlers.news_api_key := None;
                 bot_handlers.provider := always_failing;
                 bot_handlers.now := 0 |}, 7, bot_handlers.News);
             ({| bot_handlers.news_api_key := None;
                 bot_handlers.provider := always_failing;
                 bot_handlers.now := 0 |}, 7, bot_handlers.Save 2);
             ({| bot_handlers.news_api_key := None;
                 bot_handlers.provider := always_failing;
                 bot_handlers.now := 0 |}, 7, bot_handlers.Button "save_2");
             ({| bot_handlers.news_api_key := None;
                 bot_handlers.provider := always_failing;
                 bot_handlers.now := 0 |}, 7, bot_handlers.Save 2);
             ({| bot_handlers.news_api_key := None;
                 bot_handlers.provider := always_failing;
                 bot_handlers.now := 0 |}, 8, bot_handlers.Save 1) ]
           bot_handlers.initial).
  intros user_id saved H. simpl in H. by rewrite lookup_empty in H.
Defined.

Lemma sum_counts_insert (m : gmap Z bot_handlers.UserStats) u e :
  (sum_counts (<[u := e]> m)
   + bot_handlers.commands_count
       (default bot_handlers.new_user_stats (m !! u))
   = sum_counts m + bot_handlers.commands_count e)%nat.
Proof.
  unfold sum_counts.
  destruct (m !! u) as [old|] eqn:Hu; simpl.
  - rewrite <- (insert_delete_eq m u e).
    rewrite map_fold_insert_L; [|intros; lia|by apply lookup_delete_eq].
    rewrite (map_fold_delete_L _ _ u old m); [lia|intros; lia|done].
  - rewrite map_fold_insert_L; [lia|intros; lia|done].
Qed.

Lemma sum_used_insert (m : gmap string nat) c n :
  (sum_used (<[c := n]> m) + default 0 (m !! c) = sum_used m + n)%nat.
Proof.
  unfold sum_used.
  destruct (m !! c) as [old|] eqn:Hc; simpl.
  - rewrite <- (insert_delete_eq m c n).
    rewrite map_fold_insert_L;
      [|intros; lia|by apply lookup_delete_eq].
    rewrite (map_fold_delete_L _ _ c old m); [lia|intros; lia|done].
  - rewrite map_fold_insert_L; [lia|intros; lia|done].
Qed.


Lemma update_user_stats_consistent now u c sd :
  stats_consistent sd ->
  stats_consistent (bot_handlers._update_user_stats now u c sd).2.
Proof.
  intros [Htotal Hused]. unfold bot_handlers._update_user_stats. simpl.
  set (old := default bot_handlers.new_user_stats
                (bot_handlers.user_stats sd !! u)).
  assert (bot_handlers.commands_count old
          = sum_used (bot_handlers.commands_used old)) as Hold.
  { subst old. destruct (bot_handlers.user_stats sd !! u) as [e|] eqn:Hu.
    - by apply (Hused u).
    - done. }
  split; simpl.
  - pose proof (sum_counts_insert (bot_handlers.user_stats sd) u
      {| bot_handlers.commands_count := S (bot_handlers.commands_count old);
         bot_handlers.last_command := Some c;
         bot_handlers.feedback_sent := bot_handlers.feedback_sent old;
         bot_handlers.commands_used :=
           <[c := S (default 0%nat (bot_handlers.commands_used old !! c))]>
             (bot_handlers.commands_used old) |}) as H.
    simpl in H. fold old in H. lia.
  - intros v e. destruct (decide (u = v)) as [->|Hne].
    + rewrite lookup_insert_eq. intros [= <-]. simpl.
      pose proof (sum_used_insert (bot_handlers.commands_used old) c
        (S (default 0%nat (bot_handlers.commands_used old !! c)))) as H.
      lia.
    + rewrite lookup_insert_ne by done. apply Hused.
Qed.

Lemma send_feedback_form_consistent u sd :
  stats_consistent sd ->
  stats_consistent (bot_handlers._send_feedback_form u sd).
Proof.
  intros [Htotal Hused]. unfold bot_handlers._send_feedback_form.
  split; simpl.
  - rewrite Htotal.
    destruct (bot_handlers.user_stats sd !! u) as [e|] eqn:Hu.
    + set (e' := {| bot_handlers.commands_count := bot_handlers.commands_count e;
                    bot_handlers.last_command := bot_handlers.last_command e;
                    bot_handlers.feedback_sent := true;
                    bot_handlers.commands_used := bot_handlers.commands_used e |}).
      assert (alter _ u (bot_handlers.user_stats sd)
              = <[u := e']> (bot_handlers.user_stats sd)) as ->.
      { apply map_eq. intros v. rewrite lookup_alter.
        destruct (decide (u = v)) as [->|Hne].
        - by rewrite lookup_insert_eq, Hu.
        - by rewrite lookup_insert_ne. }
      pose proof (sum_counts_insert (bot_handlers.user_stats sd) u e') as H.
      rewrite Hu in H. simpl in H. lia.
    + f_equal. symmetry. apply map_eq. intros v. rewrite lookup_alter.
      destruct (decide (u = v)) as [->|Hne]; [by rewrite Hu|done].
  - intros v e. rewrite lookup_alter.
    destruct (decide (u = v)) as [->|Hne]; [|apply Hused].
    destruct (bot_handlers.user_stats sd !! v) as [e0|] eqn:Hv; [|done].
    simpl. intros [= <-]. simpl. by apply (Hused v).
Qed.

Lemma handle_stats int env user_id cmd st :
  bot_handlers.stats_file (bot_handlers.handle int env user_id cmd st).2
  = match cmd with
    | bot_handlers.Start _ =>
        let r := bot_handlers._update_user_stats (bot_handlers.now env)
                   user_id "start" (bot_handlers.stats_file st) in
        if r.1 then bot_handlers._send_feedback_form user_id r.2 else r.2
    | bot_handlers.News =>
        let r := bot_handlers._update_user_stats (bot_handlers.now env)
                   user_id "news" (bot_handlers.stats_file st) in
        if r.1 && negb (bool_decide
                          ((bot._update_news (bot_handlers.news_api_key env)
                              (bot_handlers.provider env)
                              (bot_handlers.now env)
                              (news_file (bot_handlers.core st))).1.1 = []))
        then bot_handlers._send_feedback_form user_id r.2 else r.2
    | _ => bot_handlers.stats_file st
    end.
Proof.
  destruct cmd as [first_name| |n| |data]; cbv zeta;
    unfold bot_handlers.handle.
  - unfold bot_handlers.start_command.
    by destruct (bot_handlers._update_user_stats _ _ _ _) as [[] stats].
  - unfold bot_handlers.news_command.
    destruct (bot_handlers._update_user_stats _ _ _ _) as [should stats].
    destruct (bot._update_news _ _ _ _) as [[[|x l] nd] log];
      cbn [fst snd].
    + by rewrite andb_false_r.
    + rewrite andb_true_r. by destruct should.
  - by destruct (bot.save_command user_id n (bot_handlers.core st)).
  - by destruct (bot.daily_command user_id (bot_handlers.core st)).
  - apply button_callback_step.
Qed.

(** X9: whatever commands are sent, the statistics file stays consistent:
    the total is the sum of the users' counts, and each user's count is the
    sum of that user's counts per command. *)
Theorem stats_totals_kept int steps st :
  stats_consistent (bot_handlers.stats_file st) ->
  stats_consistent
    (bot_handlers.stats_file (bot_handlers.run int steps st).2).
Proof.
  revert st. induction steps as [|[[env u] cmd] steps IH]; intros st Hc; simpl.
  - done.
  - pose proof (handle_stats int env u cmd st) as Hs.
    destruct (bot_handlers.handle int env u cmd st) as [msgs st1].
    cbn [snd] in Hs.
    assert (stats_consistent (bot_handlers.stats_file st1)) as Hc1.
    { rewrite Hs. destruct cmd; try done; cbv zeta.
      - destruct (fst _); [apply send_feedback_form_consistent|];
          by apply update_user_stats_consistent.
      - destruct (fst _ && _); [apply send_feedback_form_consistent|];
          by apply update_user_stats_consistent. }
    specialize (IH st1 Hc1).
    by destruct (bot_handlers.run int steps st1).
Qed.

Lemma stats_totals_kept_witness :
  let env := {| bot_handlers.news_api_key := None;
                bot_handlers.provider := always_failing;
                bot_handlers.now := 0 |} in
  stats_consistent
    (bot_handlers.stats_file
       (bot_handlers.run (decimal None)
          [ (env, 7, bot_handlers.News); (env, 8, bot_handlers.Start "Ann");
            (env, 7, bot_handlers.Start "Bob"); (env, 7, bot_handlers.Save 1) ]
          bot_handlers.initial).2).
Proof.
  apply (stats_totals_kept (decimal None)
           [ ({| bot_handlers.news_api_key := None;
                 bot_handlers.provider := always_failing;
                 bot_handlers.now := 0 |}, 7, bot_handlers.News);
             ({| bot_handlers.news_api_key := None;
                 bot_handlers.provider := always_failing;
                 bot_handlers.now := 0 |}, 8, bot_handlers.Start "Ann");
             ({| bot_handlers.news_api_key := None;
                 bot_handlers.provider := always_failing;
                 bot_handlers.now := 0 |}, 7, bot_handlers.Start "Bob");
             ({| bot_handlers.news_api_key := None;
                 bot_handlers.provider := always_failing;
                 bot_handlers.now := 0 |}, 7, bot_handlers.Save 1) ]
           bot_handlers.initial).
  split; [reflexivity|]. intros u e H. simpl in H.
  by rewrite lookup_empty in H.
Defined.

Lemma form_marked_update now v c sd u :
  form_marked u (bot_handlers._update_user_stats now v c sd).2
  = form_marked u sd.
Proof.
  unfold form_marked, bot_handlers._update_user_stats. simpl.
  destruct (decide (v = u)) as [->|Hne].
  - rewrite lookup_insert_eq. simpl.
    by destruct (bot_handlers.user_stats sd !! u).
  - by rewrite lookup_insert_ne.
Qed.

Lemma count_of_update now v c sd u :
  count_of u (bot_handlers._update_user_stats now v c sd).2
  = if decide (v = u) then S (count_of u sd) else count_of u sd.
Proof.
  unfold count_of, bot_handlers._update_user_stats. simpl.
  destruct (decide (v = u)) as [->|Hne].
  - rewrite lookup_insert_eq. simpl.
    by destruct (bot_handlers.user_stats sd !! u).
  - by rewrite lookup_insert_ne.
Qed.

Lemma feedback_due now v c sd :
  (bot_handlers._update_user_stats now v c sd).1
  = bool_decide (10 <= S (count_of v sd))%nat && negb (form_marked v sd).
Proof.
  unfold count_of, form_marked, bot_handlers._update_user_stats. simpl.
  by destruct (bot_handlers.user_stats sd !! v).
Qed.

Lemma form_marked_send now v c sd u :
  form_marked u
    (bot_handlers._send_feedback_form v
       (bot_handlers._update_user_stats now v c sd).2)
  = if decide (v = u) then true else form_marked u sd.
Proof.
  unfold form_marked, bot_handlers._send_feedback_form,
    bot_handlers._update_user_stats. simpl.
  rewrite lookup_alter. destruct (decide (v = u)) as [->|Hne].
  - by rewrite lookup_insert_eq.
  - by rewrite lookup_insert_ne.
Qed.

Lemma count_of_send v sd u :
  count_of u (bot_handlers._send_feedback_form v sd) = count_of u sd.
Proof.
  unfold count_of, bot_handlers._send_feedback_form. simpl.
  rewrite lookup_alter. destruct (decide (v = u)) as [->|Hne]; [|done].
  by destruct (bot_handlers.user_stats sd !! u).
Qed.

Lemma forms_app u out1 out2 :
  forms u (out1 ++ out2) = (forms u out1 + forms u out2)%nat.
Proof. unfold forms. by rewrite List.filter_app, length_app. Qed.

Lemma forms_none u v (msgs : list bot_handlers.Message) :
  (∀ m, m ∈ msgs -> m ≠ bot_handlers.FeedbackForm) ->
  forms u (map (fun m => (v, m)) msgs) = 0%nat.
Proof.
  induction msgs as [|m msgs IH]; intros Hm; [done|].
  unfold forms in *. simpl.
  assert (m ≠ bot_handlers.FeedbackForm) as Hne by (apply Hm; left).
  destruct m; try done; apply IH; intros m' Hin; apply Hm; by right.
Qed.

Lemma forms_one u v :
  forms u [(v, bot_handlers.FeedbackForm)]
  = if decide (v = u) then 1%nat else 0%nat.
Proof.
  unfold forms. simpl. destruct (decide (v = u)) as [->|Hne].
  - by rewrite bool_decide_eq_true_2.
  - by rewrite bool_decide_eq_false_2.
Qed.

(** Whether a command makes its handler send the feedback form. *)
Lemma handle_forms int env v cmd st u :
  let due :=
    match cmd with
    | bot_handlers.Start _ =>
        (bot_handlers._update_user_stats (bot_handlers.now env) v "start"
           (bot_handlers.stats_file st)).1
    | bot_handlers.News =>
        (bot_handlers._update_user_stats (bot_handlers.now env) v "news"
           (bot_handlers.stats_file st)).1
        && negb (bool_decide
                   ((bot._update_news (bot_handlers.news_api_key env)
                       (bot_handlers.provider env) (bot_handlers.now env)
                       (news_file (bot_handlers.core st))).1.1 = []))
    | _ => false
    end in
  forms u (map (fun m => (v, m)) (bot_handlers.handle int env v cmd st).1)
  = if due && bool_decide (v = u) then 1%nat else 0%nat.
Proof.
  cbv zeta.
  assert (∀ b : bool, (if b && bool_decide (v = u) then 1%nat else 0%nat)
                      = if b then if decide (v = u) then 1%nat else 0%nat
                        else 0%nat) as Hif.
  { intros []; [|done]. simpl. by destruct (decide (v = u));
      [rewrite bool_decide_eq_true_2|rewrite bool_decide_eq_false_2]. }
  rewrite Hif.
  destruct cmd as [first_name| |n| |data]; unfold bot_handlers.handle.
  - unfold bot_handlers.start_command.
    destruct (bot_handlers._update_user_stats _ _ _ _) as [[] stats];
      cbn [fst snd].
    + change [bot_handlers.Welcome first_name; bot_handlers.FeedbackForm]
        with ([bot_handlers.Welcome first_name] ++ [bot_handlers.FeedbackForm]).
      rewrite map_app, forms_app, forms_none.
      * apply forms_one.
      * by intros m ->%list_elem_of_singleton.
    + apply forms_none. by intros m ->%list_elem_of_singleton.
  - unfold bot_handlers.news_command.
    destruct (bot_handlers._update_user_stats _ _ _ _) as [should stats].
    destruct (bot._update_news _ _ _ _) as [[[|x l] nd] log];
      cbn [fst snd].
    + rewrite andb_false_r. apply forms_none.
      intros m. rewrite !elem_of_cons.
      by intros [->|[->|?%elem_of_nil]].
    + rewrite andb_true_r.
      assert (∀ m, m ∈ [bot_handlers.Loading]
                       ++ bot_handlers.news_entries (x :: l)
                       ++ [bot_handlers.NewsEnd] ->
                m ≠ bot_handlers.FeedbackForm) as Hnone.
      { intros m. rewrite !elem_of_app, !list_elem_of_singleton.
        intros [->|[Hin| ->]]; [done| |done].
        unfold bot_handlers.news_entries in Hin.
        by apply elem_of_lookup_imap in Hin as (k & y & -> & _). }
      destruct should; cbn [fst snd].
      * change ([bot_handlers.Loading] ++ bot_handlers.news_entries (x :: l)
                ++ [bot_handlers.NewsEnd; bot_handlers.FeedbackForm])
          with ([bot_handlers.Loading] ++ bot_handlers.news_entries (x :: l)
                ++ [bot_handlers.NewsEnd] ++ [bot_handlers.FeedbackForm]).
        rewrite !app_assoc, map_app, forms_app, forms_none.
        -- apply forms_one.
        -- intros m Hm. apply Hnone. by rewrite <- !app_assoc in Hm.
      * by apply forms_none.
  - destruct (bot.save_command v n (bot_handlers.core st)) as [r core'].
    apply forms_none. by intros m ->%list_elem_of_singleton.
  - destruct (bot.daily_command v (bot_handlers.core st)) as [r core'].
    apply forms_none. by intros m ->%list_elem_of_singleton.
  - apply forms_none. unfold bot_handlers.button_callback.
    intros m.
    repeat first
      [ progress cbn [fst snd]
      | match goal with
        | |- context [if ?b then _ else _] => destruct b
        | |- context [match ?o with Some _ => _ | None => _ end] => destruct o
        end ];
      first [by intros ->%list_elem_of_singleton | by intros ?%elem_of_nil].
Qed.

Lemma handle_count int env v cmd st u :
  count_of u (bot_handlers.stats_file (bot_handlers.handle int env v cmd st).2)
  = (count_of u (bot_handlers.stats_file st)
     + counted u [(env, v, cmd)])%nat.
Proof.
  rewrite handle_stats. unfold counted.
  destruct cmd; cbv zeta; simpl List.filter.
  - destruct (fst _); rewrite ?count_of_send, count_of_update;
      destruct (decide (v = u)) as [->|Hne];
      [rewrite bool_decide_eq_true_2 by done
      |rewrite bool_decide_eq_false_2 by done
      |rewrite bool_decide_eq_true_2 by done
      |rewrite bool_decide_eq_false_2 by done]; simpl; lia.
  - destruct (fst _ && _); rewrite ?count_of_send, count_of_update;
      destruct (decide (v = u)) as [->|Hne];
      [rewrite bool_decide_eq_true_2 by done
      |rewrite bool_decide_eq_false_2 by done
      |rewrite bool_decide_eq_true_2 by done
      |rewrite bool_decide_eq_false_2 by done]; simpl; lia.
  - simpl. lia.
  - simpl. lia.
  - simpl. lia.
Qed.

Lemma run_count int steps st u :
  count_of u (bot_handlers.stats_file (bot_handlers.run int steps st).2)
  = (count_of u (bot_handlers.stats_file st) + counted u steps)%nat.
Proof.
  revert st. induction steps as [|[[env v] cmd] steps IH]; intros st.
  - unfold counted. simpl. lia.
  - simpl bot_handlers.run.
    pose proof (handle_count int env v cmd st u) as Hstep.
    destruct (bot_handlers.handle int env v cmd st) as [msgs st1].
    specialize (IH st1).
    destruct (bot_handlers.run int steps st1) as [out st2].
    cbn [fst snd] in *. rewrite IH, Hstep.
    unfold counted.
    change ((env, v, cmd) :: steps) with ([(env, v, cmd)] ++ steps).
    rewrite List.filter_app, length_app. lia.
Qed.

(** X11: a user's command count in the statistics grows by exactly the
    number of [/start] and [/news] commands the user sends; [/save],
    [/daily] and the buttons do not count, and no command of another user
    does. *)
Theorem commands_counted int steps st u :
  count_of u (bot_handlers.stats_file (bot_handlers.run int steps st).2)
  = (count_of u (bot_handlers.stats_file st) + counted u steps)%nat
  ∧ ∀ env v cmd,
      counted u [(env, v, cmd)]
      = match cmd with
        | bot_handlers.Start _ | bot_handlers.News =>
            if decide (v = u) then 1%nat else 0%nat
        | _ => 0%nat
        end.
Proof.
  split; [apply run_count|].
  intros env v cmd. unfold counted.
  destruct cmd; simpl; try done; by case_bool_decide; case_decide.
Qed.

Lemma handle_feedback_step int env v cmd st u :
  let k := forms u (map (fun m => (v, m))
                      (bot_handlers.handle int env v cmd st).1) in
  let sd := bot_handlers.stats_file st in
  let sd1 := bot_handlers.stats_file (bot_handlers.handle int env v cmd st).2 in
  (k = 0%nat ∧ form_marked u sd1 = form_marked u sd)
  ∨ (k = 1%nat ∧ form_marked u sd = false ∧ form_marked u sd1 = true
     ∧ (10 <= count_of u sd1)%nat).
Proof.
  cbv zeta. rewrite handle_forms, handle_stats.
  destruct cmd as [first_name| |n| |data]; cbv zeta;
    try (left; by split).
  - rewrite feedback_due.
    destruct (decide (v = u)) as [->|Hne].
    + rewrite (bool_decide_eq_true_2 (u = u)) by done. rewrite andb_true_r.
      destruct (bool_decide (10 <= S _)%nat && _) eqn:Hdue.
      * right. apply andb_true_iff in Hdue as [H10 Hm].
        apply bool_decide_eq_true in H10. apply negb_true_iff in Hm.
        rewrite form_marked_send, count_of_send, count_of_update.
        rewrite !decide_True by done. done.
      * left. by rewrite form_marked_update.
    + rewrite (bool_decide_eq_false_2 (v = u)) by done. rewrite andb_false_r.
      left. split; [done|].
      destruct (bool_decide _ && _);
        [rewrite form_marked_send; by rewrite decide_False
        |by rewrite form_marked_update].
  - rewrite feedback_due.
    set (nonempty := negb (bool_decide _)).
    destruct (decide (v = u)) as [->|Hne].
    + rewrite (bool_decide_eq_true_2 (u = u)) by done. rewrite andb_true_r.
      destruct (bool_decide (10 <= S _)%nat && _ && nonempty) eqn:Hdue.
      * right. apply andb_true_iff in Hdue as [Hdue _].
        apply andb_true_iff in Hdue as [H10 Hm].
        apply bool_decide_eq_true in H10. apply negb_true_iff in Hm.
        rewrite form_marked_send, count_of_send, count_of_update.
        rewrite !decide_True by done. done.
      * left. by rewrite form_marked_update.
    + rewrite (bool_decide_eq_false_2 (v = u)) by done. rewrite andb_false_r.
      left. split; [done|].
      destruct (bool_decide _ && _ && nonempty);
        [rewrite form_marked_send; by rewrite decide_False
        |by rewrite form_marked_update].
Qed.

(** X10: in any sequence of commands a user is sent the feedback form at
    most once; it is sent only to a user not yet marked as having received
    it, who is marked from then on and has by then sent ten counted
    commands or more; a user already marked is never sent it. *)
Theorem feedback_form_once int steps st u :
  let r := bot_handlers.run int steps st in
  (forms u r.1 <= 1)%nat
  ∧ (forms u r.1 = 1%nat ->
       form_marked u (bot_handlers.stats_file st) = false
       ∧ form_marked u (bot_handlers.stats_file r.2) = true
       ∧ (10 <= count_of u (bot_handlers.stats_file r.2))%nat)
  ∧ (form_marked u (bot_handlers.stats_file st) = true ->
       forms u r.1 = 0%nat
       ∧ form_marked u (bot_handlers.stats_file r.2) = true).
Proof.
  cbv zeta. revert st.
  induction steps as [|[[env v] cmd] steps IH]; intros st.
  - unfold forms. simpl. split_and!; [lia|done|done].
  - simpl bot_handlers.run.
    pose proof (handle_feedback_step int env v cmd st u) as Hstep.
    destruct (bot_handlers.handle int env v cmd st) as [msgs st1].
    pose proof (run_count int steps st1 u) as Hcount.
    specialize (IH st1) as (IH1 & IH2 & IH3).
    destruct (bot_handlers.run int steps st1) as [out st2].
    cbv zeta in Hstep. cbn [fst snd] in *. rewrite forms_app.
    destruct Hstep as [[-> Hm]|(-> & Hm0 & Hm1 & H10)].
    + rewrite Hm in *. simpl. split_and!; [done|done|done].
    + destruct (IH3 Hm1) as [-> Hm2]. simpl.
      split_and!; [lia| |congruence].
      intros _. split_and!; [done|done|lia].
Qed.

(** ** Per-user list views and favorites ([simple_sync_webhook_bot.py]) *)

Import simple_sync_webhook_bot.

Lemma filter_saved_elem news (news_list : list Item) user_id
    (favs : gmap Z (list Item)) :
  news ∈ _filter_saved_news news_list user_id favs ->
  news ∈ news_list
  ∧ any_title (title news) (default [] (favs !! user_id)) = false.
Proof.
  unfold _filter_saved_news. destruct (favs !! user_id) as [l|]; simpl.
  - rewrite list_elem_of_filter, elem_of_list_to_set.
    intros [Hn Hin]. split; [done|]. by apply any_title_false.
  - done.
Qed.

Lemma filter_saved_sublist (news_list : list Item) user_id
    (favs : gmap Z (list Item)) :
  _filter_saved_news news_list user_id favs `sublist_of` news_list.
Proof.
  unfold _filter_saved_news. destruct (favs !! user_id); [|done].
  apply sublist_filter.
Qed.

(** What [handle_news_command] does when it shows a list. *)
Lemma handle_news_command_shown env chat_id st shown st' :
  handle_news_command env chat_id st = (NewsShown shown, st') ->
  shown = take 5 (_filter_saved_news (get_news env) chat_id (favorites_file st))
  ∧ last_news_cache st' = <[chat_id := shown]> (last_news_cache st)
  ∧ favorites_file st' = favorites_file st
  ∧ subscriptions_file st' = subscriptions_file st.
Proof.
  unfold handle_news_command.
  destruct (get_news env) as [|x l]; [done|].
  destruct (_filter_saved_news _ _ _) as [|y l']; [done|].
  intros [= <- <-]. done.
Qed.

(** C10: the list [handle_news_command] shows to a user is the list it
    records for that user; no entry of it has the title of an entry of the
    user's favorites as they are at the request; its entries are entries of
    the fetched batch, in the order of the batch; and it has at most five
    entries. *)
Theorem news_shown_excludes_favorites env chat_id st shown st' :
  handle_news_command env chat_id st = (NewsShown shown, st') ->
  last_news_cache st' !! chat_id = Some shown
  ∧ (∀ news saved,
       news ∈ shown -> saved ∈ handle_favorites_command chat_id st ->
       title saved ≠ title news)
  ∧ shown `sublist_of` get_news env
  ∧ (length shown <= 5)%nat.
Proof.
  intros H. apply handle_news_command_shown in H as (-> & Hc & _ & _).
  split_and!.
  - rewrite Hc. apply lookup_insert_eq.
  - intros news saved Hin Hsaved Heq.
    apply elem_of_take in Hin as (i & Hi & _).
    apply list_elem_of_lookup_2, filter_saved_elem in Hi as [_ Hany].
    apply any_title_false in Hany. apply Hany. rewrite <- Heq.
    by apply list_elem_of_fmap_2.
  - etrans; [apply sublist_take|apply filter_saved_sublist].
  - rewrite length_take. lia.
Qed.

Lemma news_shown_excludes_favorites_witness :
  let shown := drop 1 (get_test_news 5) in
  let st' := (handle_news_command (offline 5) 7 one_favorite).2 in
  last_news_cache st' !! 7 = Some shown
  ∧ (∀ news saved,
       news ∈ shown -> saved ∈ handle_favorites_command 7 one_favorite ->
       title saved ≠ title news)
  ∧ shown `sublist_of` get_news (offline 5)
  ∧ (length shown <= 5)%nat.
Proof.
  apply (news_shown_excludes_favorites (offline 5) 7 one_favorite
           (drop 1 (get_test_news 5))
           (handle_news_command (offline 5) 7 one_favorite).2).
  vm_compute. reflexivity.
Defined.

Lemma resolve_Some (news_list : list Item) news_number news :
  resolve news_list news_number = Some news ->
  1 <= news_number <= Z.of_nat (length news_list)
  ∧ news_list !! Z.to_nat (news_number - 1) = Some news.
Proof.
  unfold resolve. repeat case_bool_decide; simpl; try done.
  intros. split; [lia|done].
Qed.

Lemma resolve_in_range (news_list : list Item) news_number :
  1 <= news_number <= Z.of_nat (length news_list) ->
  resolve news_list news_number = news_list !! Z.to_nat (news_number - 1).
Proof.
  intros Hr. unfold resolve.
  rewrite (bool_decide_eq_false_2 (news_list = [])).
  2:{ intros ->. simpl in Hr. lia. }
  rewrite (bool_decide_eq_false_2 (news_number < 1)) by lia.
  rewrite (bool_decide_eq_false_2 (news_number > _)) by lia.
  done.
Qed.

Lemma resolve_out_of_range (news_list : list Item) news_number :
  news_number < 1 ∨ news_number > Z.of_nat (length news_list) ->
  resolve news_list news_number = None.
Proof.
  intros Hr. unfold resolve. destruct Hr.
  - rewrite (bool_decide_eq_true_2 (news_number < 1)) by done.
    by rewrite orb_true_r.
  - rewrite (bool_decide_eq_true_2 (news_number > _)) by done.
    by rewrite orb_true_r.
Qed.

(** C4, as stated, fails: for a user without a recorded list, number 1 is
    resolved against a freshly fetched batch and its first entry is saved. *)
Lemma save_without_recorded_list :
  last_news_cache initial_state !! 7 = None
  ∧ (handle_save_command (offline 5) 7 1 initial_state).1 =
      Saved (set_saved_at 5 (hd stale_item (get_test_news 5)))
  ∧ (∀ k, (handle_save_command (offline 5) 7 1 initial_state).1
          ≠ InvalidNumber k).
Proof. split_and!; [done|by vm_compute|by vm_compute]. Qed.

(** C4 (amended): [handle_save_command] resolves the number against the
    list recorded for the user or, when none is recorded, against a freshly
    fetched batch (whose first five entries it then records); a number that
    is 0, negative or greater than the length of that list is answered with
    the "invalid number" message, and nothing is saved. *)
Theorem save_number_out_of_range env chat_id news_number st :
  let news_list :=
    match last_news_cache st !! chat_id with
    | Some recorded => recorded
    | None => get_news env
    end in
  news_number < 1 ∨ news_number > Z.of_nat (length news_list) ->
  (handle_save_command env chat_id news_number st).1
    = InvalidNumber (length news_list)
  ∧ favorites_file (handle_save_command env chat_id news_number st).2
    = favorites_file st.
Proof.
  intros news_list Hr. unfold handle_save_command, lookup_news_list.
  subst news_list.
  destruct (last_news_cache st !! chat_id) as [recorded|];
    by rewrite resolve_out_of_range.
Qed.

Lemma save_number_out_of_range_witness :
  (handle_save_command (offline 5) 7 3 initial_state).1 = InvalidNumber 2
  ∧ favorites_file (handle_save_command (offline 5) 7 3 initial_state).2
    = favorites_file initial_state.
Proof.
  apply (save_number_out_of_range (offline 5) 7 3 initial_state).
  right. vm_compute. reflexivity.
Defined.

Lemma any_title_no_match t (l : list Item) :
  any_title t l = false -> filter (fun news => title news = t) l = [].
Proof.
  intros Hany. apply any_title_false in Hany.
  induction l as [|x l IH]; [done|].
  rewrite fmap_cons, not_elem_of_cons in Hany. destruct Hany as [Hx Hl].
  rewrite filter_cons_False by congruence. by apply IH.
Qed.

(** A save of a number that resolves to an entry whose title is not among
    the user's favorites. *)
Lemma handle_save_command_saved env chat_id news_number st recorded news :
  last_news_cache st !! chat_id = Some recorded ->
  resolve recorded news_number = Some news ->
  any_title (title news) (handle_favorites_command chat_id st) = false ->
  handle_save_command env chat_id news_number st =
    (Saved (set_saved_at (now env) news),
     {| last_news_cache :=
          <[chat_id := <[Z.to_nat (news_number - 1) :=
                           set_saved_at (now env) news]> recorded]>
            (last_news_cache st);
        favorites_file :=
          <[chat_id := handle_favorites_command chat_id st
                       ++ [set_saved_at (now env) news]]> (favorites_file st);
        subscriptions_file := subscriptions_file st |}).
Proof.
  intros Hc Hres Hany. unfold handle_save_command, lookup_news_list.
  rewrite Hc, Hres. unfold handle_favorites_command in Hany. rewrite Hany.
  do 2 f_equal. f_equal.
  apply map_eq. intros i. rewrite lookup_alter.
  destruct (decide (chat_id = i)) as [->|Hne].
  - by rewrite lookup_insert_eq, Hc.
  - by rewrite lookup_insert_ne.
Qed.

(** A save of a number that resolves to an entry whose title is among the
    user's favorites. *)
Lemma handle_save_command_exists env chat_id news_number st recorded news :
  last_news_cache st !! chat_id = Some recorded ->
  resolve recorded news_number = Some news ->
  any_title (title news) (handle_favorites_command chat_id st) = true ->
  handle_save_command env chat_id news_number st =
    (AlreadySaved,
     {| last_news_cache := last_news_cache st;
        favorites_file := favorites_file st;
        subscriptions_file := subscriptions_file st |}).
Proof.
  intros Hc Hres Hany. unfold handle_save_command, lookup_news_list.
  rewrite Hc, Hres. unfold handle_favorites_command in Hany. by rewrite Hany.
Qed.

(** What an answer "saved" tells: the number is at least 1, no favorite of
    the user had the title, the entry is appended to the favorites, and the
    list recorded for the user afterwards is the list recorded before (or
    the first five entries of the batch just fetched) with the saved entry
    at that number, where the list reaches that far. *)
Lemma handle_save_command_Saved env chat_id news_number st saved :
  (handle_save_command env chat_id news_number st).1 = Saved saved ->
  let st1 := (handle_save_command env chat_id news_number st).2 in
  let listed := match last_news_cache st !! chat_id with
                | Some recorded => recorded
                | None => take 5 (get_news env)
                end in
  1 <= news_number
  ∧ any_title (title saved) (handle_favorites_command chat_id st) = false
  ∧ last_news_cache st1 !! chat_id
    = Some (<[Z.to_nat (news_number - 1) := saved]> listed)
  ∧ (is_Some (last_news_cache st !! chat_id) ∨ news_number <= 5 ->
     (Z.to_nat (news_number - 1) < length listed)%nat)
  ∧ favorites_file st1
    = <[chat_id := handle_favorites_command chat_id st ++ [saved]]>
        (favorites_file st)
  ∧ subscriptions_file st1 = subscriptions_file st.
Proof.
  cbv zeta. unfold handle_save_command, lookup_news_list,
    handle_favorites_command.
  destruct (last_news_cache st !! chat_id) as [recorded|] eqn:Hc.
  - destruct (resolve recorded news_number) as [news|] eqn:Hres; [|done].
    destruct (any_title (title news) _) eqn:Hany; [done|].
    cbn [fst snd]. intros [= <-].
    cbn [last_news_cache favorites_file subscriptions_file].
    apply resolve_Some in Hres as [Hn Hl]. apply lookup_lt_Some in Hl.
    split_and!; [lia|exact Hany| |done|done|done].
    by rewrite lookup_alter_eq, Hc.
  - destruct (get_news env) as [|x l] eqn:Hg.
    { rewrite resolve_out_of_range by (simpl; lia). done. }
    destruct (resolve (x :: l) news_number) as [news|] eqn:Hres; [|done].
    destruct (any_title (title news) _) eqn:Hany; [done|].
    cbn [fst snd]. intros [= <-].
    cbn [last_news_cache favorites_file subscriptions_file].
    apply resolve_Some in Hres as [Hn Hl]. apply lookup_lt_Some in Hl.
    split_and!; [lia|exact Hany| | |done|done].
    + by rewrite lookup_alter_eq, lookup_insert_eq.
    + intros [[? [=]]|Hle]. rewrite length_take. lia.
Qed.

(** After an answer "saved", a save of any number that resolves to an entry
    with the saved title is answered "already saved" and changes nothing. *)
Lemma handle_save_command_again env1 env2 chat_id n1 n2 st saved recorded
    news' :
  (handle_save_command env1 chat_id n1 st).1 = Saved saved ->
  let st1 := (handle_save_command env1 chat_id n1 st).2 in
  last_news_cache st1 !! chat_id = Some recorded ->
  resolve recorded n2 = Some news' ->
  title news' = title saved ->
  handle_save_command env2 chat_id n2 st1 = (AlreadySaved, st1).
Proof.
  intros Hsaved.
  destruct (handle_save_command_Saved _ _ _ _ _ Hsaved)
    as (_ & _ & _ & _ & Hfav & _).
  set (st1 := (handle_save_command env1 chat_id n1 st).2) in *.
  cbv zeta. intros Hc Hres Ht.
  rewrite (handle_save_command_exists env2 chat_id n2 st1 recorded news'
             Hc Hres).
  - by destruct st1.
  - unfold handle_favorites_command at 1. rewrite Hfav, lookup_insert_eq.
    cbn [default from_option id]. rewrite Ht. apply any_title_true.
    rewrite fmap_app.
    apply elem_of_app. right. apply list_elem_of_here.
Qed.

(** What an answer "saved" of [save_command] in [bot.py] tells. *)
Lemma bot_save_command_Saved user_id news_number st shown :
  (bot.save_command user_id news_number st).1 = bot.Saved shown ->
  ∃ entry,
    1 <= news_number
    ∧ default [] (news (news_file st)) !! Z.to_nat (news_number - 1)
      = Some entry
    ∧ any_title (title entry) (bot.favorites_command user_id st) = false
    ∧ shown = slice_to 50 (title entry).
Proof.
  unfold bot.save_command, bot.favorites_command.
  destruct (bool_decide (news_number < 1)) eqn:Hlow; [done|].
  apply bool_decide_eq_false in Hlow. cbn [orb].
  destruct (bool_decide (news_number > _)); [done|].
  destruct (default [] (news (news_file st)) !! Z.to_nat (news_number - 1))
    as [entry|]; [|done].
  destruct (any_title (title entry) _) eqn:Hany; [done|].
  cbn [fst]. intros [= <-]. exists entry. split_and!; [lia|done..].
Qed.

(** A save in [bot.py] of a number whose entry has a title that is among
    the user's favorites. *)
Lemma bot_save_command_exists user_id news_number st entry :
  1 <= news_number ->
  default [] (news (news_file st)) !! Z.to_nat (news_number - 1)
    = Some entry ->
  any_title (title entry) (bot.favorites_command user_id st) = true ->
  bot.save_command user_id news_number st = (bot.AlreadySaved, st).
Proof.
  intros Hn Hl Hany. unfold bot.save_command.
  pose proof (lookup_lt_Some _ _ _ Hl) as Hlt.
  rewrite (bool_decide_eq_false_2 (news_number < 1)) by lia.
  rewrite (bool_decide_eq_false_2 (news_number > _)) by lia.
  cbn [orb]. rewrite Hl. unfold bot.favorites_command in Hany.
  by rewrite Hany.
Qed.

(** C5: a save of a number that resolves to an entry whose title is not yet
    among the user's favorites is answered "saved".  Whenever a save is
    answered "saved", for any user and in any state (the user may or may
    not have a recorded list), the entry is appended to the user's
    favorites, exactly one of which then has its title, and a second save
    that resolves to an entry with that title is answered "already saved"
    and changes nothing.  That is so for the same number
    again: in [simple_sync_webhook_bot.py] when the number is in the list
    recorded for the user (the user had a recorded list, or the number is
    at most 5), in [bot.py] always. *)
Theorem save_twice :
  (∀ env chat_id n st news,
     resolve match last_news_cache st !! chat_id with
             | Some recorded => recorded
             | None => get_news env
             end n = Some news ->
     any_title (title news) (handle_favorites_command chat_id st) = false ->
     (handle_save_command env chat_id n st).1
     = Saved (set_saved_at (now env) news))
  ∧ (∀ env1 env2 chat_id n1 st saved,
     (handle_save_command env1 chat_id n1 st).1 = Saved saved ->
     let st1 := (handle_save_command env1 chat_id n1 st).2 in
     handle_favorites_command chat_id st1
       = handle_favorites_command chat_id st ++ [saved]
     ∧ length (filter (fun entry => title entry = title saved)
                 (handle_favorites_command chat_id st1)) = 1%nat
     ∧ (is_Some (last_news_cache st !! chat_id) ∨ n1 <= 5 ->
        handle_save_command env2 chat_id n1 st1 = (AlreadySaved, st1))
     ∧ (∀ n2 recorded news',
          last_news_cache st1 !! chat_id = Some recorded ->
          resolve recorded n2 = Some news' ->
          title news' = title saved ->
          handle_save_command env2 chat_id n2 st1 = (AlreadySaved, st1)))
  ∧ (∀ user_id n st entry,
       1 <= n ->
       default [] (news (news_file st)) !! Z.to_nat (n - 1) = Some entry ->
       any_title (title entry) (bot.favorites_command user_id st) = false ->
       (bot.save_command user_id n st).1
       = bot.Saved (slice_to 50 (title entry)))
  ∧ (∀ user_id n1 st shown,
       (bot.save_command user_id n1 st).1 = bot.Saved shown ->
       let st1 := (bot.save_command user_id n1 st).2 in
       ∃ entry,
         default [] (news (news_file st)) !! Z.to_nat (n1 - 1) = Some entry
         ∧ shown = slice_to 50 (title entry)
         ∧ bot.favorites_command user_id st1
           = bot.favorites_command user_id st ++ [entry]
         ∧ length (filter (fun saved => title saved = title entry)
                     (bot.favorites_command user_id st1)) = 1%nat
         ∧ bot.save_command user_id n1 st1 = (bot.AlreadySaved, st1)
         ∧ ∀ n2 entry',
             1 <= n2 ->
             default [] (news (news_file st1)) !! Z.to_nat (n2 - 1)
               = Some entry' ->
             title entry' = title entry ->
             bot.save_command user_id n2 st1 = (bot.AlreadySaved, st1)).
Proof.
  split_and!.
  - intros env chat_id n st news. unfold handle_save_command,
      lookup_news_list, handle_favorites_command.
    destruct (last_news_cache st !! chat_id) as [recorded|];
      intros -> ->; done.
  - intros env1 env2 chat_id n1 st saved Hsaved.
    destruct (handle_save_command_Saved _ _ _ _ _ Hsaved)
      as (Hn & Hany & Hcache & Hlen & Hfav & _).
    pose proof (handle_save_command_again env1 env2 chat_id n1) as Hagain.
    set (st1 := (handle_save_command env1 chat_id n1 st).2) in *.
    cbv zeta.
    assert (handle_favorites_command chat_id st1
            = handle_favorites_command chat_id st ++ [saved]) as Hfavs.
    { unfold handle_favorites_command at 1.
      by rewrite Hfav, lookup_insert_eq. }
    split_and!.
    + exact Hfavs.
    + rewrite Hfavs, filter_app, (any_title_no_match _ _ Hany).
      by rewrite filter_cons_True.
    + intros Hin. specialize (Hlen Hin).
      apply (Hagain n1 st saved _ saved Hsaved Hcache); [|done].
      rewrite resolve_in_range by (rewrite length_insert; lia).
      by apply list_lookup_insert_eq.
    + intros n2 recorded news' Hc Hres Ht.
      by apply (Hagain n2 st saved recorded news' Hsaved).
  - intros user_id n st entry Hn Hl Hany.
    by destruct (bot_save_twice user_id n st entry Hn Hl Hany) as (-> & _).
  - intros user_id n1 st shown Hsaved.
    destruct (bot_save_command_Saved _ _ _ _ Hsaved)
      as (entry & Hn & Hl & Hany & ->).
    destruct (bot_save_twice user_id n1 st entry Hn Hl Hany)
      as (_ & Htwice & Hfavs).
    cbv zeta in Htwice, Hfavs. rewrite Htwice in Hfavs. cbn [snd] in Hfavs.
    set (st1 := (bot.save_command user_id n1 st).2) in *.
    cbv zeta. exists entry.
    split_and!; [done|done|exact Hfavs| |exact Htwice|].
    + rewrite Hfavs, filter_app, (any_title_no_match _ _ Hany).
      by rewrite filter_cons_True.
    + intros n2 entry' Hn2 Hl2 Ht.
      apply (bot_save_command_exists user_id n2 st1 entry' Hn2 Hl2).
      rewrite Hfavs, Ht. apply any_title_true. rewrite fmap_app.
      apply elem_of_app. right. apply list_elem_of_here.
Qed.

(** User 7 has no recorded list: the first save fetches the batch, and
    number 1 again is answered "already saved".  The same in [bot.py], on
    the stored sample batch. *)
Lemma save_twice_witness :
  handle_save_command (offline 7) 7 1
    (handle_save_command (offline 6) 7 1
       simple_sync_webhook_bot.initial_state).2
  = (AlreadySaved,
     (handle_save_command (offline 6) 7 1
        simple_sync_webhook_bot.initial_state).2)
  ∧ ∃ entry,
      default [] (news (news_file (news_file_with (bot._get_test_news 0))))
        !! Z.to_nat (2 - 1) = Some entry
      ∧ bot.save_command 7 2
          (bot.save_command 7 2
             (news_file_with (bot._get_test_news 0))).2
        = (bot.AlreadySaved,
           (bot.save_command 7 2
              (news_file_with (bot._get_test_news 0))).2).
Proof.
  split.
  - apply (proj1 (proj2 save_twice) (offline 6) (offline 7) 7 1
             simple_sync_webhook_bot.initial_state
             (set_saved_at 6 (hd stale_item (get_test_news 6))) eq_refl).
    right. lia.
  - destruct (proj2 (proj2 (proj2 save_twice)) 7 2
                (news_file_with (bot._get_test_news 0))
                (slice_to 50 "Открытие в области квантовой физики") eq_refl)
      as (entry & Hl & _ & _ & _ & Htwice & _).
    by exists entry.
Defined.

(** No entry of a list shown to a user has the title of one of the user's
    favorites. *)
Lemma news_shown_not_saved env chat_id st shown st' news :
  handle_news_command env chat_id st = (NewsShown shown, st') ->
  news ∈ shown ->
  any_title (title news) (handle_favorites_command chat_id st') = false.
Proof.
  intros H Hin. apply handle_news_command_shown in H as (-> & _ & Hf & _).
  unfold handle_favorites_command. rewrite Hf.
  apply elem_of_take in Hin as (i & Hi & _).
  by apply list_elem_of_lookup_2, filter_saved_elem in Hi as [_ Hany].
Qed.

(** C7: the list [handle_news_command] shows to a user replaces whatever
    list was recorded for that user.  After the user is shown [x, y, z],
    saving number 2 saves [y]; after the user is then shown [p, q], saving
    number 2 saves [q]. *)
Theorem fresh_list_replaces_recorded env1 env2 env3 env4 chat_id
    st st1 st2 st3 st4 r2 r4 x y z p q :
  handle_news_command env1 chat_id st = (NewsShown [x; y; z], st1) ->
  handle_save_command env2 chat_id 2 st1 = (r2, st2) ->
  handle_news_command env3 chat_id st2 = (NewsShown [p; q], st3) ->
  handle_save_command env4 chat_id 2 st3 = (r4, st4) ->
  last_news_cache st1 !! chat_id = Some [x; y; z]
  ∧ r2 = Saved (set_saved_at (now env2) y)
  ∧ last_news_cache st3 !! chat_id = Some [p; q]
  ∧ r4 = Saved (set_saved_at (now env4) q).
Proof.
  intros H1 H2 H3 H4.
  pose proof (news_shown_not_saved _ _ _ _ _ y H1) as Hy.
  pose proof (news_shown_not_saved _ _ _ _ _ q H3) as Hq.
  apply handle_news_command_shown in H1 as (_ & Hc1 & _ & _).
  apply handle_news_command_shown in H3 as (_ & Hc3 & _ & _).
  assert (last_news_cache st1 !! chat_id = Some [x; y; z]) as Hl1
    by (rewrite Hc1; apply lookup_insert_eq).
  assert (last_news_cache st3 !! chat_id = Some [p; q]) as Hl3
    by (rewrite Hc3; apply lookup_insert_eq).
  rewrite (handle_save_command_saved env2 chat_id 2 st1 [x; y; z] y) in H2;
    [|done|done|].
  2:{ apply Hy. set_solver. }
  rewrite (handle_save_command_saved env4 chat_id 2 st3 [p; q] q) in H4;
    [|done|done|].
  2:{ apply Hq. set_solver. }
  injection H2 as <- _. injection H4 as <- _. done.
Qed.

Lemma fresh_list_replaces_recorded_witness :
  let env1 := online [article "X"; article "Y"; article "Z"] 1 in
  let x := make_item "общие" 1 (article "X") in
  let y := make_item "общие" 1 (article "Y") in
  let z := make_item "общие" 1 (article "Z") in
  let p := hd stale_item (get_test_news 3) in
  let q := hd stale_item (tail (get_test_news 3)) in
  let st1 := (handle_news_command env1 7 initial_state).2 in
  let st2 := (handle_save_command (offline 2) 7 2 st1).2 in
  let st3 := (handle_news_command (offline 3) 7 st2).2 in
  last_news_cache st1 !! 7 = Some [x; y; z]
  ∧ (handle_save_command (offline 2) 7 2 st1).1 = Saved (set_saved_at 2 y)
  ∧ last_news_cache st3 !! 7 = Some [p; q]
  ∧ (handle_save_command (offline 4) 7 2 st3).1 = Saved (set_saved_at 4 q).
Proof.
  apply (fresh_list_replaces_recorded
           (online [article "X"; article "Y"; article "Z"] 1)
           (offline 2) (offline 3) (offline 4) 7 initial_state
           (handle_news_command
              (online [article "X"; article "Y"; article "Z"] 1) 7
              initial_state).2
           (handle_save_command (offline 2) 7 2
              (handle_news_command
                 (online [article "X"; article "Y"; article "Z"] 1) 7
                 initial_state).2).2
           (handle_news_command (offline 3) 7
              (handle_save_command (offline 2) 7 2
                 (handle_news_command
                    (online [article "X"; article "Y"; article "Z"] 1) 7
                    initial_state).2).2).2
           (handle_save_command (offline 4) 7 2
              (handle_news_command (offline 3) 7
                 (handle_save_command (offline 2) 7 2
                    (handle_news_command
                       (online [article "X"; article "Y"; article "Z"] 1) 7
                       initial_state).2).2).2).2);
    vm_compute; reflexivity.
Defined.

(** ** Subscriptions in [simple_sync_webhook_bot.py] *)

(** Pressing the offered button flips what [/daily] offers next, for that
    user only; pressing twice gives the original offer again. *)
Lemma press_offered_flips env chat_id st :
  handle_daily_command chat_id (press_offered env chat_id st)
  = match handle_daily_command chat_id st with
    | OfferSubscribe => OfferUnsubscribe
    | OfferUnsubscribe => OfferSubscribe
    end
  ∧ ∀ other, other ≠ chat_id ->
      handle_daily_command other (press_offered env chat_id st)
      = handle_daily_command other st.
Proof.
  unfold press_offered, handle_daily_command.
  destruct (subscriptions_file st !! chat_id) as [sub|] eqn:Hsub.
  - destruct (subscribed sub) eqn:Hflag; simpl; split.
    + by rewrite lookup_alter, decide_True, Hsub by done.
    + intros other Hne. by rewrite lookup_alter, decide_False by done.
    + by rewrite lookup_insert_eq.
    + intros other Hne. by rewrite lookup_insert_ne.
  - simpl. split.
    + by rewrite lookup_insert_eq.
    + intros other Hne. by rewrite lookup_insert_ne.
Qed.

Lemma press_offered_twice env1 env2 chat_id st :
  handle_daily_command chat_id
    (press_offered env2 chat_id (press_offered env1 chat_id st))
  = handle_daily_command chat_id st.
Proof.
  rewrite (proj1 (press_offered_flips env2 chat_id _)).
  rewrite (proj1 (press_offered_flips env1 chat_id st)).
  by destruct (handle_daily_command chat_id st).
Qed.
(** ** [simple_sync_webhook_bot.py]: what any sequence of updates keeps *)

Lemma take_5_ok (l : list Item) :
  l ≠ [] -> take 5 l ≠ [] ∧ (length (take 5 l) <= 5)%nat.
Proof. intros Hl. split; [by destruct l|]. rewrite length_take. lia. Qed.

Lemma insert_recorded_ok chat_id (l : list Item) (cache : gmap Z (list Item)) :
  l ≠ [] -> recorded_ok cache -> recorded_ok (<[chat_id := take 5 l]> cache).
Proof.
  intros Hl Hok u rec. destruct (decide (chat_id = u)) as [->|Hne].
  - rewrite lookup_insert_eq. intros [= <-]. by apply take_5_ok.
  - rewrite lookup_insert_ne by done. apply Hok.
Qed.

Lemma lookup_news_list_ok env chat_id (cache : gmap Z (list Item)) :
  recorded_ok cache ->
  recorded_ok (lookup_news_list env chat_id cache).2.
Proof.
  intros Hok. unfold lookup_news_list.
  destruct (cache !! chat_id) as [l|] eqn:Hc; [done|]. cbn [snd].
  destruct (get_news env) as [|x l] eqn:Hg; [done|].
  by apply insert_recorded_ok.
Qed.

Lemma core_news_step env chat_id st :
  recorded_ok (last_news_cache st) ->
  recorded_ok (last_news_cache (handle_news_command env chat_id st).2)
  ∧ favorites_file (handle_news_command env chat_id st).2 = favorites_file st
  ∧ subscriptions_file (handle_news_command env chat_id st).2
    = subscriptions_file st.
Proof.
  intros Hok. unfold handle_news_command.
  destruct (get_news env) as [|x l]; [done|].
  destruct (_filter_saved_news _ _ _) as [|y l'] eqn:Hf; [done|].
  cbn [snd last_news_cache favorites_file subscriptions_file].
  split; [|done]. by apply insert_recorded_ok.
Qed.

Lemma core_save_step env chat_id news_number st :
  recorded_ok (last_news_cache st) ->
  recorded_ok (last_news_cache (handle_save_command env chat_id news_number st).2)
  ∧ favorites_step (favorites_file st)
      (favorites_file (handle_save_command env chat_id news_number st).2)
  ∧ subscriptions_file (handle_save_command env chat_id news_number st).2
    = subscriptions_file st.
Proof.
  intros Hok. unfold handle_save_command.
  pose proof (lookup_news_list_ok env chat_id _ Hok) as Hok'.
  destruct (lookup_news_list env chat_id (last_news_cache st))
    as [news_list cache]. simpl in Hok'.
  destruct (resolve news_list news_number) as [news_to_save|];
    [|split_and!; [done|constructor|done]].
  destruct (any_title _ _) eqn:Hany; [split_and!; [done|constructor|done]|].
  simpl. split_and!; [|by constructor|done].
  intros u rec. rewrite lookup_alter.
  destruct (decide (chat_id = u)) as [->|Hne]; [|apply Hok'].
  destruct (cache !! u) as [l|] eqn:Hl; [|done]. simpl. intros [= <-].
  destruct (Hok' u l Hl) as [Hne Hlen]. rewrite length_insert.
  split; [|done]. intros Hnil. apply (f_equal length) in Hnil.
  rewrite length_insert in Hnil. by destruct l.
Qed.

(** What one update does to the recorded lists and the favorites. *)
Lemma simple_handle_step int env chat_id cmd st :
  recorded_ok (last_news_cache (simple_sync_handlers.core st)) ->
  let st' := (simple_sync_handlers.handle int env chat_id cmd st).2 in
  recorded_ok (last_news_cache (simple_sync_handlers.core st'))
  ∧ favorites_step (favorites_file (simple_sync_handlers.core st))
      (favorites_file (simple_sync_handlers.core st')).
Proof.
  intros Hok. cbv zeta.
  assert (∀ n,
    recorded_ok (last_news_cache (simple_sync_handlers.core
      (simple_sync_handlers.handle_save_command env chat_id n st).2))
    ∧ favorites_step (favorites_file (simple_sync_handlers.core st))
        (favorites_file (simple_sync_handlers.core
           (simple_sync_handlers.handle_save_command env chat_id n st).2)))
    as Hsave.
  { intros n. unfold simple_sync_handlers.handle_save_command.
    destruct (simple_sync_handlers._update_user_stats _ _ _) as [form stats].
    pose proof (core_save_step env chat_id n _ Hok) as (H1 & H2 & _).
    by destruct (handle_save_command env chat_id n
                   (simple_sync_handlers.core st)). }
  destruct cmd as [user_name| | | |n|data]; unfold simple_sync_handlers.handle.
  - unfold simple_sync_handlers.handle_start_command.
    destruct (simple_sync_handlers._update_user_stats _ _ _) as [form stats].
    split; [done|constructor].
  - unfold simple_sync_handlers.handle_news_command.
    destruct (simple_sync_handlers._update_user_stats _ _ _) as [form stats].
    pose proof (core_news_step env chat_id _ Hok) as (H1 & H2 & _).
    destruct (handle_news_command env chat_id (simple_sync_handlers.core st)).
    simpl in *. split; [done|]. rewrite H2. constructor.
  - unfold simple_sync_handlers.handle_favorites_command.
    destruct (simple_sync_handlers._update_user_stats _ _ _) as [form stats].
    split; [done|constructor].
  - unfold simple_sync_handlers.handle_daily_command.
    destruct (simple_sync_handlers._update_user_stats _ _ _) as [form stats].
    split; [done|constructor].
  - apply Hsave.
  - unfold simple_sync_handlers.handle_callback_query.
    destruct (String.prefix "save_" data).
    { destruct (_ ≫= int) as [n|]; [apply Hsave|split; [done|constructor]]. }
    destruct (String.prefix "save_filtered_" data).
    { destruct (_ ≫= int) as [n|]; [apply Hsave|split; [done|constructor]]. }
    repeat case_bool_decide; (split; [done|constructor]).
Qed.

(** X12: whatever updates [SimpleNewsBot] receives, every recorded list
    stays non-empty with at most five entries, nobody's favorites come to
    hold two entries with one title, and nobody's favorites lose or reorder
    an entry. *)
Theorem simple_state_kept int steps st :
  recorded_ok (last_news_cache (simple_sync_handlers.core st)) ->
  distinct_titles (favorites_file (simple_sync_handlers.core st)) ->
  let st' := (simple_sync_handlers.run int steps st).2 in
  recorded_ok (last_news_cache (simple_sync_handlers.core st'))
  ∧ distinct_titles (favorites_file (simple_sync_handlers.core st'))
  ∧ ∀ user_id,
      handle_favorites_command user_id (simple_sync_handlers.core st)
        `prefix_of`
        handle_favorites_command user_id (simple_sync_handlers.core st').
Proof.
  cbv zeta. revert st.
  induction steps as [|[[env u] cmd] steps IH]; intros st Hok Hd.
  - done.
  - simpl simple_sync_handlers.run.
    pose proof (simple_handle_step int env u cmd st Hok) as [Hok1 Hstep].
    destruct (simple_sync_handlers.handle int env u cmd st) as [msgs st1].
    cbn [fst snd] in *.
    specialize (IH st1 Hok1 (favorites_step_distinct _ _ Hd Hstep))
      as (IH1 & IH2 & IH3).
    destruct (simple_sync_handlers.run int steps st1) as [out st2].
    cbn [fst snd] in *. split_and!; [done|done|].
    intros user_id. etrans; [|apply IH3].
    by apply favorites_step_prefix.
Qed.

Lemma simple_state_kept_witness :
  let steps := [ (offline 1, 7, simple_sync_handlers.News);
                 (offline 2, 7, simple_sync_handlers.Save 2);
                 (offline 3, 7, simple_sync_handlers.Callback "save_2");
                 (offline 4, 8, simple_sync_handlers.Save 1) ] in
  let st' := (simple_sync_handlers.run (decimal None) steps
                simple_sync_handlers.initial).2 in
  recorded_ok (last_news_cache (simple_sync_handlers.core st'))
  ∧ distinct_titles (favorites_file (simple_sync_handlers.core st'))
  ∧ ∀ user_id,
      handle_favorites_command user_id
        (simple_sync_handlers.core simple_sync_handlers.initial)
        `prefix_of`
        handle_favorites_command user_id (simple_sync_handlers.core st').
Proof.
  apply (simple_state_kept (decimal None)
           [ (offline 1, 7, simple_sync_handlers.News);
             (offline 2, 7, simple_sync_handlers.Save 2);
             (offline 3, 7, simple_sync_handlers.Callback "save_2");
             (offline 4, 8, simple_sync_handlers.Save 1) ]
           simple_sync_handlers.initial).
  - intros u rec H. simpl in H. by rewrite lookup_empty in H.
  - intros u saved H. simpl in H. by rewrite lookup_empty in H.
Defined.

Lemma core_save_favorites env chat_id news_number st :
  favorites_step (favorites_file st)
    (favorites_file (handle_save_command env chat_id news_number st).2).
Proof.
  unfold handle_save_command.
  destruct (lookup_news_list env chat_id (last_news_cache st))
    as [news_list cache].
  destruct (resolve news_list news_number) as [news_to_save|]; [|constructor].
  destruct (any_title _ _) eqn:Hany; [constructor|]. by constructor.
Qed.

Lemma simple_handle_favorites int env chat_id cmd st :
  favorites_step (favorites_file (simple_sync_handlers.core st))
    (favorites_file (simple_sync_handlers.core
       (simple_sync_handlers.handle int env chat_id cmd st).2)).
Proof.
  assert (∀ n,
    favorites_step (favorites_file (simple_sync_handlers.core st))
      (favorites_file (simple_sync_handlers.core
         (simple_sync_handlers.handle_save_command env chat_id n st).2)))
    as Hsave.
  { intros n. unfold simple_sync_handlers.handle_save_command.
    destruct (simple_sync_handlers._update_user_stats _ _ _) as [form stats].
    pose proof (core_save_favorites env chat_id n
                  (simple_sync_handlers.core st)) as H.
    by destruct (handle_save_command env chat_id n
                   (simple_sync_handlers.core st)). }
  destruct cmd as [user_name| | | |n|data]; unfold simple_sync_handlers.handle.
  - unfold simple_sync_handlers.handle_start_command.
    destruct (simple_sync_handlers._update_user_stats _ _ _). constructor.
  - unfold simple_sync_handlers.handle_news_command.
    destruct (simple_sync_handlers._update_user_stats _ _ _) as [form stats].
    unfold handle_news_command.
    destruct (get_news env) as [|x l]; [constructor|].
    destruct (_filter_saved_news _ _ _); constructor.
  - unfold simple_sync_handlers.handle_favorites_command.
    destruct (simple_sync_handlers._update_user_stats _ _ _). constructor.
  - unfold simple_sync_handlers.handle_daily_command.
    destruct (simple_sync_handlers._update_user_stats _ _ _). constructor.
  - apply Hsave.
  - unfold simple_sync_handlers.handle_callback_query.
    destruct (String.prefix "save_" data).
    { destruct (_ ≫= int) as [n|]; [apply Hsave|constructor]. }
    destruct (String.prefix "save_filtered_" data).
    { destruct (_ ≫= int) as [n|]; [apply Hsave|constructor]. }
    repeat case_bool_decide; constructor.
Qed.

Lemma simple_run_favorites int steps st user_id :
  handle_favorites_command user_id (simple_sync_handlers.core st)
    `prefix_of`
    handle_favorites_command user_id
      (simple_sync_handlers.core (simple_sync_handlers.run int steps st).2).
Proof.
  revert st. induction steps as [|[[env u] cmd] steps IH]; intros st.
  - done.
  - simpl simple_sync_handlers.run.
    pose proof (simple_handle_favorites int env u cmd st) as Hstep.
    destruct (simple_sync_handlers.handle int env u cmd st) as [msgs st1].
    specialize (IH st1).
    destruct (simple_sync_handlers.run int steps st1) as [out st2].
    cbn [fst snd] in *. etrans; [|apply IH].
    by apply favorites_step_prefix.
Qed.

Lemma core_save_saved env chat_id news_number st saved :
  (handle_save_command env chat_id news_number st).1 = Saved saved ->
  saved ∈ handle_favorites_command chat_id
            (handle_save_command env chat_id news_number st).2.
Proof.
  unfold handle_save_command, handle_favorites_command.
  destruct (lookup_news_list env chat_id (last_news_cache st))
    as [news_list cache].
  destruct (resolve news_list news_number) as [news_to_save|]; [|done].
  destruct (any_title _ _); [done|]. simpl. intros [= <-].
  rewrite lookup_insert_eq. simpl. apply elem_of_app. right.
  by apply list_elem_of_singleton.
Qed.

(** X13: once [handle_save_command] has answered "saved" for an entry, no
    list [handle_news_command] shows to that user, after whatever updates,
    has an entry with that title. *)
Theorem saved_not_shown_again int env chat_id news_number st saved steps
    env' shown :
  (handle_save_command env chat_id news_number
     (simple_sync_handlers.core st)).1 = Saved saved ->
  let st1 :=
    (simple_sync_handlers.handle_save_command env chat_id news_number st).2 in
  let st2 := (simple_sync_handlers.run int steps st1).2 in
  (handle_news_command env' chat_id (simple_sync_handlers.core st2)).1
    = NewsShown shown ->
  ∀ news, news ∈ shown -> title news ≠ title saved.
Proof.
  intros Hsaved st1 st2 Hshown news Hin Heq.
  assert (saved ∈ handle_favorites_command chat_id
                    (simple_sync_handlers.core st1)) as Hs1.
  { subst st1. unfold simple_sync_handlers.handle_save_command.
    destruct (simple_sync_handlers._update_user_stats _ _ _) as [form stats].
    apply core_save_saved in Hsaved.
    by destruct (handle_save_command env chat_id news_number
                   (simple_sync_handlers.core st)). }
  assert (saved ∈ handle_favorites_command chat_id
                    (simple_sync_handlers.core st2)) as Hs2.
  { destruct (simple_run_favorites int steps st1 chat_id) as [k Hk].
    subst st2. rewrite Hk. apply elem_of_app. by left. }
  destruct (handle_news_command env' chat_id (simple_sync_handlers.core st2))
    as [r st3] eqn:Hnews. simpl in Hshown. subst r.
  pose proof (news_shown_not_saved _ _ _ _ _ news Hnews Hin) as Hany.
  apply handle_news_command_shown in Hnews as (_ & _ & Hf & _).
  unfold handle_favorites_command in *. rewrite Hf in Hany.
  apply any_title_false in Hany. apply Hany. rewrite Heq.
  by apply list_elem_of_fmap_2.
Qed.

Lemma saved_not_shown_again_witness :
  (handle_save_command (offline 2) 7 1
     (simple_sync_handlers.core
        (simple_sync_handlers.handle_news_command (offline 1) 7
           simple_sync_handlers.initial).2)).1
    = Saved (set_saved_at 2 (hd stale_item (get_test_news 1)))
  ∧ title (hd stale_item (drop 1 (get_test_news 4)))
    ≠ title (set_saved_at 2 (hd stale_item (get_test_news 1))).
Proof.
  split; [reflexivity|].
  apply (saved_not_shown_again (decimal None) (offline 2) 7 1
           (simple_sync_handlers.handle_news_command (offline 1) 7
              simple_sync_handlers.initial).2
           (set_saved_at 2 (hd stale_item (get_test_news 1)))
           [(offline 3, 7, simple_sync_handlers.Daily)] (offline 4)
           (drop 1 (get_test_news 4))).
  - reflexivity.
  - reflexivity.
  - vm_compute. apply list_elem_of_here.
Defined.

(** X14: for a user without a recorded list, [handle_save_command]
    resolves a number from 6 to the length of the freshly fetched batch
    against that batch, but records only its first five entries: the same
    number is answered "invalid number, 1 to 5 available" the next time. *)
Theorem save_beyond_recorded env env2 chat_id news_number st :
  last_news_cache st !! chat_id = None ->
  5 < news_number <= Z.of_nat (length (get_news env)) ->
  let r1 := handle_save_command env chat_id news_number st in
  (∃ entry,
     get_news env !! Z.to_nat (news_number - 1) = Some entry
     ∧ (r1.1 = Saved (set_saved_at (now env) entry) ∨ r1.1 = AlreadySaved))
  ∧ last_news_cache r1.2 !! chat_id = Some (take 5 (get_news env))
  ∧ (handle_save_command env2 chat_id news_number r1.2).1 = InvalidNumber 5.
Proof.
  intros Hc Hn. cbv zeta.
  assert (get_news env ≠ []) as Hne.
  { intros Hnil. rewrite Hnil in Hn. simpl in Hn. lia. }
  destruct (lookup_lt_is_Some_2 (get_news env) (Z.to_nat (news_number - 1)))
    as [entry Hentry]; [lia|].
  assert (lookup_news_list env chat_id (last_news_cache st)
          = (get_news env,
             <[chat_id := take 5 (get_news env)]> (last_news_cache st)))
    as Hlook.
  { unfold lookup_news_list. rewrite Hc. by destruct (get_news env). }
  assert (last_news_cache (handle_save_command env chat_id news_number st).2
            !! chat_id = Some (take 5 (get_news env))) as Hcache.
  { unfold handle_save_command. rewrite Hlook.
    rewrite resolve_in_range, Hentry by lia.
    destruct (any_title _ _); simpl.
    - apply lookup_insert_eq.
    - rewrite lookup_alter_eq, lookup_insert_eq. simpl. f_equal.
      apply list_insert_ge. rewrite length_take. lia. }
  split_and!.
  - exists entry. split; [done|]. unfold handle_save_command.
    rewrite Hlook, resolve_in_range, Hentry by lia.
    destruct (any_title _ _); [by right|by left].
  - done.
  - unfold handle_save_command at 1. unfold lookup_news_list.
    rewrite Hcache. rewrite resolve_out_of_range.
    + cbn [fst]. f_equal. rewrite length_take. lia.
    + right. rewrite length_take. lia.
Qed.

Lemma save_beyond_recorded_witness :
  let env := online (article <$> ["a"; "b"; "c"; "d"; "e"; "f"; "g"]) 1 in
  let r1 := handle_save_command env 7 6 simple_sync_webhook_bot.initial_state in
  (∃ entry,
     get_news env !! Z.to_nat (6 - 1) = Some entry
     ∧ (r1.1 = Saved (set_saved_at (now env) entry) ∨ r1.1 = AlreadySaved))
  ∧ last_news_cache r1.2 !! 7 = Some (take 5 (get_news env))
  ∧ (handle_save_command (offline 2) 7 6 r1.2).1 = InvalidNumber 5.
Proof.
  apply (save_beyond_recorded
           (online (article <$> ["a"; "b"; "c"; "d"; "e"; "f"; "g"]) 1)
           (offline 2) 7 6 simple_sync_webhook_bot.initial_state).
  - reflexivity.
  - vm_compute. split; [reflexivity|discriminate].
Defined.

(** ** The buttons under search and category results *)

(** X15: in [simple_sync_webhook_bot.py] a press of the save button under a
    [/filter] result, whose data is [save_filtered_<number>], never saves:
    the part read as the number is the word "filtered", so the error
    message is sent and nothing changes. *)
Theorem filtered_button_never_saves int env chat_id rest st :
  int "filtered" = None ->
  simple_sync_handlers.handle_callback_query int env chat_id
    ("save_filtered_" +:+ rest) st
  = ([simple_sync_handlers.SaveButtonError], st).
Proof.
  intros Hint. unfold simple_sync_handlers.handle_callback_query.
  change (String.prefix "save_" ("save_filtered_" +:+ rest)) with true.
  change (split_on underscore ("save_filtered_" +:+ rest))
    with ("save" :: "filtered" :: split_on underscore rest).
  simpl. by rewrite Hint.
Qed.

Lemma filtered_button_never_saves_witness :
  simple_sync_handlers.handle_callback_query (decimal None) (offline 1) 7
    ("save_filtered_" +:+ "1") simple_sync_handlers.initial
  = ([simple_sync_handlers.SaveButtonError], simple_sync_handlers.initial).
Proof.
  apply (filtered_button_never_saves (decimal None) (offline 1) 7 "1"
           simple_sync_handlers.initial).
  reflexivity.
Defined.

(** X16: in [bot.py] a press of the save button under a [/filter] or a
    [/category] result, whose data is [save_filtered_<number>] or
    [save_category_<number>], never saves and never reaches the hint to use
    [/save]: the part read as the number is a word, so the error message is
    shown and nothing changes. *)
Theorem search_buttons_never_save int user_id rest st :
  int "filtered" = None ->
  int "category" = None ->
  bot_handlers.button_callback int user_id ("save_filtered_" +:+ rest) st
    = ([bot_handlers.ButtonError], st)
  ∧ bot_handlers.button_callback int user_id ("save_category_" +:+ rest) st
    = ([bot_handlers.ButtonError], st).
Proof.
  intros Hf Hc. unfold bot_handlers.button_callback.
  change (String.prefix "save_" ("save_filtered_" +:+ rest)) with true.
  change (String.prefix "save_" ("save_category_" +:+ rest)) with true.
  change (split_on underscore ("save_filtered_" +:+ rest))
    with ("save" :: "filtered" :: split_on underscore rest).
  change (split_on underscore ("save_category_" +:+ rest))
    with ("save" :: "category" :: split_on underscore rest).
  simpl. by rewrite Hf, Hc.
Qed.

Lemma search_buttons_never_save_witness :
  bot_handlers.button_callback (decimal None) 7 ("save_filtered_" +:+ "1")
    bot_handlers.initial
    = ([bot_handlers.ButtonError], bot_handlers.initial)
  ∧ bot_handlers.button_callback (decimal None) 7 ("save_category_" +:+ "1")
      bot_handlers.initial
    = ([bot_handlers.ButtonError], bot_handlers.initial).
Proof.
  apply (search_buttons_never_save (decimal None) 7 "1" bot_handlers.initial);
    reflexivity.
Defined.

(** ** Subscriptions and the fetch of [simple_sync_webhook_bot.py] *)

(** X17: after [_subscribe_to_daily] the user is offered to unsubscribe and
    after [_unsubscribe_from_daily] to subscribe; unsubscribing a user who
    has no subscription entry changes nothing; and neither changes what
    another user is offered, a recorded list or the favorites. *)
Theorem subscription_buttons env chat_id st :
  handle_daily_command chat_id (_subscribe_to_daily env chat_id st)
    = OfferUnsubscribe
  ∧ handle_daily_command chat_id (_unsubscribe_from_daily env chat_id st)
    = OfferSubscribe
  ∧ (subscriptions_file st !! chat_id = None ->
     _unsubscribe_from_daily env chat_id st = st)
  ∧ ∀ st', st' = _subscribe_to_daily env chat_id st
           ∨ st' = _unsubscribe_from_daily env chat_id st ->
      last_news_cache st' = last_news_cache st
      ∧ favorites_file st' = favorites_file st
      ∧ ∀ other, other ≠ chat_id ->
          handle_daily_command other st' = handle_daily_command other st.
Proof.
  unfold handle_daily_command, _subscribe_to_daily, _unsubscribe_from_daily.
  split_and!; simpl.
  - by rewrite lookup_insert_eq.
  - rewrite lookup_alter_eq.
    by destruct (subscriptions_file st !! chat_id).
  - intros Hnone. destruct st as [cache favs subs]. simpl in *. f_equal.
    apply map_eq. intros u. rewrite lookup_alter.
    destruct (decide (chat_id = u)) as [->|]; [by rewrite Hnone|done].
  - intros st' [-> | ->]; simpl; (split_and!; [done|done|]);
      intros other Hne.
    + by rewrite lookup_insert_ne.
    + by rewrite lookup_alter_ne.
Qed.

(** X18: whatever the random draws, as long as the final shuffle only
    reorders, [get_news] returns at most eight entries, each with a
    non-empty title, description and link, the link not being the mark of a
    removed article. *)
Theorem get_news_entries env :
  (∀ l, shuffle_news (random env) l ≡ₚ l) ->
  (length (get_news env) <= 8)%nat ∧ Forall well_formed (get_news env).
Proof.
  intros Hperm.
  assert (Forall well_formed (get_test_news (now env))) as Htest
    by (repeat constructor; discriminate).
  unfold get_news. destruct (negb (truthy (news_api_key env))).
  { split; [simpl; lia|done]. }
  pose proof (fetch_categories_well_formed (category_request (random env))
                (provider env) (now env)
                (take 3 (shuffle_categories (random env)
                   ["technology"; "science"; "business"; "health"; "sports";
                    "entertainment"])) []) as Hc.
  destruct (fetch_categories _ _ _ _ _) as [[news_list|] log].
  2:{ split; [simpl; lia|done]. }
  specialize (Hc news_list (Forall_nil_2 _) eq_refl).
  split; [rewrite length_take; lia|].
  apply Forall_take. rewrite Hperm.
  destruct (length news_list <? 5)%nat; [|done].
  destruct (provider env (general_request (random env))) as [|data]; [done|].
  destruct (data_ok data); [|done].
  by apply merge_general_well_formed.
Qed.

Lemma get_news_entries_witness :
  (length (get_news (online (article <$> ["a"; "b"; "c"]) 1)) <= 8)%nat
  ∧ Forall well_formed (get_news (online (article <$> ["a"; "b"; "c"]) 1)).
Proof.
  apply (get_news_entries (online (article <$> ["a"; "b"; "c"]) 1)).
  intros l. reflexivity.
Defined.

(** ** The feedback form of [simple_sync_webhook_bot.py] *)

Lemma forms_simple_app u out1 out2 :
  forms_simple u (out1 ++ out2)
  = (forms_simple u out1 + forms_simple u out2)%nat.
Proof. unfold forms_simple. by rewrite List.filter_app, length_app. Qed.

Lemma forms_simple_none u v (msgs : list simple_sync_handlers.Message) :
  (∀ m, m ∈ msgs -> m ≠ simple_sync_handlers.FeedbackForm) ->
  forms_simple u (map (fun m => (v, m)) msgs) = 0%nat.
Proof.
  induction msgs as [|m msgs IH]; intros Hm; [done|].
  unfold forms_simple in *. simpl.
  assert (m ≠ simple_sync_handlers.FeedbackForm) as Hne by (apply Hm; left).
  destruct m; try done; apply IH; intros m' Hin; apply Hm; by right.
Qed.

Lemma prefix_of_longer s1 s2 s :
  String.prefix (s1 +:+ s2) s = true -> String.prefix s1 s = true.
Proof.
  revert s. induction s1 as [|a s1 IH]; intros s H.
  - by destruct s.
  - destruct s as [|b s]; [done|].
    change (String.prefix (String a s1) (String b s))
      with (if Ascii.ascii_dec a b then String.prefix s1 s else false).
    change (String.prefix (String a s1 +:+ s2) (String b s))
      with (if Ascii.ascii_dec a b then String.prefix (s1 +:+ s2) s
            else false) in H.
    destruct (Ascii.ascii_dec a b); [by apply IH|done].
Qed.

(** The data of a "save filtered" button also starts with [save_]: the
    second branch of [handle_callback_query] is never taken. *)
Lemma save_filtered_prefix data :
  String.prefix "save_filtered_" data = true ->
  String.prefix "save_" data = true.
Proof. apply (prefix_of_longer "save_" "filtered_"). Qed.

(** A handler that starts with [_update_user_stats] and sends no feedback
    form of its own. *)
Lemma counted_handler env v stats u msgs stats' rest :
  msgs = (simple_sync_handlers._update_user_stats env v stats).1 ++ rest ->
  stats' = (simple_sync_handlers._update_user_stats env v stats).2 ->
  (∀ m, m ∈ rest -> m ≠ simple_sync_handlers.FeedbackForm) ->
  forms_simple u (map (fun m => (v, m)) msgs)
  = (if bool_decide (v = u)
        && bool_decide (S (count_simple v stats) = 10%nat)
     then 1%nat else 0%nat)
  ∧ count_simple u stats'
    = (count_simple u stats + if bool_decide (v = u) then 1 else 0)%nat.
Proof.
  intros -> -> Hrest.
  assert ((simple_sync_handlers._update_user_stats env v stats).1
          = if bool_decide (S (count_simple v stats) = 10%nat)
            then [simple_sync_handlers.FeedbackForm] else []) as ->.
  { unfold simple_sync_handlers._update_user_stats, count_simple.
    by destruct (stats !! v). }
  rewrite map_app, forms_simple_app, (forms_simple_none _ _ rest) by done.
  split.
  - destruct (bool_decide (S (count_simple v stats) = 10%nat));
      rewrite ?andb_false_r, ?andb_true_r; [|done].
    unfold forms_simple. simpl. by destruct (bool_decide (v = u)).
  - unfold simple_sync_handlers._update_user_stats, count_simple.
    cbn [snd]. case_bool_decide as Hvu.
    + subst u. rewrite lookup_insert_eq. simpl.
      destruct (stats !! v); simpl; lia.
    + rewrite lookup_insert_ne by done. lia.
Qed.

Lemma simple_handle_feedback int env v cmd st u :
  forms_simple u (map (fun m => (v, m))
                    (simple_sync_handlers.handle int env v cmd st).1)
  = (if bool_decide (v = u) && counts int cmd
        && bool_decide
             (S (count_simple v (simple_sync_handlers.user_stats_file st))
              = 10%nat)
     then 1%nat else 0%nat)
  ∧ count_simple u
      (simple_sync_handlers.user_stats_file
         (simple_sync_handlers.handle int env v cmd st).2)
    = (count_simple u (simple_sync_handlers.user_stats_file st)
       + if bool_decide (v = u) && counts int cmd then 1 else 0)%nat.
Proof.
  assert (∀ n,
    forms_simple u (map (fun m => (v, m))
      (simple_sync_handlers.handle_save_command env v n st).1)
    = (if bool_decide (v = u)
          && bool_decide
               (S (count_simple v (simple_sync_handlers.user_stats_file st))
                = 10%nat)
       then 1%nat else 0%nat)
    ∧ count_simple u
        (simple_sync_handlers.user_stats_file
           (simple_sync_handlers.handle_save_command env v n st).2)
      = (count_simple u (simple_sync_handlers.user_stats_file st)
         + if bool_decide (v = u) then 1 else 0)%nat) as Hsave.
  { intros n. unfold simple_sync_handlers.handle_save_command.
    destruct (simple_sync_handlers._update_user_stats env v
                (simple_sync_handlers.user_stats_file st))
      as [form stats] eqn:Hu.
    destruct (handle_save_command env v n (simple_sync_handlers.core st))
      as [r core'].
    eapply counted_handler.
    - cbn [fst]. by rewrite Hu.
    - cbn [snd simple_sync_handlers.user_stats_file]. by rewrite Hu.
    - by intros m ->%list_elem_of_singleton. }
  assert (∀ msgs st',
    forms_simple u (map (fun m => (v, m)) msgs) = 0%nat ->
    simple_sync_handlers.user_stats_file st'
      = simple_sync_handlers.user_stats_file st ->
    forms_simple u (map (fun m => (v, m)) (msgs, st').1)
    = (if bool_decide (v = u) && false
          && bool_decide
               (S (count_simple v (simple_sync_handlers.user_stats_file st))
                = 10%nat)
       then 1%nat else 0%nat)
    ∧ count_simple u (simple_sync_handlers.user_stats_file (msgs, st').2)
      = (count_simple u (simple_sync_handlers.user_stats_file st)
         + if bool_decide (v = u) && false then 1 else 0)%nat) as Hquiet.
  { intros msgs st' Hf Hs. cbn [fst snd]. rewrite Hf, Hs, andb_false_r.
    simpl. split; [done|lia]. }
  destruct cmd as [user_name| | | |n|data];
    unfold simple_sync_handlers.handle, counts;
    rewrite ?andb_true_r.
  - unfold simple_sync_handlers.handle_start_command.
    destruct (simple_sync_handlers._update_user_stats env v
                (simple_sync_handlers.user_stats_file st))
      as [form stats] eqn:Hu.
    eapply counted_handler; cbn [fst snd simple_sync_handlers.user_stats_file];
      [by rewrite Hu|by rewrite Hu|].
    by intros m ->%list_elem_of_singleton.
  - unfold simple_sync_handlers.handle_news_command.
    destruct (simple_sync_handlers._update_user_stats env v
                (simple_sync_handlers.user_stats_file st))
      as [form stats] eqn:Hu.
    destruct (handle_news_command env v (simple_sync_handlers.core st))
      as [r core'].
    eapply counted_handler; cbn [fst snd simple_sync_handlers.user_stats_file];
      [by rewrite Hu|by rewrite Hu|].
    intros m. rewrite !elem_of_cons. by intros [->|[->|?%elem_of_nil]].
  - unfold simple_sync_handlers.handle_favorites_command.
    destruct (simple_sync_handlers._update_user_stats env v
                (simple_sync_handlers.user_stats_file st))
      as [form stats] eqn:Hu.
    eapply counted_handler; cbn [fst snd simple_sync_handlers.user_stats_file];
      [by rewrite Hu|by rewrite Hu|].
    destruct (handle_favorites_command v (simple_sync_handlers.core st));
      by intros m ->%list_elem_of_singleton.
  - unfold simple_sync_handlers.handle_daily_command.
    destruct (simple_sync_handlers._update_user_stats env v
                (simple_sync_handlers.user_stats_file st))
      as [form stats] eqn:Hu.
    eapply counted_handler; cbn [fst snd simple_sync_handlers.user_stats_file];
      [by rewrite Hu|by rewrite Hu|].
    by intros m ->%list_elem_of_singleton.
  - apply Hsave.
  - unfold simple_sync_handlers.handle_callback_query.
    destruct (String.prefix "save_" data) eqn:Hsave_.
    { destruct (_ ≫= int) as [n|].
      - rewrite (bool_decide_eq_true_2 (is_Some (Some n))) by done.
        rewrite andb_true_r. apply Hsave.
      - rewrite (bool_decide_eq_false_2 (is_Some None))
          by (by intros [? ?]).
        apply Hquiet; [|done]. apply forms_simple_none.
        by intros m ->%list_elem_of_singleton. }
    destruct (String.prefix "save_filtered_" data) eqn:Hdead.
    { apply save_filtered_prefix in Hdead. congruence. }
    repeat case_bool_decide; apply Hquiet; try done;
      apply forms_simple_none; by intros m ->%list_elem_of_singleton.
Qed.

(** X19: [SimpleNewsBot] counts every [/start], [/news], [/favorites],
    [/daily], [/save] and every save button whose number is read, and
    sends a user the feedback form exactly when that user's count reaches
    ten: once in a sequence of updates that takes the count from below ten
    to ten or more, and never otherwise. *)
Theorem feedback_at_tenth int steps st u :
  let r := simple_sync_handlers.run int steps st in
  let c := count_simple u (simple_sync_handlers.user_stats_file st) in
  count_simple u (simple_sync_handlers.user_stats_file r.2)
    = (c + counted_simple int u steps)%nat
  ∧ forms_simple u r.1
    = if bool_decide (c < 10 <= c + counted_simple int u steps)%nat
      then 1%nat else 0%nat.
Proof.
  cbv zeta. revert st.
  induction steps as [|[[env v] cmd] steps IH]; intros st.
  - unfold counted_simple, forms_simple. simpl. split; [lia|].
    by rewrite bool_decide_eq_false_2 by lia.
  - simpl simple_sync_handlers.run.
    pose proof (simple_handle_feedback int env v cmd st u) as [Hf Hc].
    destruct (simple_sync_handlers.handle int env v cmd st) as [msgs st1].
    specialize (IH st1) as [IHc IHf].
    destruct (simple_sync_handlers.run int steps st1) as [out st2].
    cbn [fst snd] in *.
    assert (counted_simple int u ((env, v, cmd) :: steps)
            = ((if bool_decide (v = u) && counts int cmd then 1 else 0)
               + counted_simple int u steps)%nat) as Hcounted.
    { unfold counted_simple. simpl.
      by destruct (bool_decide (v = u) && counts int cmd). }
    rewrite Hcounted, forms_simple_app, Hf, IHc, IHf, Hc.
    split; [lia|].
    destruct (bool_decide (v = u)) eqn:Hvu; simpl.
    + apply bool_decide_eq_true in Hvu. subst v.
      destruct (counts int cmd); simpl;
        repeat case_bool_decide; lia.
    + repeat case_bool_decide; lia.
Qed.
